(** * iptv-api: a shallow embedding of the request handlers

    The server is an Express application (src/index.js) with four
    middlewares (middlewares: validateApiKey, authenticateResetToken,
    authenticateToken, requireProfile) and five helpers (utils:
    generateToken, getProfileParams, getFromApi,
    generateUniqueVerificationCode, sendEmail).

    Modelling conventions.
    - A JavaScript number is a binary64. The positions, counts and times
      the handlers compute with are integers below 2^53, which a binary64
      holds exactly, so they are in [Z]; where a number is read from text
      ([parseInt]) or computed from a fraction ([Math.random]) the
      rounding to 53 significant bits is written out ([round53]). NaN is
      [None] in an [option Z].
    - A JavaScript string is a [string], the bytes of its UTF-8 form.
      [String.prototype.toLowerCase], which follows the Unicode tables, is
      an input ([toLowerCase] of [env]); what it does to text of ASCII is
      [asciiLowerCase].
    - A MongoDB collection is a list of documents in insertion order.
    - Everything outside the process (the upstream IPTV API, SendGrid,
      bcrypt, the JWT library, Math.random, the clock) is an explicit
      input: a field of [env] or of the per-request [oracle]. *)

From Stdlib Require Import String Ascii List ZArith QArith Qround Bool Lia.
From Stdlib Require Import Sorting.Permutation Sorting.Sorted.
Import ListNotations.
Local Open Scope string_scope.
Local Open Scope Z_scope.

(* ===================================================================== *)
(** * Part I: definitions *)
(* ===================================================================== *)

(** ** JavaScript values and primitives *)

(** The JSON values found in the fields the handlers read. *)
Inductive jsval : Type :=
| JUndef
| JNull
| JNum (n : Z)
| JStr (s : string).

(** [x || y] on optional strings: [undefined] and the empty string are
    falsy. *)
Definition truthy (o : option string) : bool :=
  match o with
  | Some s => negb (s =? EmptyString)%string
  | None => false
  end.

Definition orElse (a b : option string) : option string :=
  if truthy a then a else b.

(** The string held by a field already tested to be truthy. *)
Definition strOf (o : option string) : string :=
  match o with Some s => s | None => EmptyString end.

(** *** Numbers

    A number of the program is a binary64. [round53 m] is the integer
    nearest to [m >= 0] among those with at most 53 significant bits, the
    even one of two equally near: it is the binary64 nearest to the
    integer [m] and, read in units of 2^-53, the binary64 nearest to
    [m * 2^-53]. *)
Definition round53 (m : Z) : Z :=
  let s := Z.log2 m - 52 in
  if s <=? 0 then m
  else
    let q := m / 2 ^ s in
    let r := m mod 2 ^ s in
    let half := 2 ^ (s - 1) in
    (if (half <? r) || ((r =? half) && Z.odd q) then q + 1 else q) * 2 ^ s.

(** *** parseInt *)

(** White space and line terminators. Those of ASCII are one byte: TAB,
    LF, VT, FF, CR and the space. *)
Definition isWhite (c : ascii) : bool :=
  let n := nat_of_ascii c in
  ((9 <=? n) && (n <=? 13))%nat || (n =? 32)%nat.

(** U+00A0, in two bytes. *)
Definition isWhite2 (c1 c2 : ascii) : bool :=
  ((nat_of_ascii c1 =? 194) && (nat_of_ascii c2 =? 160))%nat.

(** U+1680; U+2000 to U+200A, U+2028, U+2029 and U+202F; U+205F; U+3000;
    U+FEFF, each in three bytes. *)
Definition isWhite3 (c1 c2 c3 : ascii) : bool :=
  let a := nat_of_ascii c1 in
  let b := nat_of_ascii c2 in
  let c := nat_of_ascii c3 in
  ((a =? 225) && (b =? 154) && (c =? 128)
   || (a =? 226) && (b =? 128)
      && ((128 <=? c) && (c <=? 138) || (c =? 168) || (c =? 169) || (c =? 175))
   || (a =? 226) && (b =? 129) && (c =? 159)
   || (a =? 227) && (b =? 128) && (c =? 128)
   || (a =? 239) && (b =? 187) && (c =? 191))%nat.

Fixpoint trimStart (s : string) : string :=
  match s with
  | String c1 s1 =>
      if isWhite c1 then trimStart s1
      else
        match s1 with
        | String c2 s2 =>
            if isWhite2 c1 c2 then trimStart s2
            else
              match s2 with
              | String c3 s3 => if isWhite3 c1 c2 c3 then trimStart s3 else s
              | EmptyString => s
              end
        | EmptyString => s
        end
  | EmptyString => s
  end.

(** The value of [c] as a digit in radix [r], when it is one. *)
Definition digitValue (r : Z) (c : ascii) : option Z :=
  let n := Z.of_nat (nat_of_ascii c) in
  let v := if (48 <=? n) && (n <=? 57) then Some (n - 48)
           else if (97 <=? n) && (n <=? 122) then Some (n - 87)
           else if (65 <=? n) && (n <=? 90) then Some (n - 55)
           else None in
  match v with
  | Some d => if d <? r then Some d else None
  | None => None
  end.

(** Reads the longest prefix of radix-[r] digits; [acc] is [None] until a
    digit has been read. *)
Fixpoint readDigits (r : Z) (s : string) (acc : option Z) : option Z :=
  match s with
  | String c s' =>
      match digitValue r c with
      | Some d =>
          readDigits r s' (Some (match acc with Some a => a * r + d | None => d end))
      | None => acc
      end
  | EmptyString => acc
  end.

(** [parseInt(s)] with no radix argument: leading white space, a sign, an
    optional [0x]/[0X] prefix, then digits; the result is the binary64
    nearest to the integer read, and [None] is NaN. (Beyond 20 decimal
    digits the language lets an implementation read the later digits as
    0, and an integer that rounds to 2^1024, of more than 300 digits,
    reads as Infinity; such an integer is rounded as any other here.) *)
Definition parseIntStr (s : string) : option Z :=
  let s1 := trimStart s in
  let '(sign, s2) :=
    match s1 with
    | String "-" t => (-1, t)
    | String "+" t => (1, t)
    | _ => (1, s1)
    end in
  let '(r, s3) :=
    match s2 with
    | String "0" (String "x" t) => (16, t)
    | String "0" (String "X" t) => (16, t)
    | _ => (10, s2)
    end in
  match readDigits r s3 None with
  | Some m => Some (sign * round53 m)
  | None => None
  end.

(** [parseInt(v)]: the argument goes through ToString first, so
    [undefined] and [null] give NaN and an integer below 10^21 in size
    gives itself. (A larger number is written with an exponent, of which
    [parseInt] reads the leading digit; it is kept as it is here.) *)
Definition parseInt (v : jsval) : option Z :=
  match v with
  | JStr s => parseIntStr s
  | JNum n => Some n
  | JUndef | JNull => None
  end.

(** [parseInt(req.query.page)]: the parameter is a string or absent. *)
Definition parseIntQuery (q : option string) : option Z :=
  match q with
  | Some s => parseIntStr s
  | None => None
  end.

(** [x || 1] on numbers: NaN and 0 are falsy. *)
Definition orOne (x : option Z) : Z :=
  match x with
  | Some n => if n =? 0 then 1 else n
  | None => 1
  end.

(** *** Array.prototype.slice *)

(** A relative index resolved against the array length. *)
Definition clampIndex (len i : Z) : Z :=
  if i <? 0 then Z.max (len + i) 0 else Z.min i len.

(** The first position and the number of positions [slice(s, e)] copies. *)
Definition sliceStart (len s : Z) : nat := Z.to_nat (clampIndex len s).
Definition sliceCount (len s e : Z) : nat :=
  Z.to_nat (Z.max (clampIndex len e - clampIndex len s) 0).

Definition slice {A : Type} (l : list A) (s e : Z) : list A :=
  let len := Z.of_nat (length l) in
  firstn (sliceCount len s e) (skipn (sliceStart len s) l).

(** The positions of the array that [slice(s, e)] copies, in order. *)
Definition slicePositions (len s e : Z) : list nat :=
  seq (sliceStart len s) (sliceCount len s e).

(** *** Array.prototype.sort *)

(** SortCompare: a NaN from the comparator counts as +0. *)
Definition sortCompare {A : Type} (cmp : A -> A -> option Z) (x y : A) : Z :=
  match cmp x y with
  | Some v => v
  | None => 0
  end.

(** [Array.prototype.sort(cmp)]. For a consistent comparator the result
    is determined, the sort being stable, and is the one computed here:
    [x], which came before every element of [l], stays before the first
    [y] it does not compare greater than. (For an inconsistent comparator
    the language leaves the order to the implementation.) *)
Fixpoint sortInsert {A : Type} (cmp : A -> A -> option Z) (x : A) (l : list A)
  : list A :=
  match l with
  | [] => [x]
  | y :: ys =>
      if sortCompare cmp x y <=? 0 then x :: l else y :: sortInsert cmp x ys
  end.

Fixpoint sort {A : Type} (cmp : A -> A -> option Z) (l : list A) : list A :=
  match l with
  | [] => []
  | x :: xs => sortInsert cmp x (sort cmp xs)
  end.

(** Subtraction of two numbers, NaN if either is. *)
Definition numSub (a b : option Z) : option Z :=
  match a, b with
  | Some x, Some y => Some (x - y)
  | _, _ => None
  end.

(** *** Math.ceil and Math.floor on quotients *)

(** [Math.ceil(n / d)] for an array length [n]. *)
Definition mathCeilDiv (n d : Z) : Z :=
  match d with
  | Zpos p => Qceiling (n # p)
  | _ => 0
  end.

(** *** String search and splitting *)

(** [s.includes(q)]. *)
Fixpoint includes (s q : string) : bool :=
  String.prefix q s ||
  match s with
  | String _ s' => includes s' q
  | EmptyString => false
  end.

(** [s.split(sep)] for a one-character separator; [cur] is the piece being
    read. *)
Fixpoint splitAux (sep : ascii) (s : string) (cur : string) : list string :=
  match s with
  | String c s' =>
      if Ascii.eqb c sep then cur :: splitAux sep s' EmptyString
      else splitAux sep s' (cur ++ String c EmptyString)
  | EmptyString => [cur]
  end.

Definition split (sep : ascii) (s : string) : list string := splitAux sep s EmptyString.

(** *** Number.prototype.toString for integers *)

Definition digitChar (d : Z) : ascii := ascii_of_nat (Z.to_nat (48 + d)).

Fixpoint digitsOf (fuel : nat) (n : Z) (acc : string) : string :=
  match fuel with
  | O => acc
  | S f =>
      let acc' := String (digitChar (n mod 10)) acc in
      if n / 10 =? 0 then acc' else digitsOf f (n / 10) acc'
  end.

Definition numberToString (n : Z) : string :=
  if n <? 0 then String "-" (digitsOf (S (Z.to_nat (Z.log2 (- n)))) (- n) EmptyString)
  else digitsOf (S (Z.to_nat (Z.log2 n))) n EmptyString.

(** ** Documents *)

(** An element of an upstream list, with the two fields the handlers read. *)
Record item : Type := { name : jsval; added : jsval }.

(** The decoded JWT payload: [generateToken] and /verify-reset-code sign
    [{ userId }]. *)
Record payload : Type := { userId : string }.

Definition optEqb (a b : option string) : bool :=
  match a, b with
  | Some x, Some y => (x =? y)%string
  | None, None => true
  | _, _ => false
  end.

(** profileSchema and the queries the handlers run on the collection. *)
Module Profile.
Record t : Type := {
  _id : string;
  userId : string;
  url : string;
  username : string;
  password : string;
  name : string
}.

(** [Profile.findOne({ _id, userId })]. *)
Definition findOne (docs : list t) (id uid : string) : option t :=
  find (fun p => (_id p =? id)%string && (userId p =? uid)%string) docs.

(** [Profile.findOne({ userId, name })]. *)
Definition findOneByName (docs : list t) (uid nm : string) : option t :=
  find (fun p => (userId p =? uid)%string && (name p =? nm)%string) docs.

(** [Profile.find({ userId })]. *)
Definition find (docs : list t) (uid : string) : list t :=
  filter (fun p => (userId p =? uid)%string) docs.

(** [profile.save()] of a new document. *)
Definition save (docs : list t) (p : t) : list t := (docs ++ [p])%list.
End Profile.

(** ** The environment of the process *)

Record env : Type := {
  (** [process.env.API_KEY] and [process.env.SECRET_KEY] *)
  API_KEY : option string;
  SECRET_KEY : option string;
  (** [jwt.verify(token, secret)]: the payload, or [None] for an error *)
  jwtVerify : string -> option string -> option payload;
  (** [jwt.sign({ userId }, secret, { expiresIn })]: the token, or [None]
      when it throws *)
  jwtSign : string -> option string -> string -> option string;
  (** [axios.get(url)]: [response.data], or [None] when the request fails *)
  axiosGet : string -> option (list item);
  (** [Date.parse] of a string: a time value, or [None] for NaN *)
  dateParse : string -> option Z;
  (** [String.prototype.toLowerCase]: the mapping of the engine, which
      follows the Unicode character database *)
  toLowerCase : string -> string
}.

(** The time value of [new Date(v)]. *)
Definition newDate (E : env) (v : jsval) : option Z :=
  match v with
  | JUndef => None
  | JNull => Some 0
  | JNum n => if Z.abs n <=? 8640000000000000 then Some n else None
  | JStr s => dateParse E s
  end.

(** ** Requests and responses *)

Record request : Type := {
  headers_x_api_key : option string;
  headers_authorization : option string;
  query_profile : option string;
  query_page : option string;
  query_q : option string;
  params_profileId : option string;
  (** [:categoryId], [:vodId], [:seriesId] or [:liveId] of the route *)
  params_id : string;
  body_name : option string;
  body_url : option string;
  body_username : option string;
  body_password : option string;
  body_email : option string;
  body_firstName : option string;
  body_lastName : option string;
  body_code : option string;
  body_verificationCode : option string;
  body_newPassword : option string;
  (** [req.user], set by [authenticateToken] *)
  user : option payload;
  (** [req.userId], set by [authenticateResetToken] *)
  req_userId : option string
}.

Definition setUser (req : request) (u : payload) : request :=
  {| headers_x_api_key := headers_x_api_key req;
     headers_authorization := headers_authorization req;
     query_profile := query_profile req;
     query_page := query_page req;
     query_q := query_q req;
     params_profileId := params_profileId req;
     params_id := params_id req;
     body_name := body_name req;
     body_url := body_url req;
     body_username := body_username req;
     body_password := body_password req;
     body_email := body_email req;
     body_firstName := body_firstName req;
     body_lastName := body_lastName req;
     body_code := body_code req;
     body_verificationCode := body_verificationCode req;
     body_newPassword := body_newPassword req;
     user := Some u;
     req_userId := req_userId req |}.

Definition setUserId (req : request) (id : string) : request :=
  {| headers_x_api_key := headers_x_api_key req;
     headers_authorization := headers_authorization req;
     query_profile := query_profile req;
     query_page := query_page req;
     query_q := query_q req;
     params_profileId := params_profileId req;
     params_id := params_id req;
     body_name := body_name req;
     body_url := body_url req;
     body_username := body_username req;
     body_password := body_password req;
     body_email := body_email req;
     body_firstName := body_firstName req;
     body_lastName := body_lastName req;
     body_code := body_code req;
     body_verificationCode := body_verificationCode req;
     body_newPassword := body_newPassword req;
     user := user req;
     req_userId := Some id |}.

Inductive body : Type :=
| BStatusText                       (* res.sendStatus *)
| BError (msg : string)             (* { error } *)
| BMessage (msg : string)           (* { message } *)
| BErrors (msgs : list string)      (* { errors } *)
| BToken (token : string)           (* { token } *)
| BReset (msg token : string)       (* { message, resetToken } *)
| BProfile (p : Profile.t)
| BProfiles (ps : list Profile.t)
| BItems (data : list item)
| BPage (page total totalPages : Z) (data : list item)
| BSearch (query : string) (liveStreams movies series : list item).

Record response : Type := { status : Z; json : body }.

Definition hasErrorField (r : response) : bool :=
  match json r with
  | BError _ => true
  | _ => false
  end.

(** ** The middlewares *)

(** The double-quote character, for the messages that contain it. *)
Definition dquote : string := String (ascii_of_nat 34) EmptyString.

Inductive outcome : Type :=
| Respond (r : response)
| Next (req : request).

Definition validateApiKey (E : env) (req : request) : outcome :=
  let apiKey := headers_x_api_key req in
  if optEqb apiKey (API_KEY E) then Next req
  else Respond {| status := 403; json := BError "API Key inválida" |}.

(** [authHeader?.split(" ")[1]] *)
Definition bearerToken (req : request) : option string :=
  match headers_authorization req with
  | Some authHeader => nth_error (split " " authHeader) 1
  | None => None
  end.

Definition authenticateToken (E : env) (req : request) : outcome :=
  match bearerToken req with
  | None => Respond {| status := 401; json := BStatusText |}
  | Some token =>
      match jwtVerify E token (SECRET_KEY E) with
      | None => Respond {| status := 403; json := BStatusText |}
      | Some u => Next (setUser req u)
      end
  end.

Definition authenticateResetToken (E : env) (req : request) : outcome :=
  let token := bearerToken req in
  if negb (truthy token) then
    Respond {| status := 401;
               json := BError "Token requerido para restablecer la contraseña." |}
  else
    match jwtVerify E (strOf token) (SECRET_KEY E) with
    | None => Respond {| status := 403; json := BError "Token inválido o expirado." |}
    | Some decoded => Next (setUserId req (userId decoded))
    end.

Definition requireProfile (req : request) : outcome :=
  let profileId := orElse (query_profile req) (params_profileId req) in
  if negb (truthy profileId) then
    Respond {| status := 400;
               json := BError ("El parámetro " ++ dquote ++ "profile" ++ dquote
                               ++ " es requerido.") |}
  else Next req.

(** ** Handlers that call the upstream API *)

(** A handler body runs inside [try { ... } catch]: it logs the upstream
    URLs it requested and ends in a thrown error or in a value. *)
Definition M (A : Type) : Type := (list string * (string + A))%type.

Definition ret {A : Type} (a : A) : M A := ([], inr a).
Definition throw {A : Type} (msg : string) : M A := ([], inl msg).

Definition bind {A B : Type} (m : M A) (k : A -> M B) : M B :=
  match m with
  | (log, inl e) => (log, inl e)
  | (log, inr a) => let '(log', r) := k a in ((log ++ log')%list, r)
  end.

Notation "x <- m ;; k" := (bind m (fun x => k))
  (at level 61, m at next level, right associativity).

(** [Promise.all] of three requests: all three are issued; the result is
    the first rejection, if any. *)
Definition promiseAll3 {A : Type} (a b c : M A) : M (A * A * A) :=
  let log := (fst a ++ fst b ++ fst c)%list in
  match snd a, snd b, snd c with
  | inr x, inr y, inr z => (log, inr (x, y, z))
  | inl e, _, _ => (log, inl e)
  | _, inl e, _ => (log, inl e)
  | _, _, inl e => (log, inl e)
  end.

(** What a gated handler leaves behind: the response (none when the
    handler's promise rejects outside any [try]), the upstream URLs
    requested and the profile collection. *)
Record handled : Type := {
  sent : option response;
  calls : list string;
  profilesAfter : list Profile.t
}.

(** [try { body } catch (error) { res.status(500).json({ error: msg }) }] *)
Definition tryCatch (docs : list Profile.t) (m : M response) (msg : string)
  : handled :=
  match m with
  | (log, inr r) => {| sent := Some r; calls := log; profilesAfter := docs |}
  | (log, inl _) =>
      {| sent := Some {| status := 500; json := BError msg |};
         calls := log; profilesAfter := docs |}
  end.

(** [res.json(b)] *)
Definition ok (b : body) : response := {| status := 200; json := b |}.

(** utils: [getProfileParams]. The handlers call it behind
    [authenticateToken] and [requireProfile], where [req.user] is set and
    the profile id is a non-empty string; reading [userId] of an absent
    [req.user] is a TypeError. *)
Definition getProfileParams (req : request) (docs : list Profile.t)
  : M Profile.t :=
  match user req, orElse (query_profile req) (params_profileId req) with
  | Some u, Some profileId =>
      match Profile.findOne docs profileId (userId u) with
      | Some profile => ret profile
      | None => throw "Perfil no encontrado o no autorizado"
      end
  | None, _ => throw "TypeError"
  | Some _, None => throw "Perfil no encontrado o no autorizado"
  end.

(** The URL [getFromApi] requests. *)
Definition playerApi (apiUrl username password action additionalParams : string)
  : string :=
  apiUrl ++ "/player_api.php?username=" ++ username
  ++ "&password=" ++ password ++ "&action=" ++ action ++ additionalParams.

(** utils: [getFromApi]: one GET; a failure is rethrown. *)
Definition getFromApi (E : env) (apiUrl username password action
                                additionalParams : string)
  : M (list item) :=
  let u := playerApi apiUrl username password action additionalParams in
  match axiosGet E u with
  | Some data => ([u], inr data)
  | None => ([u], inl "Error al comunicarse con la API IPTV")
  end.

Definition limit : Z := 10.

(** [parseInt(req.query.page) || 1] *)
Definition pageOf (req : request) : Z := orOne (parseIntQuery (query_page req)).

(** [list.slice((page - 1) * limit, page * limit)] *)
Definition paginate {A : Type} (l : list A) (page : Z) : list A :=
  slice l ((page - 1) * limit) (page * limit).

(** The body every paginated endpoint sends for the list [l] it paginates. *)
Definition pageBody (page : Z) (l : list item) : body :=
  BPage page (Z.of_nat (length l)) (mathCeilDiv (Z.of_nat (length l)) limit)
        (paginate l page).

(** The comparators of the three /recent endpoints. *)
Definition byAddedInt (a b : item) : option Z :=
  numSub (parseInt (added b)) (parseInt (added a)).

Definition byAddedDate (E : env) (a b : item) : option Z :=
  numSub (newDate E (added b)) (newDate E (added a)).

(** /vods/recent: sort, then keep the first [totalItems = 50]. *)
Definition recentVods (vods : list item) : list item :=
  slice (sort byAddedInt vods) 0 50.

(** /series/recent and /live/recent: keep the first 50, then sort. *)
Definition limitedThenSorted (E : env) (l : list item) : list item :=
  sort (byAddedDate E) (slice l 0 50).

(** [list.filter(item => item.name.toLowerCase().includes(query.toLowerCase()))];
    a [name] that is not a string has no [toLowerCase]. *)
Fixpoint filterByName (E : env) (query : string) (l : list item)
  : M (list item) :=
  match l with
  | [] => ret []
  | it :: rest =>
      match name it with
      | JStr s =>
          kept <- filterByName E query rest ;;
          ret (if includes (toLowerCase E s) (toLowerCase E query)
               then it :: kept else kept)
      | _ => throw "TypeError"
      end
  end.

(** *** Profile routes *)

(** [body(f).notEmpty().withMessage(msg)] *)
Definition notEmpty (field : option string) (msg : string) : list string :=
  if truthy field then [] else [msg].

(** POST /profiles; [newId] is the [_id] of the document it creates. *)
Definition postProfiles (newId : string) (docs : list Profile.t) (req : request)
  : handled :=
  let errors := (notEmpty (body_name req) "El nombre es requerido"
                 ++ notEmpty (body_url req) "La URL es requerida"
                 ++ notEmpty (body_username req) "El nombre de usuario es requerido"
                 ++ notEmpty (body_password req) "La contraseña es requerida")%list in
  match errors with
  | _ :: _ =>
      {| sent := Some {| status := 400; json := BErrors errors |};
         calls := []; profilesAfter := docs |}
  | [] =>
      match user req with
      | None =>
          {| sent := Some {| status := 500; json := BError "Error al crear el perfil" |};
             calls := []; profilesAfter := docs |}
      | Some u =>
          match Profile.findOneByName docs (userId u) (strOf (body_name req)) with
          | Some _ =>
              {| sent := Some {| status := 400;
                                 json := BError "Ya existe un perfil con ese nombre de usuario para este usuario" |};
                 calls := []; profilesAfter := docs |}
          | None =>
              let profile :=
                {| Profile._id := newId;
                   Profile.userId := userId u;
                   Profile.url := strOf (body_url req);
                   Profile.username := strOf (body_username req);
                   Profile.password := strOf (body_password req);
                   Profile.name := strOf (body_name req) |} in
              {| sent := Some {| status := 201; json := BProfile profile |};
                 calls := []; profilesAfter := Profile.save docs profile |}
          end
      end
  end.

(** GET /profiles *)
Definition getProfiles (docs : list Profile.t) (req : request) : handled :=
  match user req with
  | None => {| sent := None; calls := []; profilesAfter := docs |}
  | Some u =>
      {| sent := Some (ok (BProfiles (Profile.find docs (userId u))));
         calls := []; profilesAfter := docs |}
  end.

(** GET /profiles/:profileId; the route makes [req.params.profileId] a
    string. *)
Definition getProfile (docs : list Profile.t) (req : request) : handled :=
  match user req with
  | None => {| sent := None; calls := []; profilesAfter := docs |}
  | Some u =>
      match Profile.findOne docs (strOf (params_profileId req)) (userId u) with
      | None =>
          {| sent := Some {| status := 404; json := BError "Perfil no encontrado" |};
             calls := []; profilesAfter := docs |}
      | Some profile =>
          {| sent := Some (ok (BProfile profile));
             calls := []; profilesAfter := docs |}
      end
  end.

(** *** Content routes *)

Section Content.
Variable E : env.
Variable docs : list Profile.t.
Variable req : request.

(** The profile lookup and one upstream request, as every content
    handler starts. *)
Definition fetch (action additionalParams : string) : M (list item) :=
  profile <- getProfileParams req docs ;;
  getFromApi E (Profile.url profile) (Profile.username profile)
             (Profile.password profile) action additionalParams.

(** GET /vods/recent *)
Definition getVodsRecent : handled :=
  tryCatch docs
    (vods <- fetch "get_vod_streams" EmptyString ;;
     ret (ok (pageBody (pageOf req) (recentVods vods))))
    "Error al obtener los VODs recientes".

(** GET /vods/categories *)
Definition getVodsCategories : handled :=
  tryCatch docs
    (categories <- fetch "get_vod_categories" EmptyString ;;
     ret (ok (BItems categories)))
    "Error al obtener las categorías de VODs".

(** GET /vods *)
Definition getVods : handled :=
  tryCatch docs
    (vods <- fetch "get_vod_streams" EmptyString ;;
     ret (ok (pageBody (pageOf req) vods)))
    "Error al obtener los VODs".

(** GET /vods/category/:categoryId *)
Definition getVodsCategory : handled :=
  tryCatch docs
    (vods <- fetch "get_vod_streams" ("&category_id=" ++ params_id req) ;;
     ret (ok (pageBody (pageOf req) vods)))
    "Error al obtener los VODs por categoría".

(** GET /vods/:vodId *)
Definition getVod : handled :=
  tryCatch docs
    (vodDetail <- fetch "get_vod_streams" ("&vod_id=" ++ params_id req) ;;
     ret (ok (BItems vodDetail)))
    "Error al obtener los detalles del VOD".

(** GET /series/recent *)
Definition getSeriesRecent : handled :=
  tryCatch docs
    (series <- fetch "get_series" EmptyString ;;
     ret (ok (pageBody (pageOf req) (limitedThenSorted E series))))
    "Error al obtener las series recientes".

(** GET /series/categories *)
Definition getSeriesCategories : handled :=
  tryCatch docs
    (categories <- fetch "get_series_categories" EmptyString ;;
     ret (ok (BItems categories)))
    "Error al obtener las categorías de series".

(** GET /series *)
Definition getSeries : handled :=
  tryCatch docs
    (series <- fetch "get_series" EmptyString ;;
     ret (ok (pageBody (pageOf req) series)))
    "Error al obtener las series".

(** GET /series/category/:categoryId *)
Definition getSeriesCategory : handled :=
  tryCatch docs
    (series <- fetch "get_series_streams" ("&category_id=" ++ params_id req) ;;
     ret (ok (pageBody (pageOf req) series)))
    "Error al obtener las series por categoría".

(** GET /series/:seriesId *)
Definition getSeriesDetail : handled :=
  tryCatch docs
    (seriesDetail <- fetch "get_series_streams" ("&series_id=" ++ params_id req) ;;
     ret (ok (BItems seriesDetail)))
    "Error al obtener los detalles de la serie".

(** GET /live/recent *)
Definition getLiveRecent : handled :=
  tryCatch docs
    (liveStreams <- fetch "get_live_streams" EmptyString ;;
     ret (ok (pageBody (pageOf req) (limitedThenSorted E liveStreams))))
    "Error al obtener los live streams recientes".

(** GET /live/categories *)
Definition getLiveCategories : handled :=
  tryCatch docs
    (categories <- fetch "get_live_categories" EmptyString ;;
     ret (ok (BItems categories)))
    "Error al obtener las categorías de live streams".

(** GET /live *)
Definition getLive : handled :=
  tryCatch docs
    (liveStreams <- fetch "get_live_streams" EmptyString ;;
     ret (ok (pageBody (pageOf req) liveStreams)))
    "Error al obtener los live streams".

(** GET /live/category/:categoryId *)
Definition getLiveCategory : handled :=
  tryCatch docs
    (liveStreams <- fetch "get_live_streams" ("&category_id=" ++ params_id req) ;;
     ret (ok (pageBody (pageOf req) liveStreams)))
    "Error al obtener los live streams por categoría".

(** GET /live/:liveId *)
Definition getLiveDetail : handled :=
  tryCatch docs
    (liveStreamDetail <- fetch "get_live_streams" ("&live_id=" ++ params_id req) ;;
     ret (ok (BItems liveStreamDetail)))
    "Error al obtener los detalles del live stream".

(** GET /search *)
Definition getSearch : handled :=
  tryCatch docs
    (profile <- getProfileParams req docs ;;
     if negb (truthy (query_q req)) then
       ret {| status := 400;
              json := BError "Debe proporcionar un término de búsqueda (q)" |}
     else
       let query := strOf (query_q req) in
       let get action :=
         getFromApi E (Profile.url profile) (Profile.username profile)
                    (Profile.password profile) action EmptyString in
       r <- promiseAll3 (get "get_live_streams") (get "get_vod_streams")
                        (get "get_series") ;;
       let '(liveStreams, movies, series) := r in
       filteredLiveStreams <- filterByName E query liveStreams ;;
       filteredMovies <- filterByName E query movies ;;
       filteredSeries <- filterByName E query series ;;
       ret (ok (BSearch query filteredLiveStreams filteredMovies filteredSeries)))
    "Error al realizar la búsqueda".
End Content.

(** *** The route table of the gated endpoints *)

Inductive endpoint : Type :=
| PostProfiles | GetProfiles | GetProfile
| VodsRecent | VodsCategories | Vods | VodsCategory | Vod
| SeriesRecent | SeriesCategories | Series | SeriesCategory | SeriesDetail
| LiveRecent | LiveCategories | Live | LiveCategory | LiveDetail
| Search.

Inductive middleware : Type := ValidateApiKey | AuthenticateToken | RequireProfile.

(** The stages of a route, for the trace of what ran. *)
Inductive stage : Type :=
| Mw (m : middleware)
| Handler.

Definition isContent (ep : endpoint) : bool :=
  match ep with
  | PostProfiles | GetProfiles | GetProfile => false
  | _ => true
  end.

(** The middlewares each route lists before its handler (the validators of
    POST /profiles only record errors, which the handler reads). *)
Definition middlewares (ep : endpoint) : list middleware :=
  if isContent ep then [ValidateApiKey; AuthenticateToken; RequireProfile]
  else [ValidateApiKey; AuthenticateToken].

Definition runMiddleware (E : env) (m : middleware) (req : request) : outcome :=
  match m with
  | ValidateApiKey => validateApiKey E req
  | AuthenticateToken => authenticateToken E req
  | RequireProfile => requireProfile req
  end.

Definition handler (E : env) (newId : string) (ep : endpoint)
                   (docs : list Profile.t) (req : request) : handled :=
  match ep with
  | PostProfiles => postProfiles newId docs req
  | GetProfiles => getProfiles docs req
  | GetProfile => getProfile docs req
  | VodsRecent => getVodsRecent E docs req
  | VodsCategories => getVodsCategories E docs req
  | Vods => getVods E docs req
  | VodsCategory => getVodsCategory E docs req
  | Vod => getVod E docs req
  | SeriesRecent => getSeriesRecent E docs req
  | SeriesCategories => getSeriesCategories E docs req
  | Series => getSeries E docs req
  | SeriesCategory => getSeriesCategory E docs req
  | SeriesDetail => getSeriesDetail E docs req
  | LiveRecent => getLiveRecent E docs req
  | LiveCategories => getLiveCategories E docs req
  | Live => getLive E docs req
  | LiveCategory => getLiveCategory E docs req
  | LiveDetail => getLiveDetail E docs req
  | Search => getSearch E docs req
  end.

(** Express runs the stages in order; a middleware that responds without
    calling [next] ends the request. The result carries the stages that
    ran. *)
Fixpoint runChain (E : env) (ms : list middleware) (h : request -> handled)
                  (docs : list Profile.t) (req : request)
  : list stage * handled :=
  match ms with
  | [] => ([Handler], h req)
  | m :: ms' =>
      match runMiddleware E m req with
      | Respond r =>
          ([Mw m], {| sent := Some r; calls := []; profilesAfter := docs |})
      | Next req' =>
          let '(ran, out) := runChain E ms' h docs req' in (Mw m :: ran, out)
      end
  end.

Definition serve (E : env) (newId : string) (ep : endpoint)
                 (docs : list Profile.t) (req : request)
  : list stage * handled :=
  runChain E (middlewares ep) (handler E newId ep docs) docs req.

(** ** Accounts *)

(** userSchema and the operations the handlers run on the collection;
    [username] and [email] carry unique indexes. *)
Module User.
Record t : Type := {
  _id : string;
  firstName : string;
  lastName : string;
  username : string;
  email : string;
  password : string;
  verificationToken : option string;
  verificationExpires : option Z;
  isVerified : bool
}.

(** [User.findOne({ username })] *)
Definition findOneByUsername (docs : list t) (x : string) : option t :=
  find (fun u => (username u =? x)%string) docs.

(** [User.findOne({ email })] *)
Definition findOneByEmail (docs : list t) (x : string) : option t :=
  find (fun u => (email u =? x)%string) docs.

(** [User.findOne({ verificationToken: code })] *)
Definition findOneByToken (docs : list t) (code : string) : option t :=
  find (fun u => optEqb (verificationToken u) (Some code)) docs.

(** [User.findById(id)] *)
Definition findById (docs : list t) (id : string) : option t :=
  find (fun u => (_id u =? id)%string) docs.

(** [user.save()] of a new document: a duplicate key on [_id],
    [username] or [email] rejects. *)
Definition insert (docs : list t) (u : t) : option (list t) :=
  if existsb (fun d => (_id d =? _id u)%string
                       || (username d =? username u)%string
                       || (email d =? email u)%string) docs
  then None
  else Some (docs ++ [u])%list.

(** [user.save()] of a document read from the collection. *)
Definition update (docs : list t) (u : t) : list t :=
  map (fun d => if (_id d =? _id u)%string then u else d) docs.

(** [User.deleteOne({ email })]: removes the first match. *)
Fixpoint deleteOneByEmail (docs : list t) (x : string) : list t :=
  match docs with
  | [] => []
  | d :: rest =>
      if (email d =? x)%string then rest else d :: deleteOneByEmail rest x
  end.

Definition setToken (u : t) (tok : option string) (exp : option Z) : t :=
  {| _id := _id u; firstName := firstName u; lastName := lastName u;
     username := username u; email := email u; password := password u;
     verificationToken := tok; verificationExpires := exp;
     isVerified := isVerified u |}.

Definition setVerified (u : t) : t :=
  {| _id := _id u; firstName := firstName u; lastName := lastName u;
     username := username u; email := email u; password := password u;
     verificationToken := verificationToken u;
     verificationExpires := verificationExpires u;
     isVerified := true |}.

Definition setPassword (u : t) (pw : string) : t :=
  {| _id := _id u; firstName := firstName u; lastName := lastName u;
     username := username u; email := email u; password := pw;
     verificationToken := verificationToken u;
     verificationExpires := verificationExpires u;
     isVerified := isVerified u |}.
End User.

(** What one request observes of the outside world. *)
Record oracle : Type := {
  (** the successive results of [Math.random()], each [n / 2^53] *)
  random : list Z;
  (** [bcrypt.hash(password, saltRounds)]: the hash, or [None] for [err] *)
  bcryptHash : string -> option string;
  (** whether [sgMail.send] resolves *)
  sgSend : bool;
  (** [Date.now()] *)
  now : Z;
  (** the [_id] given to a new document *)
  newObjectId : string
}.

Definition validDraw (n : Z) : Prop := 0 <= n < 2 ^ 53.

(** [Math.floor(100000 + Math.random() * 900000).toString()], for the
    result [n * 2^-53] of [Math.random()]. The product and the sum are
    binary64 numbers; they are held here in units of 2^-53, each rounded
    as the processor rounds it. *)
Definition randomCode (n : Z) : string :=
  let product := round53 (n * 900000) in
  let sum := round53 (100000 * 2 ^ 53 + product) in
  numberToString (sum / 2 ^ 53).

(** utils: [generateUniqueVerificationCode]. The loop draws until the code
    is held by no user; the result is the code and the draws left, or
    [None] when every draw supplied collides (the loop is still running). *)
Fixpoint generateUniqueVerificationCode (draws : list Z) (docs : list User.t)
  : option (string * list Z) :=
  match draws with
  | [] => None
  | n :: rest =>
      let code := randomCode n in
      match User.findOneByToken docs code with
      | Some _ => generateUniqueVerificationCode rest docs
      | None => Some (code, rest)
      end
  end.

(** utils: [sendEmail]: builds the message for [messageType] and sends it;
    [false] stands for the rethrown failure. *)
Definition sendEmail (O : oracle) (to messageType : string) : bool := sgSend O.

(** What an account handler leaves behind: the response, if one is sent,
    and the user collection. *)
Record accounted : Type := {
  reply : option response;
  usersAfter : list User.t
}.

Definition respond (st : Z) (b : body) (docs : list User.t) : accounted :=
  {| reply := Some {| status := st; json := b |}; usersAfter := docs |}.

Definition tenMinutes : Z := 10 * 60 * 1000.

Section Accounts.
Variable E : env.
Variable O : oracle.
Variable docs : list User.t.
Variable req : request.

(** [new User({ ... })] of POST /register; the code expires in ten
    minutes. *)
Definition newUser (hashedPassword verificationCode : string) : User.t :=
  let expiresIn := now O + tenMinutes in
  {| User._id := newObjectId O;
     User.firstName := strOf (body_firstName req);
     User.lastName := strOf (body_lastName req);
     User.username := strOf (body_username req);
     User.email := strOf (body_email req);
     User.password := hashedPassword;
     User.verificationToken := Some verificationCode;
     User.verificationExpires := Some expiresIn;
     User.isVerified := false |}.

(** [!username || !password || !email || !firstName || !lastName] *)
Definition fieldMissing : bool :=
  negb (truthy (body_username req)) || negb (truthy (body_password req))
  || negb (truthy (body_email req)) || negb (truthy (body_firstName req))
  || negb (truthy (body_lastName req)).

(** POST /register *)
Definition postRegister : accounted :=
  if fieldMissing
  then respond 400 (BError "Todos los campos son requeridos") docs
  else
    let username := strOf (body_username req) in
    let email := strOf (body_email req) in
    match User.findOneByUsername docs username with
    | Some _ => respond 400 (BError "El usuario ya existe") docs
    | None =>
        match bcryptHash O (strOf (body_password req)) with
        | None => respond 500 (BError "Error al encriptar la contraseña") docs
        | Some hashedPassword =>
            match generateUniqueVerificationCode (random O) docs with
            | None => {| reply := None; usersAfter := docs |}
            | Some (verificationCode, _) =>
                let user := newUser hashedPassword verificationCode in
                match User.insert docs user with
                | None => {| reply := None; usersAfter := docs |}
                | Some saved =>
                    if sendEmail O email "verify" then
                      respond 201
                        (BMessage "Usuario registrado exitosamente. Por favor, verifica tu correo para activar tu cuenta.")
                        saved
                    else
                      respond 500
                        (BError "Error al enviar el correo de verificación. Tu cuenta no ha sido creada.")
                        (User.deleteOneByEmail saved email)
                end
            end
        end
    end.

(** POST /verify *)
Definition postVerify : accounted :=
  if negb (truthy (body_code req)) then
    respond 400 (BError "El código de verificación es requerido.") docs
  else
    match User.findOneByToken docs (strOf (body_code req)) with
    | None => respond 400 (BError "Código de verificación inválido.") docs
    | Some user =>
        let expired :=
          match User.verificationExpires user with
          | Some e => now O >? e
          | None => false
          end in
        if expired then
          respond 400
            (BError "El código de verificación ha expirado. Por favor, solicita uno nuevo.")
            docs
        else
          let user' := User.setToken (User.setVerified user) None None in
          let saved := User.update docs user' in
          if sendEmail O (User.email user') "congratulations" then
            respond 200
              (BMessage "¡Cuenta verificada exitosamente! Ahora puedes iniciar sesión.")
              saved
          else
            respond 500
              (BMessage "Hubo un error al verificar la cuenta. Inténtalo de nuevo.")
              saved
    end.

(** The common part of /resend-verification and /forgot-password: a new
    code for [user], saved, then mailed. *)
Definition issueCode (user : User.t) (messageType okMsg failMsg : string)
  : accounted :=
  match generateUniqueVerificationCode (random O) docs with
  | None => {| reply := None; usersAfter := docs |}
  | Some (code, _) =>
      let user' := User.setToken user (Some code) (Some (now O + tenMinutes)) in
      let saved := User.update docs user' in
      if sendEmail O (User.email user') messageType then
        respond 200 (BMessage okMsg) saved
      else respond 500 (BError failMsg) saved
  end.

(** POST /resend-verification *)
Definition postResendVerification : accounted :=
  if negb (truthy (body_email req)) then
    respond 400 (BError "El correo electrónico es requerido.") docs
  else
    match User.findOneByEmail docs (strOf (body_email req)) with
    | None => respond 404 (BError "Usuario no encontrado.") docs
    | Some user =>
        if User.isVerified user then
          respond 400 (BError "La cuenta ya está verificada.") docs
        else
          issueCode user "verify"
            "Correo de verificación reenviado exitosamente."
            "Error al enviar el correo de verificación."
    end.

(** POST /forgot-password *)
Definition postForgotPassword : accounted :=
  if negb (truthy (body_email req)) then
    respond 400 (BError "El correo electrónico es requerido.") docs
  else
    match User.findOneByEmail docs (strOf (body_email req)) with
    | None => respond 404 (BError "Usuario no encontrado.") docs
    | Some user =>
        issueCode user "recovery"
          "Código de recuperación enviado exitosamente."
          "Error al enviar el correo de recuperación."
    end.

(** POST /verify-reset-code: the code is checked and left in place. A
    null expiry compares as time 0. *)
Definition postVerifyResetCode : accounted :=
  if negb (truthy (body_verificationCode req)) then
    respond 400 (BError "El código de verificación es requerido.") docs
  else
    match User.findOneByToken docs (strOf (body_verificationCode req)) with
    | None => respond 404 (BError "Código de verificación inválido.") docs
    | Some user =>
        let expires :=
          match User.verificationExpires user with
          | Some e => e
          | None => 0
          end in
        if now O >? expires then
          respond 400
            (BError "El código de verificación ha expirado. Por favor, solicita uno nuevo.")
            docs
        else
          match jwtSign E (User._id user) (SECRET_KEY E) "15m" with
          | None =>
              respond 500
                (BError "Hubo un error al verificar el código. Inténtalo de nuevo.")
                docs
          | Some resetToken =>
              respond 200
                (BReset "Código de verificación válido para restablecer tu contraseña."
                        resetToken)
                docs
          end
    end.

(** POST /reset-password, behind [authenticateResetToken]. The mail is
    sent inside the bcrypt callback, outside any [try]: when it fails no
    response is sent. *)
Definition postResetPassword : accounted :=
  if negb (truthy (body_newPassword req)) then
    respond 400 (BError "La nueva contraseña es requerida.") docs
  else
    match User.findById docs (strOf (req_userId req)) with
    | None => respond 404 (BError "Usuario no encontrado.") docs
    | Some user =>
        if negb (truthy (User.verificationToken user)) then
          respond 400
            (BMessage "Tu contraseña ya ha sido cambiada anteriormente.") docs
        else
          match bcryptHash O (strOf (body_newPassword req)) with
          | None =>
              respond 500 (BError "Error al encriptar la nueva contraseña.") docs
          | Some hashedPassword =>
              let user' :=
                User.setToken (User.setPassword user hashedPassword) None None in
              let saved := User.update docs user' in
              if sendEmail O (User.email user') "password-reset-success" then
                respond 200 (BMessage "¡Contraseña restablecida exitosamente!") saved
              else {| reply := None; usersAfter := saved |}
          end
    end.
End Accounts.

(** The account routes with the middlewares in front of their handlers. *)
Inductive accountRoute : Type :=
| Register | Verify | ResendVerification | ForgotPassword | VerifyResetCode
| ResetPassword.

Definition accountHandler (E : env) (O : oracle) (r : accountRoute)
                          (docs : list User.t) (req : request) : accounted :=
  match r with
  | Register => postRegister O docs req
  | Verify => postVerify O docs req
  | ResendVerification => postResendVerification O docs req
  | ForgotPassword => postForgotPassword O docs req
  | VerifyResetCode => postVerifyResetCode E O docs req
  | ResetPassword => postResetPassword O docs req
  end.

Definition serveAccount (E : env) (O : oracle) (r : accountRoute)
                        (docs : list User.t) (req : request) : accounted :=
  match validateApiKey E req with
  | Respond res => {| reply := Some res; usersAfter := docs |}
  | Next req1 =>
      match r with
      | ResetPassword =>
          match authenticateResetToken E req1 with
          | Respond res => {| reply := Some res; usersAfter := docs |}
          | Next req2 => accountHandler E O r docs req2
          end
      | _ => accountHandler E O r docs req1
      end
  end.

(** ** Notions used to state the properties *)

(** The positions of the list that the page [page] copies. *)
Definition pagePositions (len page : Z) : list nat :=
  slicePositions len ((page - 1) * limit) (page * limit).

(** Two pages are disjoint when no position of the list is in both. *)
Definition pagesDisjoint (len p1 p2 : Z) : Prop :=
  forall i : nat, In i (pagePositions len p1) -> In i (pagePositions len p2) -> False.

(** [b] was added no later than [a], by the key [key]. *)
Definition notAfter {A : Type} (key : A -> Z) (a b : A) : Prop := key b <= key a.

(** The number [parseInt] reads in [added], 0 when it reads none. *)
Definition addedInt (it : item) : Z :=
  match parseInt (added it) with
  | Some n => n
  | None => 0
  end.

(** The /recent pipeline in the order the specification gives it: sort the
    full list, most recent first, then keep the first 50. *)
Definition recentBySpec (cmp : item -> item -> option Z) (l : list item)
  : list item :=
  slice (sort cmp l) 0 50.

Definition isRecent (ep : endpoint) : bool :=
  match ep with
  | VodsRecent | SeriesRecent | LiveRecent => true
  | _ => false
  end.

Definition isPaginated (ep : endpoint) : bool :=
  match ep with
  | VodsRecent | Vods | VodsCategory
  | SeriesRecent | Series | SeriesCategory
  | LiveRecent | Live | LiveCategory => true
  | _ => false
  end.

(** The list a paginated endpoint paginates, given the upstream list. *)
Definition paginatedList (E : env) (ep : endpoint) (upstream : list item)
  : list item :=
  match ep with
  | VodsRecent => recentVods upstream
  | SeriesRecent | LiveRecent => limitedThenSorted E upstream
  | _ => upstream
  end.

(** Whether the character [c] occurs in [s]. *)
Fixpoint occurs (c : ascii) (s : string) : bool :=
  match s with
  | String d s' => Ascii.eqb d c || occurs c s'
  | EmptyString => false
  end.

(** The Authorization header carries no token: it is absent, or holds no
    space after which a token could stand. *)
Definition noBearerToken (req : request) : Prop :=
  headers_authorization req = None \/
  exists h, headers_authorization req = Some h /\ occurs " " h = false.

(** The response of a request that a middleware ended. *)
Definition ended (docs : list Profile.t) (r : response) : handled :=
  {| sent := Some r; calls := []; profilesAfter := docs |}.

(** How a request to a gated endpoint ends: at one of the middlewares, or
    in the handler, which then sees the verified payload in [req.user]. *)
Inductive servedBy (E : env) (newId : string) (ep : endpoint)
          (docs : list Profile.t) (req : request)
  : list stage * handled -> Prop :=
| ByApiKey :
    optEqb (headers_x_api_key req) (API_KEY E) = false ->
    servedBy E newId ep docs req
      ([Mw ValidateApiKey],
       ended docs {| status := 403; json := BError "API Key inválida" |})
| ByMissingToken :
    optEqb (headers_x_api_key req) (API_KEY E) = true ->
    bearerToken req = None ->
    servedBy E newId ep docs req
      ([Mw ValidateApiKey; Mw AuthenticateToken],
       ended docs {| status := 401; json := BStatusText |})
| ByBadToken token :
    optEqb (headers_x_api_key req) (API_KEY E) = true ->
    bearerToken req = Some token ->
    jwtVerify E token (SECRET_KEY E) = None ->
    servedBy E newId ep docs req
      ([Mw ValidateApiKey; Mw AuthenticateToken],
       ended docs {| status := 403; json := BStatusText |})
| ByMissingProfile token u r :
    optEqb (headers_x_api_key req) (API_KEY E) = true ->
    bearerToken req = Some token ->
    jwtVerify E token (SECRET_KEY E) = Some u ->
    isContent ep = true ->
    truthy (orElse (query_profile req) (params_profileId req)) = false ->
    status r = 400 -> hasErrorField r = true ->
    servedBy E newId ep docs req
      ([Mw ValidateApiKey; Mw AuthenticateToken; Mw RequireProfile],
       ended docs r)
| ByHandler token u :
    optEqb (headers_x_api_key req) (API_KEY E) = true ->
    bearerToken req = Some token ->
    jwtVerify E token (SECRET_KEY E) = Some u ->
    (isContent ep = true ->
     exists profileId,
       orElse (query_profile req) (params_profileId req) = Some profileId /\
       profileId <> EmptyString) ->
    servedBy E newId ep docs req
      ((map Mw (middlewares ep) ++ [Handler])%list,
       handler E newId ep docs (setUser req u)).

(** The URL a content handler requests for the profile [p]. *)
Definition urlFor (p : Profile.t) (action additionalParams : string) : string :=
  playerApi (Profile.url p) (Profile.username p) (Profile.password p)
            action additionalParams.

(** How a handler made of the profile lookup, one upstream request and a
    response [k] built from its data ends. *)
Inductive fetched (E : env) (docs : list Profile.t) (req : request)
          (action additionalParams msg : string) (k : list item -> response)
  : handled -> Prop :=
| NoProfile e :
    getProfileParams req docs = ([], inl e) ->
    fetched E docs req action additionalParams msg k
      {| sent := Some {| status := 500; json := BError msg |};
         calls := []; profilesAfter := docs |}
| UpstreamFailed p :
    getProfileParams req docs = ([], inr p) ->
    axiosGet E (urlFor p action additionalParams) = None ->
    fetched E docs req action additionalParams msg k
      {| sent := Some {| status := 500; json := BError msg |};
         calls := [urlFor p action additionalParams]; profilesAfter := docs |}
| UpstreamData p data :
    getProfileParams req docs = ([], inr p) ->
    axiosGet E (urlFor p action additionalParams) = Some data ->
    fetched E docs req action additionalParams msg k
      {| sent := Some (k data);
         calls := [urlFor p action additionalParams]; profilesAfter := docs |}.

(** Whether an item's [name] is a string, and whether it then contains the
    query, both lowercased. *)
Definition hasStringName (it : item) : bool :=
  match name it with
  | JStr _ => true
  | _ => false
  end.

Definition matchesQuery (E : env) (query : string) (it : item) : bool :=
  match name it with
  | JStr s => includes (toLowerCase E s) (toLowerCase E query)
  | _ => false
  end.

(** Text of ASCII: every byte is below 128. *)
Fixpoint isAscii (s : string) : bool :=
  match s with
  | String c s' => (nat_of_ascii c <? 128)%nat && isAscii s'
  | EmptyString => true
  end.

(** The capital letters A to Z, and [d] being the small letter of the
    capital [c]. *)
Definition isCapital (c : ascii) : bool :=
  let n := nat_of_ascii c in ((65 <=? n) && (n <=? 90))%nat.

Definition smallOf (c d : ascii) : bool :=
  isCapital c && (nat_of_ascii d =? nat_of_ascii c + 32)%nat.

(** Two characters that are equal, or the capital and the small form of
    one letter. *)
Definition sameLetter (c d : ascii) : bool :=
  Ascii.eqb c d || smallOf c d || smallOf d c.

(** Two strings that differ in the case of letters only. *)
Fixpoint equalIgnoringCase (s t : string) : bool :=
  match s, t with
  | EmptyString, EmptyString => true
  | String c s', String d t' => sameLetter c d && equalIgnoringCase s' t'
  | _, _ => false
  end.

(** [q] occurs in [s] up to the case of letters: some substring of [s]
    differs from [q] in case only. *)
Definition containsIgnoringCase (s q : string) : Prop :=
  exists pre mid post,
    s = pre ++ mid ++ post /\ equalIgnoringCase mid q = true.

(** What [toLowerCase] does to text of ASCII: A to Z become a to z and
    nothing else changes. *)
Definition lowerChar (c : ascii) : ascii :=
  if isCapital c then ascii_of_nat (nat_of_ascii c + 32) else c.

Fixpoint asciiLowerCase (s : string) : string :=
  match s with
  | String c s' => String (lowerChar c) (asciiLowerCase s')
  | EmptyString => EmptyString
  end.

Definition lowersAscii (E : env) : Prop :=
  forall s, isAscii s = true -> toLowerCase E s = asciiLowerCase s.

(** The three URLs /search requests for the profile [p]. *)
Definition searchUrls (p : Profile.t) : list string :=
  [urlFor p "get_live_streams" EmptyString;
   urlFor p "get_vod_streams" EmptyString;
   urlFor p "get_series" EmptyString].

Definition searchError : response :=
  {| status := 500; json := BError "Error al realizar la búsqueda" |}.

(** How the /search handler ends. *)
Inductive searched (E : env) (docs : list Profile.t) (req : request)
  : handled -> Prop :=
| SearchNoProfile e :
    getProfileParams req docs = ([], inl e) ->
    searched E docs req
      {| sent := Some searchError; calls := []; profilesAfter := docs |}
| SearchNoQuery p :
    getProfileParams req docs = ([], inr p) ->
    truthy (query_q req) = false ->
    searched E docs req
      {| sent := Some {| status := 400;
                         json := BError "Debe proporcionar un término de búsqueda (q)" |};
         calls := []; profilesAfter := docs |}
| SearchUpstreamFailed p u :
    getProfileParams req docs = ([], inr p) ->
    truthy (query_q req) = true ->
    In u (searchUrls p) -> axiosGet E u = None ->
    searched E docs req
      {| sent := Some searchError; calls := searchUrls p; profilesAfter := docs |}
| SearchBadName p liveStreams movies series :
    getProfileParams req docs = ([], inr p) ->
    truthy (query_q req) = true ->
    map (axiosGet E) (searchUrls p) = [Some liveStreams; Some movies; Some series] ->
    forallb hasStringName (liveStreams ++ movies ++ series) = false ->
    searched E docs req
      {| sent := Some searchError; calls := searchUrls p; profilesAfter := docs |}
| SearchFound p liveStreams movies series :
    getProfileParams req docs = ([], inr p) ->
    truthy (query_q req) = true ->
    map (axiosGet E) (searchUrls p) = [Some liveStreams; Some movies; Some series] ->
    forallb hasStringName (liveStreams ++ movies ++ series) = true ->
    searched E docs req
      {| sent := Some (ok (BSearch (strOf (query_q req))
                             (filter (matchesQuery E (strOf (query_q req))) liveStreams)
                             (filter (matchesQuery E (strOf (query_q req))) movies)
                             (filter (matchesQuery E (strOf (query_q req))) series)));
         calls := searchUrls p; profilesAfter := docs |}.

(** The profiles a response body discloses. *)
Definition profilesIn (b : body) : list Profile.t :=
  match b with
  | BProfile p => [p]
  | BProfiles ps => ps
  | _ => []
  end.

(** A string of exactly six decimal digits. *)
Definition isDigit (c : ascii) : bool :=
  let n := nat_of_ascii c in ((48 <=? n) && (n <=? 57))%nat.

Definition isSixDigits (s : string) : bool :=
  match s with
  | String a (String b (String c (String d (String e (String f EmptyString))))) =>
      isDigit a && isDigit b && isDigit c && isDigit d && isDigit e && isDigit f
  | _ => false
  end.

(** A verification code as C3 describes it: six digits, the decimal
    writing of an integer from 100000 to 999999. *)
Definition sixDigitCode (code : string) : Prop :=
  isSixDigits code = true /\
  exists k, 100000 <= k <= 999999 /\ code = numberToString k.

(** The code is held by no user of the collection. *)
Definition unusedIn (docs : list User.t) (code : string) : Prop :=
  forall u, In u docs -> User.verificationToken u <> Some code.

(** The codes the collection holds. *)
Definition tokensOf (docs : list User.t) : list string :=
  flat_map (fun u => match User.verificationToken u with
                     | Some c => [c]
                     | None => []
                     end) docs.

(** What the unique indexes and the code generator keep true of the user
    collection: no two documents share an [_id], no two a code. *)
Definition wellFormed (docs : list User.t) : Prop :=
  NoDup (map User._id docs) /\ NoDup (tokensOf docs).

(** The user collections the account routes can build, request after
    request, from the empty one. *)
Inductive reachable (E : env) : list User.t -> Prop :=
| reach_empty : reachable E []
| reach_request docs O route req :
    reachable E docs ->
    reachable E (usersAfter (serveAccount E O route docs req)).

(** ** The rest of the routes and helpers *)

(** The [action] and the additional parameters each content route other
    than /search passes to [getFromApi]. *)
Definition upstreamAction (ep : endpoint) : string :=
  match ep with
  | VodsRecent | Vods | VodsCategory | Vod => "get_vod_streams"
  | VodsCategories => "get_vod_categories"
  | SeriesRecent | Series => "get_series"
  | SeriesCategories => "get_series_categories"
  | SeriesCategory | SeriesDetail => "get_series_streams"
  | LiveCategories => "get_live_categories"
  | _ => "get_live_streams"
  end.

Definition upstreamParams (ep : endpoint) (req : request) : string :=
  match ep with
  | VodsCategory | SeriesCategory | LiveCategory => "&category_id=" ++ params_id req
  | Vod => "&vod_id=" ++ params_id req
  | SeriesDetail => "&series_id=" ++ params_id req
  | LiveDetail => "&live_id=" ++ params_id req
  | _ => EmptyString
  end.

(** The body such a route sends for the upstream data. *)
Definition contentBody (E : env) (ep : endpoint) (req : request)
           (data : list item) : body :=
  if isPaginated ep then pageBody (pageOf req) (paginatedList E ep data)
  else BItems data.

(** utils: [generateToken]. *)
Definition generateToken (E : env) (userId : string) : option string :=
  jwtSign E userId (SECRET_KEY E) "1h".

(** POST /login; [bcryptCompare password hash] is the result of
    [bcrypt.compare], [None] for [err]. [generateToken] runs inside the
    bcrypt callback: when it throws no response is sent. *)
Definition postLogin (E : env) (bcryptCompare : string -> string -> option bool)
           (docs : list User.t) (req : request) : accounted :=
  let errors := (notEmpty (body_username req) "El nombre de usuario es requerido"
                 ++ notEmpty (body_password req) "La contraseña es requerida")%list in
  match errors with
  | _ :: _ => respond 400 (BErrors errors) docs
  | [] =>
      match User.findOneByUsername docs (strOf (body_username req)) with
      | None => respond 400 (BError "Credenciales inválidas") docs
      | Some user =>
          match bcryptCompare (strOf (body_password req)) (User.password user) with
          | None => respond 500 (BError "Error al comparar la contraseña") docs
          | Some false => respond 400 (BError "Credenciales inválidas") docs
          | Some true =>
              if negb (User.isVerified user) then
                respond 400
                  (BError "Cuenta no verificada. Por favor, verifica tu cuenta antes de iniciar sesión.")
                  docs
              else
                match generateToken E (User._id user) with
                | Some token => respond 200 (BToken token) docs
                | None => {| reply := None; usersAfter := docs |}
                end
          end
      end
  end.

(** POST /recover-username *)
Definition postRecoverUsername (O : oracle) (docs : list User.t) (req : request)
  : accounted :=
  if negb (truthy (body_email req)) then
    respond 400 (BError "El correo electrónico es requerido.") docs
  else
    match User.findOneByEmail docs (strOf (body_email req)) with
    | None =>
        respond 404 (BError "No se encontró una cuenta asociada a ese correo.") docs
    | Some user =>
        if sendEmail O (strOf (body_email req)) "username-recovery" then
          respond 200 (BMessage "El nombre de usuario ha sido enviado a tu correo.") docs
        else
          respond 500
            (BError "Hubo un error al procesar tu solicitud. Inténtalo de nuevo.")
            docs
    end.

(** ** Sample data for the worked instances *)

Module Sample.
(** A GET request with the given headers and query parameters. *)
Definition get (key auth profile page q : option string) : request :=
  {| headers_x_api_key := key;
     headers_authorization := auth;
     query_profile := profile;
     query_page := page;
     query_q := q;
     params_profileId := None;
     params_id := EmptyString;
     body_name := None; body_url := None; body_username := None;
     body_password := None; body_email := None; body_firstName := None;
     body_lastName := None; body_code := None;
   body_verificationCode := None; body_newPassword := None;
     user := None;
     req_userId := None |}.

Definition withPage (page : string) : request :=
  get None None None (Some page) None.

(** Items whose [added] fields are the numbers [n], [n-1], ..., 1 read
    from the right: [numbered n] is 1, 2, ..., n. *)
Definition numberedItem (n : nat) : item :=
  {| name := JStr "x"; added := JNum (Z.of_nat n) |}.

Definition numbered (n : nat) : list item := map numberedItem (seq 1 n).

Definition profile1 : Profile.t :=
  {| Profile._id := "p1"; Profile.userId := "u1"; Profile.url := "http://tv";
     Profile.username := "alice"; Profile.password := "pw1";
     Profile.name := "home" |}.

Definition profile2 : Profile.t :=
  {| Profile._id := "p2"; Profile.userId := "u2"; Profile.url := "http://tv";
     Profile.username := "bob"; Profile.password := "pw2";
     Profile.name := "work" |}.

Definition profiles : list Profile.t := [profile1; profile2].

(** An environment whose JWT library accepts [tok1] for user [u1] and
    [tok2] for user [u2], and whose upstream is [upstream]. *)
Definition E (upstream : string -> option (list item)) : env :=
  {| API_KEY := Some "key";
     SECRET_KEY := Some "secret";
     jwtVerify := fun token secret =>
       if optEqb secret (Some "secret") then
         if (token =? "tok1")%string then Some {| userId := "u1" |}
         else if (token =? "tok2")%string then Some {| userId := "u2" |}
         else None
       else None;
     jwtSign := fun uid secret expiresIn =>
       match secret with
       | Some k => Some ("jwt:" ++ uid ++ ":" ++ expiresIn)
       | None => None
       end;
     axiosGet := upstream;
     dateParse := fun _ => None;
     toLowerCase := asciiLowerCase |}.

(** A request of user [u1] that passes both checks. *)
Definition authed (profile page q : option string) : request :=
  get (Some "key") (Some "Bearer tok1") profile page q.

Definition bbc : item := {| name := JStr "BBC One"; added := JNum 7 |}.
Definition cnn : item := {| name := JStr "CNN"; added := JNum 8 |}.
Definition nameless : item := {| name := JNull; added := JNum 9 |}.

(** A POST request with the right API key and the given body. *)
Definition post (auth username password email firstName lastName code
                 newPassword : option string) : request :=
  {| headers_x_api_key := Some "key";
     headers_authorization := auth;
     query_profile := None; query_page := None; query_q := None;
     params_profileId := None; params_id := EmptyString;
     body_name := None; body_url := None;
     body_username := username; body_password := password;
     body_email := email; body_firstName := firstName;
     body_lastName := lastName; body_code := code;
     body_verificationCode := code;
     body_newPassword := newPassword;
     user := None; req_userId := None |}.

Definition registerCarol : request :=
  post None (Some "carol") (Some "secret1") (Some "carol@example.org")
       (Some "Carol") (Some "C") None None.

Definition alice : User.t :=
  {| User._id := "ida"; User.firstName := "Alice"; User.lastName := "A";
     User.username := "alice"; User.email := "alice@example.org";
     User.password := "hash-a";
     User.verificationToken := Some "123456";
     User.verificationExpires := Some 5000;
     User.isVerified := false |}.

Definition bob : User.t :=
  {| User._id := "idb"; User.firstName := "Bob"; User.lastName := "B";
     User.username := "bob"; User.email := "bob@example.org";
     User.password := "hash-b";
     User.verificationToken := None;
     User.verificationExpires := None;
     User.isVerified := true |}.

Definition users : list User.t := [alice; bob].

(** The outside world of one request: the results of [Math.random] and
    whether the mail goes out. *)
Definition world (draws : list Z) (mail : bool) : oracle :=
  {| random := draws;
     bcryptHash := fun pw => Some ("bcrypt:" ++ pw);
     sgSend := mail;
     now := 1000;
     newObjectId := "idc" |}.

(** A user who holds the code [k]. *)
Definition holder (k : Z) : User.t :=
  let code := numberToString k in
  {| User._id := "id" ++ code;
     User.firstName := "F"; User.lastName := "L";
     User.username := "user" ++ code;
     User.email := code ++ "@example.org";
     User.password := "hash";
     User.verificationToken := Some code;
     User.verificationExpires := Some 600000;
     User.isVerified := false |}.

(** A collection in which every code from 100000 to 999999 is held. *)
Definition fullStore : list User.t :=
  map (fun i => holder (100000 + Z.of_nat i)) (seq 0 (Z.to_nat 900000)).

(** An upstream whose VOD list is down. *)
Definition vodDown (u : string) : option (list item) :=
  if includes u "action=get_vod_streams" then None else Some [bbc; cnn].

(** A bcrypt whose hashes [matches] recognises, as [world] produces
    them. *)
Definition matches (password hash : string) : option bool :=
  Some (hash =? "bcrypt:" ++ password)%string.

Definition login (username password : option string) : request :=
  post None username password None None None None None.

(** An environment whose JWT library verifies the reset token it signs
    for alice. *)
Definition Ejwt : env :=
  {| API_KEY := Some "key";
     SECRET_KEY := Some "secret";
     jwtVerify := fun token secret =>
       if optEqb secret (Some "secret") then
         if (token =? "jwt:ida:15m")%string then Some {| userId := "ida" |}
         else None
       else None;
     jwtSign := fun uid secret expiresIn =>
       match secret with
       | Some k => Some ("jwt:" ++ uid ++ ":" ++ expiresIn)
       | None => None
       end;
     axiosGet := fun _ => None;
     dateParse := fun _ => None;
     toLowerCase := asciiLowerCase |}.

Definition forgotAlice : request :=
  post None None None (Some "alice@example.org") None None None None.

Definition resetAlice : request :=
  post (Some "Bearer jwt:ida:15m") None None None None None None (Some "newpw").
End Sample.

(* ===================================================================== *)
(** * Part II: properties *)
(* ===================================================================== *)

(** ** Slices and pages *)

Lemma clampIndex_range (len i : Z) : 0 <= len -> 0 <= clampIndex len i <= len.
Proof. unfold clampIndex. destruct (i <? 0) eqn:H; lia. Qed.

Lemma nth_error_firstn_skipn {A : Type} (l : list A) (a c : nat) :
  map (nth_error l) (seq a (Nat.min c (length l - a))) =
  map Some (firstn c (skipn a l)).
Proof.
  revert a c. induction l as [|x l IH]; intros a c.
  - rewrite skipn_nil, firstn_nil. simpl. rewrite Nat.min_0_r. reflexivity.
  - destruct a as [|a].
    + simpl skipn. destruct c as [|c]; [reflexivity|].
      simpl length. rewrite Nat.sub_0_r. rewrite <- Nat.succ_min_distr.
      simpl. f_equal. specialize (IH 0%nat c). rewrite Nat.sub_0_r in IH.
      simpl skipn in IH. rewrite <- IH. rewrite <- seq_shift, map_map.
      reflexivity.
    + simpl skipn. simpl length. rewrite Nat.sub_succ.
      rewrite <- IH. rewrite <- seq_shift, map_map. reflexivity.
Qed.

(** The slice holds the elements at the positions [slicePositions] lists. *)
Lemma slice_positions {A : Type} (l : list A) (s e : Z) :
  map (nth_error l) (slicePositions (Z.of_nat (length l)) s e) =
  map Some (slice l s e).
Proof.
  unfold slice, slicePositions.
  set (len := Z.of_nat (length l)).
  rewrite <- nth_error_firstn_skipn. f_equal. f_equal.
  unfold sliceCount, sliceStart.
  pose proof (clampIndex_range len s ltac:(lia)).
  pose proof (clampIndex_range len e ltac:(lia)). lia.
Qed.

Lemma slice_length_le {A : Type} (l : list A) (s e : Z) :
  (length (slice l s e) <= sliceCount (Z.of_nat (length l)) s e)%nat.
Proof. unfold slice. rewrite length_firstn. lia. Qed.

Lemma paginate_length {A : Type} (l : list A) (page : Z) :
  (length (paginate l page) <= 10)%nat.
Proof.
  unfold paginate. etransitivity; [apply slice_length_le|].
  unfold sliceCount, clampIndex, limit.
  destruct (page * 10 <? 0) eqn:H1; destruct ((page - 1) * 10 <? 0) eqn:H2; lia.
Qed.

Lemma slice_incl {A : Type} (l : list A) (s e : Z) (x : A) :
  In x (slice l s e) -> In x l.
Proof.
  unfold slice. intros H.
  set (a := sliceStart (Z.of_nat (length l)) s) in *.
  set (c := sliceCount (Z.of_nat (length l)) s e) in *.
  rewrite <- (firstn_skipn a l). apply in_or_app. right.
  rewrite <- (firstn_skipn c (skipn a l)). apply in_or_app. left. exact H.
Qed.

(** A page numbered from one is the plain window of ten. *)
Lemma paginate_window {A : Type} (l : list A) (k : nat) :
  paginate l (Z.of_nat (S k)) = firstn 10 (skipn (10 * k) l).
Proof.
  unfold paginate, slice, sliceCount, sliceStart, clampIndex, limit.
  set (len := Z.of_nat (length l)).
  replace ((Z.of_nat (S k) - 1) * 10 <? 0) with false
    by (symmetry; apply Z.ltb_ge; lia).
  replace (Z.of_nat (S k) * 10 <? 0) with false
    by (symmetry; apply Z.ltb_ge; lia).
  destruct (Nat.le_gt_cases (length l) (10 * k)) as [Hbig|Hsmall].
  - rewrite (skipn_all2 l (n := (10 * k)%nat)) by lia.
    rewrite skipn_all2 by lia. rewrite !firstn_nil. reflexivity.
  - replace (Z.to_nat (Z.min ((Z.of_nat (S k) - 1) * 10) len)) with (10 * k)%nat by lia.
    destruct (Nat.le_gt_cases (10 * S k) (length l)) as [Hfull|Hpart].
    + f_equal. lia.
    + rewrite !firstn_all2; [reflexivity| |]; rewrite length_skipn; lia.
Qed.

Lemma concat_pages {A : Type} (l : list A) (n : nat) :
  concat (map (fun k => paginate l (Z.of_nat (S k))) (seq 0 n)) =
  firstn (10 * n) l.
Proof.
  induction n as [|n IH].
  - reflexivity.
  - rewrite seq_S, map_app, concat_app, IH. cbn [map concat Nat.add].
    rewrite app_nil_r, paginate_window.
    replace (10 * S n)%nat with (10 * n + 10)%nat by lia.
    rewrite <- (firstn_skipn (10 * n) (firstn (10 * n + 10) l)).
    rewrite firstn_firstn, Nat.min_l by lia. f_equal.
    rewrite firstn_skipn_comm. reflexivity.
Qed.

Lemma mathCeilDiv_spec (n : Z) :
  10 * (mathCeilDiv n limit - 1) < n <= 10 * mathCeilDiv n limit.
Proof.
  unfold mathCeilDiv, limit, Qceiling, Qfloor, Qopp. cbn [Qnum Qden].
  pose proof (Z.div_mod (- n) 10 ltac:(lia)).
  pose proof (Z.mod_pos_bound (- n) 10 ltac:(lia)).
  lia.
Qed.

(** C2, as stated, fails: [page=-1] is accepted, is distinct from [page=1],
    and on a list of 15 elements both slices hold position 0; and
    [page=0] is served as page 1. *)
Lemma pages_overlap_counterexample :
  pageOf (Sample.withPage "0") = pageOf (Sample.withPage "1") /\
  pageOf (Sample.withPage "-1") = -1 /\
  pageOf (Sample.withPage "1") = 1 /\
  paginate (seq 0 15) (pageOf (Sample.withPage "-1")) = seq 0 5 /\
  paginate (seq 0 15) (pageOf (Sample.withPage "1")) = seq 0 10 /\
  ~ pagesDisjoint 15 (pageOf (Sample.withPage "-1")) (pageOf (Sample.withPage "1")).
Proof.
  repeat split; try reflexivity.
  intros H. apply (H 0%nat); vm_compute; auto.
Qed.

(** C2, amended: for two distinct page numbers that are at least 1 the
    slices share no position of the list, each slice holds the elements at
    its positions, and the slices of pages 1, 2, ..., totalPages
    concatenated in order are the whole list. *)
Theorem pages_disjoint_and_cover {A : Type} (l : list A) (r1 r2 : request) :
  1 <= pageOf r1 -> 1 <= pageOf r2 -> pageOf r1 <> pageOf r2 ->
  let len := Z.of_nat (length l) in
  pagesDisjoint len (pageOf r1) (pageOf r2) /\
  map (nth_error l) (pagePositions len (pageOf r1)) = map Some (paginate l (pageOf r1)) /\
  concat (map (fun k => paginate l (Z.of_nat (S k)))
              (seq 0 (Z.to_nat (mathCeilDiv len limit)))) = l.
Proof.
  intros H1 H2 Hne len. split; [|split].
  - intros i Hi1 Hi2. unfold pagePositions, slicePositions in *.
    apply in_seq in Hi1, Hi2. revert Hi1 Hi2.
    unfold sliceStart, sliceCount, clampIndex, limit.
    replace ((pageOf r1 - 1) * 10 <? 0) with false by (symmetry; apply Z.ltb_ge; lia).
    replace ((pageOf r2 - 1) * 10 <? 0) with false by (symmetry; apply Z.ltb_ge; lia).
    replace (pageOf r1 * 10 <? 0) with false by (symmetry; apply Z.ltb_ge; lia).
    replace (pageOf r2 * 10 <? 0) with false by (symmetry; apply Z.ltb_ge; lia).
    lia.
  - apply slice_positions.
  - rewrite concat_pages. apply firstn_all2.
    pose proof (mathCeilDiv_spec len). subst len. lia.
Qed.

(** Pages 1 and 2 of a list of 25 elements. *)
Lemma pages_disjoint_and_cover_witness :
  (1 <= pageOf (Sample.withPage "1") /\ 1 <= pageOf (Sample.withPage "2") /\
   pageOf (Sample.withPage "1") <> pageOf (Sample.withPage "2")) /\
  pagesDisjoint 25 1 2 /\
  concat (map (fun k => paginate (seq 0 25) (Z.of_nat (S k))) (seq 0 3)) = seq 0 25.
Proof.
  assert (H1 : 1 <= pageOf (Sample.withPage "1")) by (vm_compute; discriminate).
  assert (H2 : 1 <= pageOf (Sample.withPage "2")) by (vm_compute; discriminate).
  assert (H3 : pageOf (Sample.withPage "1") <> pageOf (Sample.withPage "2"))
    by (vm_compute; discriminate).
  destruct (pages_disjoint_and_cover (seq 0 25) _ _ H1 H2 H3) as (Hd & _ & Hc).
  repeat split; auto.
Defined.

(** ** The gate in front of the profile and content handlers *)

Lemma validateApiKey_cases (E : env) (req : request) :
  (optEqb (headers_x_api_key req) (API_KEY E) = true /\
   validateApiKey E req = Next req) \/
  (optEqb (headers_x_api_key req) (API_KEY E) = false /\
   validateApiKey E req =
     Respond {| status := 403; json := BError "API Key inválida" |}).
Proof.
  unfold validateApiKey.
  destruct (optEqb (headers_x_api_key req) (API_KEY E)); auto.
Qed.

Lemma authenticateToken_cases (E : env) (req : request) :
  (bearerToken req = None /\
   authenticateToken E req = Respond {| status := 401; json := BStatusText |}) \/
  (exists token, bearerToken req = Some token /\
     jwtVerify E token (SECRET_KEY E) = None /\
     authenticateToken E req = Respond {| status := 403; json := BStatusText |}) \/
  (exists token u, bearerToken req = Some token /\
     jwtVerify E token (SECRET_KEY E) = Some u /\
     authenticateToken E req = Next (setUser req u)).
Proof.
  unfold authenticateToken.
  destruct (bearerToken req) as [token|]; [|auto].
  destruct (jwtVerify E token (SECRET_KEY E)) as [u|] eqn:Hv.
  - right. right. exists token, u. auto.
  - right. left. exists token. auto.
Qed.

Lemma requireProfile_cases (req : request) :
  (exists profileId,
     orElse (query_profile req) (params_profileId req) = Some profileId /\
     profileId <> EmptyString /\ requireProfile req = Next req) \/
  (exists r, truthy (orElse (query_profile req) (params_profileId req)) = false /\
     status r = 400 /\ hasErrorField r = true /\
     requireProfile req = Respond r).
Proof.
  unfold requireProfile.
  destruct (orElse (query_profile req) (params_profileId req)) as [id|] eqn:Ho;
    cbn [truthy negb].
  - destruct (String.eqb_spec id EmptyString) as [->|Hne]; cbn [negb].
    + right. refine (ex_intro _ _ (conj _ (conj _ (conj _ eq_refl)))); reflexivity.
    + left. eauto.
  - right. refine (ex_intro _ _ (conj _ (conj _ (conj _ eq_refl)))); reflexivity.
Qed.

Lemma serve_servedBy (E : env) (newId : string) (ep : endpoint)
      (docs : list Profile.t) (req : request) :
  servedBy E newId ep docs req (serve E newId ep docs req).
Proof.
  unfold serve, middlewares.
  destruct (validateApiKey_cases E req) as [[Hk Hv]|[Hk Hv]].
  2:{ destruct (isContent ep); cbn [runChain runMiddleware]; rewrite Hv;
      apply ByApiKey; exact Hk. }
  destruct (authenticateToken_cases E req)
    as [[Hb Ha]|[(token & Hb & Hj & Ha)|(token & u & Hb & Hj & Ha)]].
  - destruct (isContent ep); cbn [runChain runMiddleware]; rewrite Hv, Ha;
      apply ByMissingToken; assumption.
  - destruct (isContent ep); cbn [runChain runMiddleware]; rewrite Hv, Ha;
      eapply ByBadToken; eassumption.
  - destruct (isContent ep) eqn:Hc; cbn [runChain runMiddleware]; rewrite Hv, Ha.
    + destruct (requireProfile_cases (setUser req u))
        as [(pid & Ho & Hne & Hr)|(r & Ht & Hs & He & Hr)]; rewrite Hr.
      * pose proof (ByHandler E newId ep docs req token u Hk Hb Hj) as H.
        unfold middlewares in H. rewrite Hc in H. apply H.
        intros _. exists pid. split; assumption.
      * eapply ByMissingProfile; eassumption.
    + pose proof (ByHandler E newId ep docs req token u Hk Hb Hj) as H.
      unfold middlewares in H. rewrite Hc in H. apply H.
      intros Hf. discriminate Hf.
Qed.

(** ** Handlers built on one upstream request *)

Lemma getProfileParams_log (req : request) (docs : list Profile.t) :
  fst (getProfileParams req docs) = [].
Proof.
  unfold getProfileParams.
  destruct (user req); [|reflexivity].
  destruct (orElse _ _); [|reflexivity].
  destruct (Profile.findOne _ _ _); reflexivity.
Qed.

Lemma fetch_handler (E : env) (docs : list Profile.t) (req : request)
      (action additionalParams msg : string) (k : list item -> response) :
  fetched E docs req action additionalParams msg k
    (tryCatch docs (l <- fetch E docs req action additionalParams ;; ret (k l)) msg).
Proof.
  unfold fetch.
  pose proof (getProfileParams_log req docs) as Hlog.
  destruct (getProfileParams req docs) as [log [e|p]] eqn:Hp;
    cbn [fst] in Hlog; subst log.
  - cbn. eapply NoProfile. exact Hp.
  - cbn [bind]. unfold getFromApi.
    fold (urlFor p action additionalParams).
    destruct (axiosGet E (urlFor p action additionalParams)) as [data|] eqn:Hg.
    + cbn. apply UpstreamData; assumption.
    + cbn. apply UpstreamFailed; assumption.
Qed.

(** Brings in [fetch_handler] for the handler in the goal or in [H]. *)
Ltac fetch_cases H :=
  match type of H with
  | context [tryCatch ?d (bind (fetch ?E ?d ?r ?a ?x) (fun l => ret (@?k l))) ?m] =>
      let F := fresh "F" in
      pose proof (fetch_handler E d r a x m k) as F; cbv beta in F
  end.

(** ** Sorting and truncation *)

Lemma sortInsert_length {A : Type} (cmp : A -> A -> option Z) (x : A) (l : list A) :
  length (sortInsert cmp x l) = S (length l).
Proof.
  induction l as [|y ys IH]; [reflexivity|].
  cbn [sortInsert]. destruct (sortCompare cmp x y <=? 0); cbn [length]; congruence.
Qed.

Lemma sort_length {A : Type} (cmp : A -> A -> option Z) (l : list A) :
  length (sort cmp l) = length l.
Proof.
  induction l as [|x xs IH]; [reflexivity|].
  cbn [sort]. rewrite sortInsert_length, IH. reflexivity.
Qed.

Lemma sortInsert_perm {A : Type} (cmp : A -> A -> option Z) (x : A) (l : list A) :
  Permutation (x :: l) (sortInsert cmp x l).
Proof.
  induction l as [|y ys IH]; [apply Permutation_refl|].
  cbn [sortInsert]. destruct (sortCompare cmp x y <=? 0).
  - apply Permutation_refl.
  - eapply Permutation_trans; [apply perm_swap|]. apply perm_skip, IH.
Qed.

Lemma sort_perm {A : Type} (cmp : A -> A -> option Z) (l : list A) :
  Permutation l (sort cmp l).
Proof.
  induction l as [|x xs IH]; [apply Permutation_refl|].
  cbn [sort]. eapply Permutation_trans; [apply perm_skip, IH|].
  apply sortInsert_perm.
Qed.

Lemma slice_first_length {A : Type} (l : list A) (n : Z) :
  0 <= n -> Z.of_nat (length (slice l 0 n)) = Z.min n (Z.of_nat (length l)).
Proof.
  intros Hn. unfold slice, sliceStart, sliceCount, clampIndex.
  replace (n <? 0) with false by (symmetry; apply Z.ltb_ge; lia).
  cbn [Z.ltb Z.compare]. rewrite length_firstn, length_skipn. lia.
Qed.

Lemma paginatedList_length (E : env) (ep : endpoint) (upstream : list item) :
  Z.of_nat (length (paginatedList E ep upstream)) =
  if isRecent ep then Z.min 50 (Z.of_nat (length upstream))
  else Z.of_nat (length upstream).
Proof.
  destruct ep; cbn [paginatedList isRecent]; try reflexivity;
    unfold recentVods, limitedThenSorted;
    rewrite ?sort_length, slice_first_length, ?sort_length; lia.
Qed.

(** With a comparator that subtracts keys, the sort puts the larger keys
    first. *)
Lemma sortInsert_sorted {A : Type} (cmp : A -> A -> option Z) (key : A -> Z)
      (x : A) (l : list A) :
  (forall y, In y l -> cmp x y = Some (key y - key x)) ->
  StronglySorted (notAfter key) l ->
  StronglySorted (notAfter key) (sortInsert cmp x l).
Proof.
  induction l as [|y ys IH]; intros Hc Hs; cbn [sortInsert].
  - repeat constructor.
  - unfold sortCompare. rewrite (Hc y (or_introl eq_refl)).
    apply StronglySorted_inv in Hs as [Hys Hall].
    destruct (key y - key x <=? 0) eqn:Hle.
    + apply Z.leb_le in Hle. constructor; [constructor; assumption|].
      constructor; [unfold notAfter; lia|].
      eapply Forall_impl; [|exact Hall]. unfold notAfter. intros z Hz. lia.
    + apply Z.leb_gt in Hle. constructor.
      * apply IH; [|exact Hys]. intros z Hz. apply Hc. right. exact Hz.
      * apply Forall_forall. intros z Hz.
        apply (Permutation_in z (Permutation_sym (sortInsert_perm cmp x ys))) in Hz.
        destruct Hz as [<-|Hz]; [unfold notAfter; lia|].
        rewrite Forall_forall in Hall. apply Hall. exact Hz.
Qed.

Lemma sort_sorted {A : Type} (cmp : A -> A -> option Z) (key : A -> Z) (l : list A) :
  (forall x y, In x l -> In y l -> cmp x y = Some (key y - key x)) ->
  StronglySorted (notAfter key) (sort cmp l).
Proof.
  induction l as [|x xs IH]; intros Hc; cbn [sort]; [constructor|].
  apply sortInsert_sorted.
  - intros y Hy. apply Hc; [left; reflexivity|right].
    apply (Permutation_in y (Permutation_sym (sort_perm cmp xs))). exact Hy.
  - apply IH. intros a b Ha Hb. apply Hc; right; assumption.
Qed.

Lemma StronglySorted_split {A : Type} (R : A -> A -> Prop) (a b : list A) :
  StronglySorted R (a ++ b) -> forall x y, In x a -> In y b -> R x y.
Proof.
  induction a as [|h a IH]; intros Hs x y Hx Hy; [contradiction|].
  cbn [app] in Hs. apply StronglySorted_inv in Hs as [Hs Hall].
  destruct Hx as [<-|Hx]; [|eapply IH; eauto].
  rewrite Forall_forall in Hall. apply Hall. apply in_or_app. right. exact Hy.
Qed.

Lemma slice_first {A : Type} (l : list A) (n : nat) :
  slice l 0 (Z.of_nat n) = firstn n l.
Proof.
  unfold slice, sliceStart, sliceCount, clampIndex.
  replace (Z.of_nat n <? 0) with false by (symmetry; apply Z.ltb_ge; lia).
  cbn [Z.ltb Z.compare].
  replace (Z.min 0 (Z.of_nat (length l))) with 0 by lia.
  cbn [Z.to_nat skipn].
  destruct (Nat.le_gt_cases n (length l)) as [Hle|Hgt].
  - f_equal. lia.
  - rewrite !firstn_all2 by lia. reflexivity.
Qed.

(** /vods/recent serves the 50 most recently added items: when every
    [added] field reads as a number, no item it leaves out was added later
    than an item it keeps, and kept and left-out items together are the
    upstream list. *)
Lemma vods_recent_most_recent (vods : list item) :
  Forall (fun it => parseInt (added it) <> None) vods ->
  let dropped := skipn 50 (sort byAddedInt vods) in
  StronglySorted (notAfter addedInt) (recentVods vods) /\
  Permutation vods (recentVods vods ++ dropped) /\
  (forall x y, In x (recentVods vods) -> In y dropped -> addedInt y <= addedInt x).
Proof.
  intros Hp dropped. subst dropped. rewrite Forall_forall in Hp.
  assert (Hs : StronglySorted (notAfter addedInt) (sort byAddedInt vods)).
  { apply sort_sorted. intros x y Hx Hy. unfold byAddedInt, addedInt.
    pose proof (Hp x Hx). pose proof (Hp y Hy).
    destruct (parseInt (added x)), (parseInt (added y)); try contradiction.
    reflexivity. }
  unfold recentVods. change 50 with (Z.of_nat 50). rewrite slice_first.
  rewrite <- (firstn_skipn 50 (sort byAddedInt vods)) in Hs.
  split; [|split].
  - clear Hp. remember (firstn 50 (sort byAddedInt vods)) as kept.
    remember (skipn 50 (sort byAddedInt vods)) as rest. clear Heqkept Heqrest.
    induction kept as [|h kept IH]; [constructor|].
    cbn [app] in Hs. apply StronglySorted_inv in Hs as [Hs Hall].
    constructor; [apply IH; exact Hs|].
    rewrite Forall_forall in *. intros z Hz. apply Hall. apply in_or_app. auto.
  - rewrite firstn_skipn. apply sort_perm.
  - apply (StronglySorted_split _ _ _ Hs).
Qed.

(** ** Pagination metadata *)

Lemma pageBody_metadata (page : Z) (l : list item) :
  exists total totalPages data,
    pageBody page l = BPage page total totalPages data /\
    data = paginate l page /\
    total = Z.of_nat (length l) /\
    10 * (totalPages - 1) < total <= 10 * totalPages /\
    (length data <= 10)%nat.
Proof.
  unfold pageBody. do 3 eexists. split; [reflexivity|].
  split; [reflexivity|]. split; [reflexivity|].
  split; [apply mathCeilDiv_spec|apply paginate_length].
Qed.

(** Every paginated endpoint is the profile lookup, one upstream request
    and the page of [paginatedList]. *)
Lemma handler_paginated (E : env) (newId : string) (ep : endpoint)
      (docs : list Profile.t) (req : request) :
  isPaginated ep = true ->
  exists action additionalParams msg,
    fetched E docs req action additionalParams msg
            (fun l => ok (pageBody (pageOf req) (paginatedList E ep l)))
            (handler E newId ep docs req).
Proof.
  intros Hp.
  destruct ep; try discriminate Hp; do 3 eexists;
    exact (fetch_handler E docs req _ _ _ _).
Qed.

(** C10: a 200 response of a paginated list endpoint carries
    [totalPages = ceil(total / 10)], [total] is the length of the list
    that is paginated (the upstream list, or its truncation to at most 50
    items for the /recent endpoints), and [data] has at most 10 items. *)
Theorem pagination_metadata (E : env) (newId : string) (ep : endpoint)
        (docs : list Profile.t) (req : request) (r : response) :
  isPaginated ep = true ->
  sent (snd (serve E newId ep docs req)) = Some r ->
  status r = 200 ->
  exists u upstream page total totalPages data,
    calls (snd (serve E newId ep docs req)) = [u] /\
    axiosGet E u = Some upstream /\
    json r = BPage page total totalPages data /\
    data = paginate (paginatedList E ep upstream) page /\
    total = Z.of_nat (length (paginatedList E ep upstream)) /\
    total = (if isRecent ep then Z.min 50 (Z.of_nat (length upstream))
             else Z.of_nat (length upstream)) /\
    (isRecent ep = true -> total <= 50) /\
    10 * (totalPages - 1) < total <= 10 * totalPages /\
    (length data <= 10)%nat.
Proof.
  intros Hpag Hsent Hst.
  pose proof (serve_servedBy E newId ep docs req) as Hs.
  destruct Hs as [Hk|Hk Hb|token Hk Hb Hj|token u r' Hk Hb Hj Hc Ht Hs4 He|token u Hk Hb Hj Hp];
    cbn [snd ended sent calls] in *.
  1-4: injection Hsent as <-; cbn in Hst; try discriminate; congruence.
  destruct (handler_paginated E newId ep docs (setUser req u) Hpag)
    as (action & extra & msg & F).
  remember (handler E newId ep docs (setUser req u)) as out eqn:Hout. clear Hout.
  destruct F as [e Hg|p Hg Ha|p upstream Hg Ha]; cbn [sent calls] in *;
    injection Hsent as <-; cbn in Hst; try discriminate.
  destruct (pageBody_metadata (pageOf (setUser req u)) (paginatedList E ep upstream))
    as (total & totalPages & data & Hbody & Hdata & Htotal & Hceil & Hlen).
  exists (urlFor p action extra), upstream, (pageOf (setUser req u)),
         total, totalPages, data.
  pose proof (paginatedList_length E ep upstream) as HL.
  repeat split; try assumption; try lia; try congruence.
  intros Hrec. rewrite Hrec in HL. lia.
Qed.

(** Page 3 of /series/recent over 23 upstream items. *)
Lemma pagination_metadata_witness :
  let E := Sample.E (fun _ => Some (Sample.numbered 23)) in
  let req := Sample.authed (Some "p1") (Some "3") None in
  let r := ok (BPage 3 23 3 (map Sample.numberedItem [3; 2; 1]%nat)) in
  (isPaginated SeriesRecent = true /\
   sent (snd (serve E EmptyString SeriesRecent Sample.profiles req)) = Some r /\
   status r = 200) /\
  exists u upstream page total totalPages data,
    calls (snd (serve E EmptyString SeriesRecent Sample.profiles req)) = [u] /\
    axiosGet E u = Some upstream /\
    json r = BPage page total totalPages data /\
    data = paginate (paginatedList E SeriesRecent upstream) page /\
    total = Z.of_nat (length (paginatedList E SeriesRecent upstream)) /\
    total = (if isRecent SeriesRecent then Z.min 50 (Z.of_nat (length upstream))
             else Z.of_nat (length upstream)) /\
    (isRecent SeriesRecent = true -> total <= 50) /\
    10 * (totalPages - 1) < total <= 10 * totalPages /\
    (length data <= 10)%nat.
Proof.
  intros E req r.
  assert (H : sent (snd (serve E EmptyString SeriesRecent Sample.profiles req)) = Some r)
    by (vm_compute; reflexivity).
  split.
  - split; [reflexivity|]. split; [exact H|reflexivity].
  - exact (pagination_metadata E EmptyString SeriesRecent Sample.profiles req r
             eq_refl H eq_refl).
Defined.

(** ** The /recent endpoints *)

(** /vods/recent follows the order the specification gives: what it
    paginates is the sorted list cut to 50, so every item it serves is
    one of those. *)
Lemma vods_recent_by_spec (vods : list item) (page : Z) (x : item) :
  recentVods vods = recentBySpec byAddedInt vods /\
  (In x (paginate (recentVods vods) page) -> In x (recentBySpec byAddedInt vods)).
Proof.
  split; [reflexivity|]. unfold paginate. apply slice_incl.
Qed.

(** C1 at its failing input: the upstream list holds 51 series added at
    times 1, 2, ..., 51, in that order. /series/recent and /live/recent
    cut the list to its first 50 items before sorting: page 5 serves the
    item added at time 1, which is not among the 50 most recently added,
    and the one added at time 51 is served on no page. *)
Theorem recent_truncates_before_sorting :
  let E := Sample.E (fun _ => Some (Sample.numbered 51)) in
  let req := Sample.authed (Some "p1") (Some "5") None in
  let oldest := Sample.numberedItem 1 in
  let newest := Sample.numberedItem 51 in
  sent (snd (serve E EmptyString SeriesRecent Sample.profiles req)) =
    Some (ok (BPage 5 50 5 (map Sample.numberedItem (rev (seq 1 10))))) /\
  sent (snd (serve E EmptyString LiveRecent Sample.profiles req)) =
    Some (ok (BPage 5 50 5 (map Sample.numberedItem (rev (seq 1 10))))) /\
  paginate (recentBySpec (byAddedDate E) (Sample.numbered 51)) 5 =
    map Sample.numberedItem (rev (seq 2 10)) /\
  ~ In oldest (recentBySpec (byAddedDate E) (Sample.numbered 51)) /\
  In newest (recentBySpec (byAddedDate E) (Sample.numbered 51)) /\
  ~ In newest (limitedThenSorted E (Sample.numbered 51)).
Proof.
  intros E req oldest newest.
  split; [vm_compute; reflexivity|].
  split; [vm_compute; reflexivity|].
  split; [vm_compute; reflexivity|].
  split; [|split].
  - intros H. apply (in_map added) in H. vm_compute in H.
    repeat (destruct H as [H|H]; [discriminate H|]). exact H.
  - vm_compute. left. reflexivity.
  - intros H. apply (in_map added) in H. vm_compute in H.
    repeat (destruct H as [H|H]; [discriminate H|]). exact H.
Qed.

(** ** The authentication gate *)

Lemma splitAux_head (sep : ascii) (s cur : string) :
  exists x rest, splitAux sep s cur = x :: rest.
Proof.
  revert cur. induction s as [|c s IH]; intros cur; cbn [splitAux].
  - eauto.
  - destruct (Ascii.eqb c sep); eauto.
Qed.

Lemma splitAux_second (sep : ascii) (s cur : string) :
  nth_error (splitAux sep s cur) 1 = None <-> occurs sep s = false.
Proof.
  revert cur. induction s as [|c s IH]; intros cur; cbn [splitAux occurs].
  - split; reflexivity.
  - destruct (Ascii.eqb c sep); cbn [orb].
    + destruct (splitAux_head sep s EmptyString) as (x & rest & ->).
      split; discriminate.
    + apply IH.
Qed.

Lemma bearerToken_none (req : request) :
  bearerToken req = None <-> noBearerToken req.
Proof.
  unfold bearerToken, noBearerToken.
  destruct (headers_authorization req) as [h|].
  - unfold split. rewrite splitAux_second. split.
    + intros H. right. exists h. auto.
    + intros [H|(h' & Heq & H)]; [discriminate|]. congruence.
  - split; auto.
Qed.

(** C6: on every profile and content endpoint, a wrong API key gives 403
    and nothing after [validateApiKey] runs; with the right key, a request
    whose Authorization header carries no token gets 401 and one whose
    token fails verification gets 403, both from [authenticateToken]; the
    handler runs only when the key matched and the token verified. *)
Theorem authentication_gate (E : env) (newId : string) (ep : endpoint)
        (docs : list Profile.t) (req : request) :
  let ran := fst (serve E newId ep docs req) in
  let out := snd (serve E newId ep docs req) in
  (optEqb (headers_x_api_key req) (API_KEY E) = false ->
     sent out = Some {| status := 403; json := BError "API Key inválida" |} /\
     ran = [Mw ValidateApiKey] /\ calls out = [] /\ profilesAfter out = docs) /\
  (optEqb (headers_x_api_key req) (API_KEY E) = true -> noBearerToken req ->
     sent out = Some {| status := 401; json := BStatusText |} /\
     ran = [Mw ValidateApiKey; Mw AuthenticateToken]) /\
  (optEqb (headers_x_api_key req) (API_KEY E) = true ->
   forall token, bearerToken req = Some token ->
     jwtVerify E token (SECRET_KEY E) = None ->
     sent out = Some {| status := 403; json := BStatusText |} /\
     ran = [Mw ValidateApiKey; Mw AuthenticateToken]) /\
  (In Handler ran ->
     optEqb (headers_x_api_key req) (API_KEY E) = true /\
     exists token u, bearerToken req = Some token /\
       jwtVerify E token (SECRET_KEY E) = Some u /\
       out = handler E newId ep docs (setUser req u)).
Proof.
  intros ran out. subst ran out.
  pose proof (serve_servedBy E newId ep docs req) as Hs.
  destruct Hs as [Hk|Hk Hb|token Hk Hb Hj|token u r' Hk Hb Hj Hc Ht Hs4 He|token u Hk Hb Hj Hp];
    cbn [fst snd ended sent calls profilesAfter].
  - split; [intros _; repeat split|]. split; [congruence|].
    split; [congruence|]. intros [H|[]]. discriminate H.
  - split; [congruence|]. split; [auto|]. split; [congruence|].
    intros [H|[H|[]]]; discriminate H.
  - split; [congruence|]. split.
    { intros _ Hn. apply bearerToken_none in Hn. congruence. }
    split; [auto|]. intros [H|[H|[]]]; discriminate H.
  - split; [congruence|]. split.
    { intros _ Hn. apply bearerToken_none in Hn. congruence. }
    split; [intros; congruence|]. intros [H|[H|[H|[]]]]; discriminate H.
  - split; [congruence|]. split.
    { intros _ Hn. apply bearerToken_none in Hn. congruence. }
    split; [intros; congruence|]. intros _. split; [exact Hk|].
    exists token, u. auto.
Qed.

(** A wrong key, a header without a token and a forged token on GET /vods. *)
Lemma authentication_gate_witness :
  let E := Sample.E (fun _ => None) in
  let wrongKey := Sample.get (Some "guess") (Some "Bearer tok1") (Some "p1") None None in
  let noToken := Sample.get (Some "key") (Some "Bearer") (Some "p1") None None in
  let badToken := Sample.get (Some "key") (Some "Bearer forged") (Some "p1") None None in
  (optEqb (headers_x_api_key wrongKey) (API_KEY E) = false /\
   fst (serve E EmptyString Vods Sample.profiles wrongKey) = [Mw ValidateApiKey]) /\
  (optEqb (headers_x_api_key noToken) (API_KEY E) = true /\ noBearerToken noToken /\
   sent (snd (serve E EmptyString Vods Sample.profiles noToken)) =
     Some {| status := 401; json := BStatusText |}) /\
  (optEqb (headers_x_api_key badToken) (API_KEY E) = true /\
   bearerToken badToken = Some "forged" /\
   jwtVerify E "forged" (SECRET_KEY E) = None /\
   sent (snd (serve E EmptyString Vods Sample.profiles badToken)) =
     Some {| status := 403; json := BStatusText |}).
Proof.
  intros E wrongKey noToken badToken.
  assert (Hn : noBearerToken noToken).
  { right. exists "Bearer". split; reflexivity. }
  split; [|split].
  - split; [reflexivity|].
    apply (authentication_gate E EmptyString Vods Sample.profiles wrongKey).
    reflexivity.
  - split; [reflexivity|]. split; [exact Hn|].
    apply (authentication_gate E EmptyString Vods Sample.profiles noToken);
      [reflexivity|exact Hn].
  - split; [reflexivity|]. split; [reflexivity|]. split; [reflexivity|].
    apply (proj1 (proj2 (proj2 (authentication_gate E EmptyString Vods
                                  Sample.profiles badToken))) eq_refl "forged");
      reflexivity.
Defined.

(** ** The search handler *)

Lemma filterByName_strings (E : env) (query : string) (l : list item) :
  forallb hasStringName l = true ->
  filterByName E query l = ([], inr (filter (matchesQuery E query) l)).
Proof.
  induction l as [|it rest IH]; [reflexivity|].
  cbn [forallb filterByName filter]. unfold hasStringName, matchesQuery.
  destruct (name it) as [| | |s]; cbn [andb]; try discriminate.
  intros H. rewrite (IH H). cbn.
  destruct (includes (toLowerCase E s) (toLowerCase E query)); reflexivity.
Qed.

Lemma filterByName_throws (E : env) (query : string) (l : list item) :
  forallb hasStringName l = false ->
  filterByName E query l = ([], inl "TypeError").
Proof.
  induction l as [|it rest IH]; [discriminate|].
  cbn [forallb filterByName]. unfold hasStringName.
  destruct (name it) as [| | |s]; cbn [andb]; try reflexivity.
  intros H. rewrite (IH H). reflexivity.
Qed.

Lemma forallb_app3 {A : Type} (f : A -> bool) (a b c : list A) :
  forallb f (a ++ b ++ c) = forallb f a && forallb f b && forallb f c.
Proof. rewrite !forallb_app. apply andb_assoc. Qed.

Lemma search_handler (E : env) (docs : list Profile.t) (req : request) :
  searched E docs req (getSearch E docs req).
Proof.
  unfold getSearch.
  pose proof (getProfileParams_log req docs) as Hlog.
  destruct (getProfileParams req docs) as [log [e|p]] eqn:Hp;
    cbn [fst] in Hlog; subst log.
  { cbn. eapply SearchNoProfile. exact Hp. }
  cbn [bind].
  destruct (truthy (query_q req)) eqn:Hq; cbn [negb].
  2:{ cbn. apply SearchNoQuery with p; assumption. }
  unfold getFromApi. fold (urlFor p "get_live_streams" EmptyString).
  fold (urlFor p "get_vod_streams" EmptyString).
  fold (urlFor p "get_series" EmptyString).
  destruct (axiosGet E (urlFor p "get_live_streams" EmptyString)) as [live|] eqn:H1.
  2:{ destruct (axiosGet E (urlFor p "get_vod_streams" EmptyString));
        destruct (axiosGet E (urlFor p "get_series" EmptyString)); cbn;
        apply SearchUpstreamFailed with (u := urlFor p "get_live_streams" EmptyString);
        cbn; auto. }
  destruct (axiosGet E (urlFor p "get_vod_streams" EmptyString)) as [movies|] eqn:H2.
  2:{ destruct (axiosGet E (urlFor p "get_series" EmptyString)); cbn;
        apply SearchUpstreamFailed with (u := urlFor p "get_vod_streams" EmptyString);
        cbn; auto. }
  destruct (axiosGet E (urlFor p "get_series" EmptyString)) as [series|] eqn:H3.
  2:{ cbn. apply SearchUpstreamFailed with (u := urlFor p "get_series" EmptyString);
        cbn; auto. }
  assert (Hmap : map (axiosGet E) (searchUrls p) = [Some live; Some movies; Some series]).
  { cbn [map searchUrls]. rewrite H1, H2, H3. reflexivity. }
  cbn [promiseAll3 fst snd bind app].
  destruct (forallb hasStringName (live ++ movies ++ series)) eqn:Hn.
  - pose proof Hn as Hn'. rewrite forallb_app3 in Hn'.
    apply andb_prop in Hn' as [Hn' Hs]. apply andb_prop in Hn' as [Hl Hm].
    rewrite !filterByName_strings by assumption. cbn.
    apply (SearchFound E docs req p live movies series); assumption.
  - pose proof Hn as Hn'. rewrite forallb_app3 in Hn'.
    destruct (forallb hasStringName live) eqn:Hl.
    + rewrite (filterByName_strings E _ live Hl).
      destruct (forallb hasStringName movies) eqn:Hm.
      * rewrite (filterByName_strings E _ movies Hm).
        destruct (forallb hasStringName series) eqn:Hs; [discriminate Hn'|].
        rewrite (filterByName_throws E _ series Hs). cbn.
        apply (SearchBadName E docs req p live movies series); assumption.
      * rewrite (filterByName_throws E _ movies Hm). cbn.
        apply (SearchBadName E docs req p live movies series); assumption.
    + rewrite (filterByName_throws E _ live Hl). cbn.
      apply (SearchBadName E docs req p live movies series); assumption.
Qed.

(** ** Upstream failures *)

Lemma content_handler (E : env) (newId : string) (ep : endpoint)
      (docs : list Profile.t) (req : request) :
  isContent ep = true ->
  (ep <> Search /\
   exists action additionalParams msg k,
     fetched E docs req action additionalParams msg k
             (handler E newId ep docs req)) \/
  (ep = Search /\ searched E docs req (handler E newId ep docs req)).
Proof.
  intros Hc.
  destruct ep; try discriminate Hc;
    try (left; split; [discriminate|]; do 4 eexists; apply fetch_handler).
  right. split; [reflexivity|]. apply search_handler.
Qed.

Lemma append_inv_head (s a b : string) : s ++ a = s ++ b -> a = b.
Proof.
  induction s as [|c s IH]; cbn [append]; intros H; [exact H|].
  injection H as H. auto.
Qed.

Lemma urlFor_action (p : Profile.t) (a b x : string) :
  urlFor p a x = urlFor p b x -> a ++ x = b ++ x.
Proof.
  unfold urlFor, playerApi. intros H.
  repeat (apply append_inv_head in H). exact H.
Qed.

Lemma searchUrls_NoDup (p : Profile.t) : NoDup (searchUrls p).
Proof.
  unfold searchUrls.
  repeat constructor; cbn [In]; intros H;
    repeat (destruct H as [H|H]; [apply urlFor_action in H; discriminate H|]);
    exact H.
Qed.

(** C5: on every content endpoint a failed upstream request ends the
    request with status 500 and an [error] field. [getFromApi] issues its
    request once; the endpoint's requests are pairwise distinct, one for a
    list or detail endpoint and three for /search, where the failure of
    any one of them fails the whole request. *)
Theorem upstream_failure_is_500 (E : env) (newId : string) (ep : endpoint)
        (docs : list Profile.t) (req : request) (u : string) :
  isContent ep = true ->
  In u (calls (snd (serve E newId ep docs req))) ->
  axiosGet E u = None ->
  (exists r, sent (snd (serve E newId ep docs req)) = Some r /\
             status r = 500 /\ hasErrorField r = true) /\
  NoDup (calls (snd (serve E newId ep docs req))) /\
  length (calls (snd (serve E newId ep docs req))) =
    match ep with Search => 3%nat | _ => 1%nat end /\
  (forall apiUrl username password action additionalParams,
     u = playerApi apiUrl username password action additionalParams ->
     getFromApi E apiUrl username password action additionalParams =
       ([u], inl "Error al comunicarse con la API IPTV")).
Proof.
  intros Hc Hin Hfail.
  assert (Hget : forall apiUrl username password action additionalParams,
     u = playerApi apiUrl username password action additionalParams ->
     getFromApi E apiUrl username password action additionalParams =
       ([u], inl "Error al comunicarse con la API IPTV")).
  { intros ? ? ? ? ? ->. unfold getFromApi. rewrite Hfail. reflexivity. }
  pose proof (serve_servedBy E newId ep docs req) as Hs.
  destruct Hs as [Hk|Hk Hb|token Hk Hb Hj|token v r' Hk Hb Hj _ Ht Hs4 He|token v Hk Hb Hj Hp];
    cbn [snd ended calls] in *; try contradiction.
  destruct (content_handler E newId ep docs (setUser req v) Hc)
    as [[Hne (action & extra & msg & k & F)]|[-> S]].
  - remember (handler E newId ep docs (setUser req v)) as out eqn:Hout. clear Hout.
    destruct F as [e Hg|p Hg Ha|p data Hg Ha]; cbn [sent calls] in *.
    + contradiction.
    + split; [eexists; repeat split|].
      split; [repeat constructor; intros []|].
      split; [destruct ep; try reflexivity; congruence|exact Hget].
    + destruct Hin as [<-|[]]. congruence.
  - remember (handler E newId Search docs (setUser req v)) as out eqn:Hout. clear Hout.
    destruct S as [e Hg|p Hg Hq|p u' Hg Hq Hu Ha|p l m s Hg Hq Hm Hn|p l m s Hg Hq Hm Hn];
      cbn [sent calls] in *; try contradiction.
    + split; [eexists; repeat split|].
      split; [apply searchUrls_NoDup|]. split; [reflexivity|exact Hget].
    + exfalso. apply (in_map (axiosGet E)) in Hin. rewrite Hm, Hfail in Hin.
      cbn in Hin. intuition discriminate.
    + exfalso. apply (in_map (axiosGet E)) in Hin. rewrite Hm, Hfail in Hin.
      cbn in Hin. intuition discriminate.
Qed.

(** ** Requests that reach the handler *)

Lemma serve_handler (E : env) (newId : string) (ep : endpoint)
      (docs : list Profile.t) (req : request) (token : string) (u : payload) :
  optEqb (headers_x_api_key req) (API_KEY E) = true ->
  bearerToken req = Some token ->
  jwtVerify E token (SECRET_KEY E) = Some u ->
  (isContent ep = true ->
   truthy (orElse (query_profile req) (params_profileId req)) = true) ->
  serve E newId ep docs req =
    ((map Mw (middlewares ep) ++ [Handler])%list,
     handler E newId ep docs (setUser req u)).
Proof.
  intros Hk Hb Hj Hp.
  pose proof (serve_servedBy E newId ep docs req) as Hs.
  destruct Hs as [Hk'|Hk' Hb'|token' Hk' Hb' Hj'|token' v r' Hk' Hb' Hj' Hc Ht Hs4 He
                  |token' v Hk' Hb' Hj' Hp']; try congruence.
  specialize (Hp Hc). congruence.
Qed.

(** ** Case-insensitive search *)

Lemma asciiLowerCase_app (a b : string) :
  asciiLowerCase (a ++ b) = asciiLowerCase a ++ asciiLowerCase b.
Proof.
  induction a as [|c a IH]; cbn [append asciiLowerCase]; [reflexivity|].
  rewrite IH. reflexivity.
Qed.

Lemma asciiLowerCase_split (s a b : string) :
  asciiLowerCase s = a ++ b ->
  exists sa sb, s = sa ++ sb /\ asciiLowerCase sa = a /\ asciiLowerCase sb = b.
Proof.
  revert s. induction a as [|c a IH]; intros s H.
  - exists EmptyString, s. auto.
  - destruct s as [|d s]; cbn [asciiLowerCase append] in H; [discriminate H|].
    injection H as Hc H. destruct (IH s H) as (sa & sb & -> & Ha & Hb).
    exists (String d sa), sb. cbn [append asciiLowerCase]. rewrite Hc, Ha. auto.
Qed.

(** Two characters are the same letter exactly when their small forms
    are equal: checked on the 256 * 256 pairs of bytes. *)
Lemma sameLetter_lowerChar (c d : ascii) :
  sameLetter c d = Ascii.eqb (lowerChar c) (lowerChar d).
Proof.
  assert (H : forallb (fun m => forallb (fun n =>
                Bool.eqb (sameLetter (ascii_of_nat m) (ascii_of_nat n))
                         (Ascii.eqb (lowerChar (ascii_of_nat m))
                                    (lowerChar (ascii_of_nat n))))
                (seq 0 256)) (seq 0 256) = true)
    by (vm_compute; reflexivity).
  assert (Hin : forall a, In (nat_of_ascii a) (seq 0 256))
    by (intros a; apply in_seq; pose proof (nat_ascii_bounded a); lia).
  pose proof (proj1 (forallb_forall _ _) H _ (Hin c)) as Hc. cbv beta in Hc.
  pose proof (proj1 (forallb_forall _ _) Hc _ (Hin d)) as Hd. cbv beta in Hd.
  clear H Hc. rename Hd into H.
  rewrite !ascii_nat_embedding in H. apply eqb_prop. exact H.
Qed.

Lemma equalIgnoringCase_lower (s t : string) :
  equalIgnoringCase s t = true <-> asciiLowerCase s = asciiLowerCase t.
Proof.
  revert t. induction s as [|c s IH]; intros [|d t];
    cbn [equalIgnoringCase asciiLowerCase];
    try (split; [discriminate|intros H; discriminate H]); [tauto|].
  rewrite andb_true_iff, sameLetter_lowerChar, Ascii.eqb_eq, IH. split.
  - intros [-> ->]. reflexivity.
  - intros H. injection H as H1 H2. auto.
Qed.

Lemma prefix_app (q s : string) :
  String.prefix q s = true <-> exists post, s = q ++ post.
Proof.
  revert s. induction q as [|c q IH]; intros s.
  - split; [intros _; exists s; reflexivity|]. intros _. destruct s; reflexivity.
  - destruct s as [|d s]; cbn [String.prefix].
    + split; [discriminate|]. intros [post H]. discriminate H.
    + destruct (ascii_dec c d) as [->|Hne].
      * rewrite IH. split; intros [post H]; exists post.
        -- cbn [append]. rewrite H. reflexivity.
        -- cbn [append] in H. injection H as H. exact H.
      * split; [discriminate|]. intros [post H]. cbn [append] in H.
        injection H as H1 H2. congruence.
Qed.

Lemma includes_app (s q : string) :
  includes s q = true <-> exists pre post, s = pre ++ q ++ post.
Proof.
  induction s as [|c s IH]; cbn [includes].
  - rewrite orb_false_r, prefix_app. split.
    + intros [post H]. exists EmptyString, post. exact H.
    + intros (pre & post & H). destruct pre; cbn [append] in H; [eauto|discriminate H].
  - rewrite orb_true_iff, prefix_app, IH. split.
    + intros [[post H]|(pre & post & H)].
      * exists EmptyString, post. exact H.
      * exists (String c pre), post. cbn [append]. rewrite H. reflexivity.
    + intros (pre & post & H). destruct pre as [|d pre]; cbn [append] in H.
      * left. eauto.
      * right. injection H as _ H. eauto.
Qed.

Lemma includes_ignoring_case (s q : string) :
  includes (asciiLowerCase s) (asciiLowerCase q) = true <->
  containsIgnoringCase s q.
Proof.
  rewrite includes_app. unfold containsIgnoringCase. split.
  - intros (pre & post & H).
    destruct (asciiLowerCase_split _ _ _ H) as (sa & sb & -> & Ha & Hb).
    destruct (asciiLowerCase_split _ _ _ Hb) as (sm & sp & -> & Hm & Hp).
    exists sa, sm, sp. split; [reflexivity|].
    apply equalIgnoringCase_lower. exact Hm.
  - intros (pre & mid & post & -> & Hm). apply equalIgnoringCase_lower in Hm.
    exists (asciiLowerCase pre), (asciiLowerCase post).
    rewrite !asciiLowerCase_app, Hm. reflexivity.
Qed.

(** On text of ASCII the filter of /search keeps the names that contain
    the query up to case. *)
Lemma matchesQuery_spec (E : env) (query : string) (it : item) (s : string) :
  lowersAscii E -> isAscii query = true ->
  name it = JStr s -> isAscii s = true ->
  (matchesQuery E query it = true <-> containsIgnoringCase s query).
Proof.
  intros Hlow Hq Hname Hs. unfold matchesQuery. rewrite Hname.
  rewrite (Hlow s Hs), (Hlow query Hq). apply includes_ignoring_case.
Qed.

(** C4, as stated, fails in two places. One upstream item whose [name] is
    not a string makes the whole search answer 500, although another item
    matches the query; and without [q] the answer is 500, not 400, when
    the profile is not one of the caller's. *)
Lemma search_counterexample :
  let E := Sample.E (fun _ => Some [Sample.bbc; Sample.nameless]) in
  matchesQuery E "bbc" Sample.bbc = true /\
  sent (snd (serve E EmptyString Search Sample.profiles
               (Sample.authed (Some "p1") None (Some "bbc")))) = Some searchError /\
  sent (snd (serve E EmptyString Search Sample.profiles
               (Sample.authed (Some "p2") None None))) = Some searchError.
Proof. vm_compute. repeat split. Qed.

(** C4, amended: for a request that passes the middlewares and whose
    profile is found, a non-empty [q] makes /search request the three
    upstream collections and, when the three requests succeed and every
    item has a string [name], return for each collection, in their
    original order, the items whose name in small letters includes [q] in
    small letters; for a [q] and a name of ASCII, where [toLowerCase]
    turns A to Z into a to z and changes nothing else, these are exactly
    the items whose name contains [q] up to the case of letters. Without
    [q] (absent or empty) the answer is 400 and no upstream request is
    made. *)
Theorem search_by_name (E : env) (newId : string) (docs : list Profile.t)
        (req : request) (token : string) (u : payload) (p : Profile.t) :
  optEqb (headers_x_api_key req) (API_KEY E) = true ->
  bearerToken req = Some token ->
  jwtVerify E token (SECRET_KEY E) = Some u ->
  truthy (orElse (query_profile req) (params_profileId req)) = true ->
  getProfileParams (setUser req u) docs = ([], inr p) ->
  let out := snd (serve E newId Search docs req) in
  (forall q liveStreams movies series,
     query_q req = Some q -> q <> EmptyString ->
     map (axiosGet E) (searchUrls p) = [Some liveStreams; Some movies; Some series] ->
     forallb hasStringName (liveStreams ++ movies ++ series) = true ->
     sent out = Some (ok (BSearch q (filter (matchesQuery E q) liveStreams)
                            (filter (matchesQuery E q) movies)
                            (filter (matchesQuery E q) series))) /\
     calls out = searchUrls p /\
     (lowersAscii E -> isAscii q = true ->
      forall it s, name it = JStr s -> isAscii s = true ->
        (matchesQuery E q it = true <-> containsIgnoringCase s q))) /\
  (truthy (query_q req) = false ->
     sent out = Some {| status := 400;
                        json := BError "Debe proporcionar un término de búsqueda (q)" |} /\
     calls out = []).
Proof.
  intros Hk Hb Hj Hp Hg out. subst out.
  rewrite (serve_handler E newId Search docs req token u Hk Hb Hj (fun _ => Hp)).
  cbn [snd handler].
  pose proof (search_handler E docs (setUser req u)) as S.
  remember (getSearch E docs (setUser req u)) as out eqn:Hout. clear Hout.
  destruct S as [e Hg'|p' Hg' Hq|p' u' Hg' Hq Hu Ha|p' l m s Hg' Hq Hm Hn|p' l m s Hg' Hq Hm Hn];
    change (query_q (setUser req u)) with (query_q req) in *;
    cbn [sent calls]; try congruence;
    assert (p' = p) by congruence; subst p'.
  - split; [|auto]. intros q l m s Hq' Hne. rewrite Hq' in Hq. cbn in Hq.
    destruct (String.eqb_spec q EmptyString); [contradiction|discriminate Hq].
  - split; [|congruence]. intros q l m s Hq' Hne Hm Hn. exfalso.
    apply (in_map (axiosGet E)) in Hu. rewrite Hm, Ha in Hu.
    cbn in Hu. intuition discriminate.
  - split; [|congruence]. intros q l' m' s' Hq' Hne Hm' Hn'. exfalso.
    assert (l' = l /\ m' = m /\ s' = s) as (-> & -> & ->)
      by (rewrite Hm' in Hm; injection Hm; auto).
    congruence.
  - split; [|congruence]. intros q l' m' s' Hq' Hne Hm' Hn'.
    assert (l' = l /\ m' = m /\ s' = s) as (-> & -> & ->)
      by (rewrite Hm' in Hm; injection Hm; auto).
    rewrite Hq'. cbn [strOf]. split; [reflexivity|]. split; [reflexivity|].
    intros Hlow Hqa it nm Hname Hnm. apply matchesQuery_spec; assumption.
Qed.

(** A search for [bbc] over lists that hold BBC One and CNN. *)
Lemma search_by_name_witness :
  let E := Sample.E (fun _ => Some [Sample.bbc; Sample.cnn]) in
  let req := Sample.authed (Some "p1") None (Some "bbc") in
  (optEqb (headers_x_api_key req) (API_KEY E) = true /\
   bearerToken req = Some "tok1" /\
   jwtVerify E "tok1" (SECRET_KEY E) = Some {| userId := "u1" |} /\
   truthy (orElse (query_profile req) (params_profileId req)) = true /\
   getProfileParams (setUser req {| userId := "u1" |}) Sample.profiles =
     ([], inr Sample.profile1) /\
   lowersAscii E /\ isAscii "bbc" = true /\ isAscii "BBC One" = true) /\
  sent (snd (serve E EmptyString Search Sample.profiles req)) =
    Some (ok (BSearch "bbc" [Sample.bbc] [Sample.bbc] [Sample.bbc])) /\
  containsIgnoringCase "BBC One" "bbc".
Proof.
  intros E req.
  assert (H1 : optEqb (headers_x_api_key req) (API_KEY E) = true) by reflexivity.
  assert (H2 : bearerToken req = Some "tok1") by reflexivity.
  assert (H3 : jwtVerify E "tok1" (SECRET_KEY E) = Some {| userId := "u1" |})
    by reflexivity.
  assert (H4 : truthy (orElse (query_profile req) (params_profileId req)) = true)
    by reflexivity.
  assert (H5 : getProfileParams (setUser req {| userId := "u1" |}) Sample.profiles =
               ([], inr Sample.profile1)) by reflexivity.
  assert (H6 : lowersAscii E) by (intros s _; reflexivity).
  split; [repeat split; exact H6|].
  destruct (search_by_name E EmptyString Sample.profiles req "tok1" _ _
              H1 H2 H3 H4 H5) as [Hfound _].
  destruct (Hfound "bbc" [Sample.bbc; Sample.cnn] [Sample.bbc; Sample.cnn]
              [Sample.bbc; Sample.cnn]) as (Hsent & _ & Hcase);
    [reflexivity|discriminate|reflexivity|reflexivity|].
  split; [exact Hsent|].
  apply (Hcase H6 eq_refl Sample.bbc "BBC One" eq_refl eq_refl). reflexivity.
Defined.

(** A search while the upstream VOD list is down. *)
Lemma upstream_failure_is_500_witness :
  let E := Sample.E Sample.vodDown in
  let req := Sample.authed (Some "p1") None (Some "bbc") in
  let u := urlFor Sample.profile1 "get_vod_streams" EmptyString in
  (isContent Search = true /\
   In u (calls (snd (serve E EmptyString Search Sample.profiles req))) /\
   axiosGet E u = None) /\
  (exists r, sent (snd (serve E EmptyString Search Sample.profiles req)) = Some r /\
             status r = 500 /\ hasErrorField r = true) /\
  length (calls (snd (serve E EmptyString Search Sample.profiles req))) = 3%nat.
Proof.
  intros E req u.
  assert (H1 : In u (calls (snd (serve E EmptyString Search Sample.profiles req))))
    by (vm_compute; auto).
  assert (H2 : axiosGet E u = None) by (vm_compute; reflexivity).
  split; [repeat split; assumption|].
  destruct (upstream_failure_is_500 E EmptyString Search Sample.profiles req u
              eq_refl H1 H2) as (Hr & _ & Hlen & _).
  split; assumption.
Defined.

(** ** Profile ownership *)

Lemma findOne_owned (docs : list Profile.t) (id uid : string) (p : Profile.t) :
  Profile.findOne docs id uid = Some p ->
  In p docs /\ Profile._id p = id /\ Profile.userId p = uid.
Proof.
  unfold Profile.findOne. intros H. apply find_some in H as [Hin Hb].
  apply andb_prop in Hb as [H1 H2].
  apply String.eqb_eq in H1, H2. auto.
Qed.

Lemma findOne_foreign (docs : list Profile.t) (id uid : string) :
  (forall p, In p docs -> Profile._id p = id -> Profile.userId p <> uid) ->
  Profile.findOne docs id uid = None.
Proof.
  intros H. destruct (Profile.findOne docs id uid) as [p|] eqn:Hf; [|reflexivity].
  apply findOne_owned in Hf as (Hin & Hid & Hu). exfalso. eapply H; eauto.
Qed.

Lemma getProfileParams_owned (req : request) (docs : list Profile.t)
      (log : list string) (p : Profile.t) :
  getProfileParams req docs = (log, inr p) ->
  exists u, user req = Some u /\ Profile.userId p = userId u /\ In p docs /\
            orElse (query_profile req) (params_profileId req) = Some (Profile._id p).
Proof.
  unfold getProfileParams. destruct (user req) as [u|]; [|discriminate].
  destruct (orElse (query_profile req) (params_profileId req)) as [id|];
    [|discriminate].
  destruct (Profile.findOne docs id (userId u)) as [q|] eqn:Hf; [|discriminate].
  intros H. injection H as _ <-.
  apply findOne_owned in Hf as (Hin & Hid & Hu). exists u. subst id. auto.
Qed.

Lemma fetched_discloses (E : env) (docs : list Profile.t) (req : request)
      (action additionalParams msg : string) (k : list item -> response)
      (out : handled) (r : response) (p : Profile.t) :
  fetched E docs req action additionalParams msg k out ->
  (forall data, profilesIn (json (k data)) = []) ->
  sent out = Some r -> In p (profilesIn (json r)) -> False.
Proof.
  intros F Hk Hs Hin.
  destruct F as [e Hg|q Hg Ha|q data Hg Ha]; cbn [sent] in Hs;
    injection Hs as <-; [exact Hin|exact Hin|].
  rewrite Hk in Hin. exact Hin.
Qed.

Lemma fetched_calls (E : env) (docs : list Profile.t) (req : request)
      (action additionalParams msg : string) (k : list item -> response)
      (out : handled) (url : string) :
  fetched E docs req action additionalParams msg k out ->
  In url (calls out) ->
  exists p, getProfileParams req docs = ([], inr p) /\
            url = urlFor p action additionalParams.
Proof.
  intros F Hin.
  destruct F as [e Hg|q Hg Ha|q data Hg Ha]; cbn [calls] in Hin;
    [contradiction| |]; destruct Hin as [<-|[]]; eauto.
Qed.

Lemma searched_calls (E : env) (docs : list Profile.t) (req : request)
      (out : handled) (url : string) :
  searched E docs req out ->
  In url (calls out) ->
  exists p action, getProfileParams req docs = ([], inr p) /\
                   url = urlFor p action EmptyString.
Proof.
  intros S Hin.
  destruct S as [e Hg|p Hg Hq|p u' Hg Hq Hu Ha|p l m s Hg Hq Hm Hn|p l m s Hg Hq Hm Hn];
    cbn [calls] in Hin; try contradiction;
    unfold searchUrls in Hin; cbn [In] in Hin;
    destruct Hin as [<-|[<-|[<-|[]]]]; eauto.
Qed.

(** C7: a profile carries one [userId], its owner. Whatever a gated
    endpoint returns of the collection (GET /profiles, GET
    /profiles/:profileId, the profile POST /profiles creates) is owned by
    the user of the verified token; another user's profile id gives 404 on
    GET /profiles/:profileId and the error of [getProfileParams]; and every
    upstream request of a content endpoint is built from a profile of the
    caller. *)
Theorem profile_ownership (E : env) (newId : string) (docs : list Profile.t)
        (req : request) :
  (forall ep r p,
     sent (snd (serve E newId ep docs req)) = Some r ->
     In p (profilesIn (json r)) ->
     exists token u, bearerToken req = Some token /\
       jwtVerify E token (SECRET_KEY E) = Some u /\
       Profile.userId p = userId u) /\
  (forall token u id,
     optEqb (headers_x_api_key req) (API_KEY E) = true ->
     bearerToken req = Some token ->
     jwtVerify E token (SECRET_KEY E) = Some u ->
     params_profileId req = Some id ->
     (forall p, In p docs -> Profile._id p = id -> Profile.userId p <> userId u) ->
     sent (snd (serve E newId GetProfile docs req)) =
       Some {| status := 404; json := BError "Perfil no encontrado" |}) /\
  (forall rq log p,
     getProfileParams rq docs = (log, inr p) ->
     exists u, user rq = Some u /\ Profile.userId p = userId u /\ In p docs) /\
  (forall rq u id,
     user rq = Some u ->
     orElse (query_profile rq) (params_profileId rq) = Some id ->
     (forall p, In p docs -> Profile._id p = id -> Profile.userId p <> userId u) ->
     getProfileParams rq docs = ([], inl "Perfil no encontrado o no autorizado")) /\
  (forall ep url,
     isContent ep = true ->
     In url (calls (snd (serve E newId ep docs req))) ->
     exists token u p action additionalParams,
       bearerToken req = Some token /\
       jwtVerify E token (SECRET_KEY E) = Some u /\
       In p docs /\ Profile.userId p = userId u /\
       url = urlFor p action additionalParams).
Proof.
  split; [|split; [|split; [|split]]].
  - intros ep r p Hsent Hin.
    pose proof (serve_servedBy E newId ep docs req) as Hs.
    destruct Hs as [Hk|Hk Hb|token Hk Hb Hj|token u r' Hk Hb Hj Hc Ht Hs4 He
                    |token u Hk Hb Hj Hp]; cbn [snd ended sent] in Hsent.
    1-3: injection Hsent as <-; contradiction.
    { injection Hsent as <-. unfold hasErrorField in He.
      destruct (json r'); try discriminate He. contradiction. }
    exists token, u. split; [exact Hb|]. split; [exact Hj|].
    destruct ep; cbn [handler] in Hsent;
      try (exfalso;
           match type of Hsent with
           | sent (?h E docs ?rq) = _ => unfold h in Hsent
           end;
           fetch_cases Hsent; eapply fetched_discloses; eauto; fail).
    + unfold postProfiles in Hsent. cbn [user setUser] in Hsent.
      destruct (_ ++ _)%list; [|injection Hsent as <-; contradiction].
      destruct (Profile.findOneByName _ _ _);
        injection Hsent as <-; cbn in Hin; [contradiction|].
      destruct Hin as [<-|[]]. reflexivity.
    + unfold getProfiles in Hsent. cbn [user setUser] in Hsent.
      injection Hsent as <-. cbn in Hin. unfold Profile.find in Hin.
      apply filter_In in Hin as [_ Hu]. apply String.eqb_eq in Hu. exact Hu.
    + unfold getProfile in Hsent. cbn [user setUser] in Hsent.
      destruct (Profile.findOne _ _ _) as [q|] eqn:Hf;
        injection Hsent as <-; cbn in Hin; [|contradiction].
      destruct Hin as [<-|[]]. apply findOne_owned in Hf. tauto.
    + exfalso. pose proof (search_handler E docs (setUser req u)) as S.
      destruct S; cbn [sent] in Hsent; injection Hsent as <-; exact Hin.
  - intros token u id Hk Hb Hj Hid Hforeign.
    rewrite (serve_handler E newId GetProfile docs req token u Hk Hb Hj)
      by discriminate.
    cbn [snd handler]. unfold getProfile. cbn [user setUser params_profileId].
    rewrite Hid. cbn [strOf]. rewrite (findOne_foreign _ _ _ Hforeign). reflexivity.
  - intros rq log p H. apply getProfileParams_owned in H as (u & ? & ? & ? & _).
    eauto.
  - intros rq u id Hu Ho Hforeign. unfold getProfileParams.
    rewrite Hu, Ho, (findOne_foreign _ _ _ Hforeign). reflexivity.
  - intros ep url Hc Hin.
    pose proof (serve_servedBy E newId ep docs req) as Hs.
    destruct Hs as [Hk|Hk Hb|token Hk Hb Hj|token u r' Hk Hb Hj _ Ht Hs4 He
                    |token u Hk Hb Hj Hp]; cbn [snd ended calls] in Hin;
      try contradiction.
    exists token, u.
    destruct (content_handler E newId ep docs (setUser req u) Hc)
      as [[_ (action & extra & msg & k & F)]|[_ S]].
    + destruct (fetched_calls _ _ _ _ _ _ _ _ _ F Hin) as (p & Hg & ->).
      apply getProfileParams_owned in Hg as (v & Hv & Hown & Hdocs & _).
      cbn [user setUser] in Hv. injection Hv as <-.
      exists p, action, extra. auto.
    + destruct (searched_calls _ _ _ _ _ S Hin) as (p & action & Hg & ->).
      apply getProfileParams_owned in Hg as (v & Hv & Hown & Hdocs & _).
      cbn [user setUser] in Hv. injection Hv as <-.
      exists p, action, EmptyString. auto.
Qed.

(** User [u1] asks for the profile of user [u2]. *)
Lemma profile_ownership_witness :
  let E := Sample.E (fun _ => None) in
  let req :=
    {| headers_x_api_key := Some "key";
       headers_authorization := Some "Bearer tok1";
       query_profile := None; query_page := None; query_q := None;
       params_profileId := Some "p2"; params_id := EmptyString;
       body_name := None; body_url := None; body_username := None;
       body_password := None; body_email := None; body_firstName := None;
       body_lastName := None; body_code := None;
   body_verificationCode := None; body_newPassword := None;
       user := None; req_userId := None |} in
  (In Sample.profile2 Sample.profiles /\
   Profile._id Sample.profile2 = "p2" /\ Profile.userId Sample.profile2 = "u2") /\
  sent (snd (serve E EmptyString GetProfile Sample.profiles req)) =
    Some {| status := 404; json := BError "Perfil no encontrado" |} /\
  getProfileParams (setUser req {| userId := "u1" |}) Sample.profiles =
    ([], inl "Perfil no encontrado o no autorizado") /\
  sent (snd (serve E EmptyString GetProfiles Sample.profiles req)) =
    Some (ok (BProfiles [Sample.profile1])).
Proof.
  intros E req.
  destruct (profile_ownership E EmptyString Sample.profiles req)
    as (_ & Hget & _ & Hparams & _).
  assert (Hforeign : forall p, In p Sample.profiles -> Profile._id p = "p2" ->
                               Profile.userId p <> "u1").
  { intros p [<-|[<-|[]]]; cbn; discriminate. }
  split; [cbn; auto|]. split; [|split].
  - apply (Hget "tok1" {| userId := "u1" |} "p2"); try reflexivity. exact Hforeign.
  - apply (Hparams (setUser req {| userId := "u1" |}) {| userId := "u1" |} "p2");
      try reflexivity. exact Hforeign.
  - reflexivity.
Defined.

(** ** Rounding to binary64 *)

Lemma round53_exact (m : Z) : 0 <= m <= 2 ^ 53 -> round53 m = m.
Proof.
  intros [H0 H1]. destruct (Z.eq_dec m (2 ^ 53)) as [->|Hne]; [reflexivity|].
  unfold round53.
  assert (Hs : Z.log2 m - 52 <= 0).
  { destruct (Z.eq_dec m 0) as [->|Hz]; [cbn; lia|].
    assert (Z.log2 m < 53) by (apply Z.log2_lt_pow2; lia). lia. }
  replace (Z.log2 m - 52 <=? 0) with true by (symmetry; apply Z.leb_le; exact Hs).
  reflexivity.
Qed.

(** Above 2^53 the rounded value keeps the 53 leading bits or adds one to
    them. *)
Lemma round53_bounds (m : Z) :
  0 < Z.log2 m - 52 ->
  let s := Z.log2 m - 52 in
  2 ^ 52 <= m / 2 ^ s < 2 ^ 53 /\
  m / 2 ^ s * 2 ^ s <= round53 m <= (m / 2 ^ s + 1) * 2 ^ s.
Proof.
  intros Hs s. subst s.
  assert (Hm : 0 < m).
  { destruct (Z.le_gt_cases m 0) as [H|H]; [|lia].
    rewrite (Z.log2_nonpos m H) in Hs. lia. }
  set (s := Z.log2 m - 52) in *.
  destruct (Z.log2_spec m Hm) as [Hlo Hhi].
  assert (Hp : 0 < 2 ^ s) by (apply Z.pow_pos_nonneg; lia).
  assert (H52 : 2 ^ Z.log2 m = 2 ^ 52 * 2 ^ s).
  { rewrite <- Z.pow_add_r by lia. f_equal. lia. }
  assert (H53 : 2 ^ Z.succ (Z.log2 m) = 2 ^ 53 * 2 ^ s).
  { rewrite <- Z.pow_add_r by lia. f_equal. lia. }
  split.
  - split.
    + apply Z.div_le_lower_bound; [exact Hp|]. lia.
    + apply Z.div_lt_upper_bound; [exact Hp|]. lia.
  - unfold round53. fold s.
    replace (s <=? 0) with false by (symmetry; apply Z.leb_gt; lia).
    destruct (_ || _); nia.
Qed.

Lemma round53_mono (a b : Z) : 0 <= a <= b -> round53 a <= round53 b.
Proof.
  intros [Ha Hab].
  assert (Hlog : Z.log2 a <= Z.log2 b) by (apply Z.log2_le_mono; exact Hab).
  destruct (Z.le_gt_cases (Z.log2 b - 52) 0) as [Hsb|Hsb].
  { assert (Hea : round53 a = a).
    { unfold round53.
      replace (Z.log2 a - 52 <=? 0) with true by (symmetry; apply Z.leb_le; lia).
      reflexivity. }
    assert (Heb : round53 b = b).
    { unfold round53.
      replace (Z.log2 b - 52 <=? 0) with true by (symmetry; apply Z.leb_le; lia).
      reflexivity. }
    lia. }
  pose proof (round53_bounds b Hsb) as [[Hqb _] [Hrb _]]. cbv zeta in *.
  set (sb := Z.log2 b - 52) in *.
  assert (Hpb : 0 < 2 ^ sb) by (apply Z.pow_pos_nonneg; lia).
  destruct (Z.le_gt_cases (Z.log2 a - 52) 0) as [Hsa|Hsa].
  { assert (Hea : round53 a = a).
    { unfold round53.
      replace (Z.log2 a - 52 <=? 0) with true by (symmetry; apply Z.leb_le; lia).
      reflexivity. }
    rewrite Hea.
    assert (a < 2 ^ 53).
    { destruct (Z.eq_dec a 0) as [->|Hz]; [reflexivity|].
      apply Z.log2_lt_pow2; lia. }
    assert (2 ^ 53 <= 2 ^ 52 * 2 ^ sb).
    { change (2 ^ 53) with (2 ^ 52 * 2 ^ 1). apply Z.mul_le_mono_nonneg_l; [lia|].
      apply Z.pow_le_mono_r; lia. }
    nia. }
  pose proof (round53_bounds a Hsa) as [[_ Hqa] [_ Hra]]. cbv zeta in *.
  set (sa := Z.log2 a - 52) in *.
  assert (Hpa : 0 < 2 ^ sa) by (apply Z.pow_pos_nonneg; lia).
  destruct (Z.eq_dec sa sb) as [Heq|Hne].
  - (* the same exponent *)
    unfold round53. fold sa sb.
    replace (sa <=? 0) with false by (symmetry; apply Z.leb_gt; lia).
    replace (sb <=? 0) with false by (symmetry; apply Z.leb_gt; lia).
    rewrite Heq in *. clear Hra Hrb.
    assert (Hq : a / 2 ^ sb <= b / 2 ^ sb) by (apply Z.div_le_mono; lia).
    pose proof (Z.div_mod a (2 ^ sb) ltac:(lia)) as Hda.
    pose proof (Z.div_mod b (2 ^ sb) ltac:(lia)) as Hdb.
    pose proof (Z.mod_pos_bound a (2 ^ sb) Hpb) as Hma.
    pose proof (Z.mod_pos_bound b (2 ^ sb) Hpb) as Hmb.
    apply Z.mul_le_mono_nonneg_r; [lia|].
    destruct (Z.eq_dec (a / 2 ^ sb) (b / 2 ^ sb)) as [Hqe|Hqne].
    + rewrite Hqe in *.
      assert (Hr : a mod 2 ^ sb <= b mod 2 ^ sb) by nia.
      assert (Hup : (2 ^ (sb - 1) <? a mod 2 ^ sb)
                    || (a mod 2 ^ sb =? 2 ^ (sb - 1)) && Z.odd (b / 2 ^ sb) = true ->
                    (2 ^ (sb - 1) <? b mod 2 ^ sb)
                    || (b mod 2 ^ sb =? 2 ^ (sb - 1)) && Z.odd (b / 2 ^ sb) = true).
      { rewrite !orb_true_iff, !andb_true_iff, !Z.ltb_lt, !Z.eqb_eq.
        intros [H1|[H1 Ho]]; [left; lia|].
        destruct (Z.eq_dec (b mod 2 ^ sb) (2 ^ (sb - 1))); [right; auto|left; lia]. }
      destruct ((2 ^ (sb - 1) <? a mod 2 ^ sb)
                || (a mod 2 ^ sb =? 2 ^ (sb - 1)) && Z.odd (b / 2 ^ sb)).
      * rewrite (Hup eq_refl). lia.
      * destruct (_ || _); lia.
    + destruct (_ || _); destruct (_ || _); lia.
  - (* a smaller exponent *)
    assert (Hlt : sa + 1 <= sb) by (subst sa sb; lia).
    assert (2 ^ 53 * 2 ^ sa <= 2 ^ 52 * 2 ^ sb).
    { replace (2 ^ 53 * 2 ^ sa) with (2 ^ 52 * 2 ^ (sa + 1))
        by (rewrite Z.pow_add_r by lia; change (2 ^ 53) with (2 ^ 52 * 2 ^ 1); ring).
      apply Z.mul_le_mono_nonneg_l; [lia|]. apply Z.pow_le_mono_r; lia. }
    nia.
Qed.

(** ** Verification codes *)

Lemma randomCode_range (n : Z) :
  validDraw n ->
  exists k, 100000 <= k <= 999999 /\ randomCode n = numberToString k.
Proof.
  unfold validDraw, randomCode. intros Hn.
  eexists. split; [|reflexivity].
  change (2 ^ 53) with 9007199254740992 in *.
  assert (Hp : round53 0 <= round53 (n * 900000)
               <= round53 (9007199254740991 * 900000))
    by (split; apply round53_mono; lia).
  change (round53 0) with 0 in Hp.
  assert (Hmax : round53 (9007199254740991 * 900000) = 8106479329266891751424)
    by (vm_compute; reflexivity).
  rewrite Hmax in Hp.
  assert (Hs : round53 (100000 * 9007199254740992)
               <= round53 (100000 * 9007199254740992 + round53 (n * 900000))
               <= round53 (100000 * 9007199254740992 + 8106479329266891751424))
    by (split; apply round53_mono; lia).
  assert (Hlo : round53 (100000 * 9007199254740992) = 100000 * 9007199254740992)
    by (vm_compute; reflexivity).
  assert (Hhi : round53 (100000 * 9007199254740992 + 8106479329266891751424)
                = 9007199254740990951424)
    by (vm_compute; reflexivity).
  rewrite Hlo, Hhi in Hs.
  split.
  - apply Z.div_le_lower_bound; lia.
  - apply Z.lt_succ_r. apply Z.div_lt_upper_bound; lia.
Qed.

(** The rounding shows: for this result of [Math.random] the exact sum
    is just below 100015 and the binary64 sum is 100015. *)
Lemma randomCode_rounded :
  (100000 * 2 ^ 53 + 150119987579 * 900000) / 2 ^ 53 = 100014 /\
  randomCode 150119987579 = "100015".
Proof. vm_compute. split; reflexivity. Qed.

Lemma div10_bounds (a lo hi : Z) :
  lo * 10 <= a <= hi * 10 + 9 -> lo <= a / 10 <= hi.
Proof.
  intros H. pose proof (Z.div_mod a 10 ltac:(lia)).
  pose proof (Z.mod_pos_bound a 10 ltac:(lia)). lia.
Qed.

Lemma digitChar_isDigit (d : Z) : 0 <= d <= 9 -> isDigit (digitChar d) = true.
Proof.
  intros H.
  assert (d = 0 \/ d = 1 \/ d = 2 \/ d = 3 \/ d = 4 \/ d = 5 \/ d = 6 \/ d = 7
          \/ d = 8 \/ d = 9) as Hd by lia.
  repeat (destruct Hd as [->|Hd]; [reflexivity|]). subst d. reflexivity.
Qed.

Lemma mod10_isDigit (a : Z) : isDigit (digitChar (a mod 10)) = true.
Proof.
  apply digitChar_isDigit. pose proof (Z.mod_pos_bound a 10 ltac:(lia)). lia.
Qed.

Lemma numberToString_six (k : Z) :
  100000 <= k <= 999999 -> isSixDigits (numberToString k) = true.
Proof.
  intros Hk. unfold numberToString.
  replace (k <? 0) with false by (symmetry; apply Z.ltb_ge; lia).
  assert (Hlog : 16 <= Z.log2 k).
  { apply Z.log2_le_pow2; [lia|]. change (2 ^ 16) with 65536. lia. }
  remember (Z.to_nat (Z.log2 k)) as fuel eqn:Hf.
  assert (Hfuel : (16 <= fuel)%nat) by lia. clear Hf Hlog.
  do 6 (destruct fuel as [|fuel]; [lia|]).
  pose proof (div10_bounds k 10000 99999 ltac:(lia)) as H1.
  pose proof (div10_bounds (k / 10) 1000 9999 ltac:(lia)) as H2.
  pose proof (div10_bounds (k / 10 / 10) 100 999 ltac:(lia)) as H3.
  pose proof (div10_bounds (k / 10 / 10 / 10) 10 99 ltac:(lia)) as H4.
  pose proof (div10_bounds (k / 10 / 10 / 10 / 10) 1 9 ltac:(lia)) as H5.
  pose proof (div10_bounds (k / 10 / 10 / 10 / 10 / 10) 0 0 ltac:(lia)) as H6.
  cbn [digitsOf].
  replace (k / 10 =? 0) with false by (symmetry; apply Z.eqb_neq; lia).
  replace (k / 10 / 10 =? 0) with false by (symmetry; apply Z.eqb_neq; lia).
  replace (k / 10 / 10 / 10 =? 0) with false by (symmetry; apply Z.eqb_neq; lia).
  replace (k / 10 / 10 / 10 / 10 =? 0) with false
    by (symmetry; apply Z.eqb_neq; lia).
  replace (k / 10 / 10 / 10 / 10 / 10 =? 0) with false
    by (symmetry; apply Z.eqb_neq; lia).
  replace (k / 10 / 10 / 10 / 10 / 10 / 10 =? 0) with true
    by (symmetry; apply Z.eqb_eq; lia).
  cbn [isSixDigits]. rewrite !mod10_isDigit. reflexivity.
Qed.

Lemma randomCode_sixDigit (n : Z) : validDraw n -> sixDigitCode (randomCode n).
Proof.
  intros Hn. destruct (randomCode_range n Hn) as (k & Hk & Heq).
  split; [|eauto]. rewrite Heq. apply numberToString_six. exact Hk.
Qed.

Lemma optEqb_eq (a b : option string) : optEqb a b = true <-> a = b.
Proof.
  destruct a as [x|], b as [y|]; cbn [optEqb];
    try (split; [discriminate|congruence]); [|split; reflexivity].
  rewrite String.eqb_eq. split; congruence.
Qed.

Lemma findOneByToken_none (docs : list User.t) (code : string) :
  User.findOneByToken docs code = None <-> unusedIn docs code.
Proof.
  unfold User.findOneByToken, unusedIn. split.
  - intros H u Hin Heq. pose proof (find_none _ _ H u Hin) as Hf.
    cbn in Hf. rewrite Heq in Hf. cbn [optEqb] in Hf.
    rewrite String.eqb_refl in Hf. discriminate Hf.
  - intros H. destruct (find _ docs) as [u|] eqn:Hf; [|reflexivity].
    apply find_some in Hf as [Hin Hb]. apply optEqb_eq in Hb.
    exfalso. exact (H u Hin Hb).
Qed.

Lemma generate_some (draws : list Z) (docs : list User.t)
      (code : string) (rest : list Z) :
  generateUniqueVerificationCode draws docs = Some (code, rest) ->
  exists n, In n draws /\ code = randomCode n /\ unusedIn docs code.
Proof.
  induction draws as [|n draws IH]; cbn [generateUniqueVerificationCode];
    [discriminate|].
  destruct (User.findOneByToken docs (randomCode n)) as [u|] eqn:Hf.
  - intros H. destruct (IH H) as (m & Hin & Hc & Hu). exists m. cbn [In]. auto.
  - intros H. injection H as <- <-. exists n. cbn [In].
    apply findOneByToken_none in Hf. auto.
Qed.

Lemma generate_returns (draws : list Z) (docs : list User.t) (n : Z) :
  In n draws -> unusedIn docs (randomCode n) ->
  exists code rest, generateUniqueVerificationCode draws docs = Some (code, rest).
Proof.
  induction draws as [|m draws IH]; cbn [In generateUniqueVerificationCode];
    [contradiction|].
  intros Hin Hfree.
  destruct (User.findOneByToken docs (randomCode m)) as [u|] eqn:Hf; [|eauto].
  destruct Hin as [->|Hin]; [|auto].
  apply findOneByToken_none in Hfree. congruence.
Qed.

Lemma generate_loops (draws : list Z) (docs : list User.t) :
  (forall n, In n draws -> ~ unusedIn docs (randomCode n)) ->
  generateUniqueVerificationCode draws docs = None.
Proof.
  intros H.
  destruct (generateUniqueVerificationCode draws docs) as [[code rest]|] eqn:Hg;
    [|reflexivity].
  apply generate_some in Hg as (n & Hin & -> & Hfree).
  exfalso. exact (H n Hin Hfree).
Qed.

Lemma fullStore_holds (k : Z) :
  100000 <= k <= 999999 -> ~ unusedIn Sample.fullStore (numberToString k).
Proof.
  intros Hk Hfree. apply (Hfree (Sample.holder k)); [|reflexivity].
  unfold Sample.fullStore. apply in_map_iff.
  exists (Z.to_nat (k - 100000)). split; [f_equal; lia|].
  apply in_seq. lia.
Qed.

Lemma fullStore_loops (draws : list Z) :
  Forall validDraw draws ->
  generateUniqueVerificationCode draws Sample.fullStore = None.
Proof.
  intros Hv. apply generate_loops. intros n Hin.
  rewrite Forall_forall in Hv.
  destruct (randomCode_range n (Hv n Hin)) as (k & Hk & ->).
  apply fullStore_holds. exact Hk.
Qed.

(** C3, as stated, fails: when every code from 100000 to 999999 is held,
    no sequence of results of [Math.random] makes the loop return. *)
Lemma code_generation_counterexample :
  ~ (forall (docs : list User.t) (stream : nat -> Z),
       (forall i, validDraw (stream i)) ->
       exists k code rest,
         generateUniqueVerificationCode (map stream (seq 0 k)) docs =
           Some (code, rest)).
Proof.
  intros H.
  destruct (H Sample.fullStore (fun _ => 0)) as (k & code & rest & Hg).
  - intros _. unfold validDraw. split; [lia|reflexivity].
  - rewrite fullStore_loops in Hg; [discriminate Hg|].
    apply Forall_forall. intros n Hin. apply in_map_iff in Hin as (i & <- & _).
    unfold validDraw. split; [lia|reflexivity].
Qed.

(** ** The user collection *)

Lemma deleteOneByEmail_incl (docs : list User.t) (x : string) (u : User.t) :
  In u (User.deleteOneByEmail docs x) -> In u docs.
Proof.
  induction docs as [|d rest IH]; cbn [User.deleteOneByEmail In]; [auto|].
  destruct (User.email d =? x)%string; cbn [In]; tauto.
Qed.

Lemma insert_spec (docs : list User.t) (u : User.t) (saved : list User.t) :
  User.insert docs u = Some saved ->
  saved = (docs ++ [u])%list /\
  forall d, In d docs ->
    User._id d <> User._id u /\ User.username d <> User.username u /\
    User.email d <> User.email u.
Proof.
  unfold User.insert.
  destruct (existsb _ docs) eqn:He; [discriminate|].
  intros H. injection H as <-. split; [reflexivity|].
  intros d Hin.
  assert (Hd : ((User._id d =? User._id u)%string
                || (User.username d =? User.username u)%string
                || (User.email d =? User.email u)%string) = false).
  { destruct (_ || _ || _) eqn:Hb; [|reflexivity].
    assert (existsb (fun d => (User._id d =? User._id u)%string
                              || (User.username d =? User.username u)%string
                              || (User.email d =? User.email u)%string) docs = true)
      by (apply existsb_exists; eauto).
    congruence. }
  apply orb_false_elim in Hd as [Hd H3]. apply orb_false_elim in Hd as [H1 H2].
  apply String.eqb_neq in H1, H2, H3. auto.
Qed.

(** The delete of POST /register undoes the save before it. *)
Lemma delete_undoes_insert (docs : list User.t) (u : User.t) (saved : list User.t) :
  User.insert docs u = Some saved ->
  User.deleteOneByEmail saved (User.email u) = docs.
Proof.
  intros H. apply insert_spec in H as [-> Hfresh].
  induction docs as [|d rest IH]; cbn [app User.deleteOneByEmail].
  - rewrite String.eqb_refl. reflexivity.
  - destruct (String.eqb_spec (User.email d) (User.email u)) as [Heq|Hne].
    + exfalso. destruct (Hfresh d (or_introl eq_refl)) as (_ & _ & Hn). auto.
    + f_equal. apply IH. intros d' Hin. apply Hfresh. right. exact Hin.
Qed.

Lemma update_incl (docs : list User.t) (u' d : User.t) :
  In d (User.update docs u') -> In d docs \/ d = u'.
Proof.
  unfold User.update. intros H. apply in_map_iff in H as (x & Hx & Hin).
  destruct (User._id x =? User._id u')%string; subst; auto.
Qed.

Lemma update_ids (docs : list User.t) (u' : User.t) :
  map User._id (User.update docs u') = map User._id docs.
Proof.
  unfold User.update. rewrite map_map. apply map_ext. intros d.
  destruct (String.eqb_spec (User._id d) (User._id u')); congruence.
Qed.

Lemma update_other (l : list User.t) (u' : User.t) :
  (forall d, In d l -> User._id d <> User._id u') -> User.update l u' = l.
Proof.
  intros H. unfold User.update. rewrite <- (map_id l) at 2.
  apply map_ext_in. intros d Hin.
  destruct (String.eqb_spec (User._id d) (User._id u')); [|reflexivity].
  exfalso. eapply H; eauto.
Qed.

Lemma update_split (docs : list User.t) (u u' : User.t) :
  NoDup (map User._id docs) -> In u docs -> User._id u' = User._id u ->
  exists pre post,
    docs = (pre ++ u :: post)%list /\
    User.update docs u' = (pre ++ u' :: post)%list.
Proof.
  intros Hnd Hin Hid. apply in_split in Hin as (pre & post & ->).
  exists pre, post. split; [reflexivity|].
  rewrite map_app in Hnd. cbn [map] in Hnd.
  pose proof (NoDup_remove_2 _ _ _ Hnd) as Hnot.
  unfold User.update. rewrite map_app. cbn [map].
  fold (User.update pre u'). fold (User.update post u').
  replace (User._id u =? User._id u')%string with true
    by (symmetry; apply String.eqb_eq; congruence).
  rewrite !update_other; [reflexivity| |]; intros d Hd Heq; apply Hnot;
    apply in_or_app; [right|left]; apply in_map_iff; exists d; split; congruence.
Qed.

Lemma tokensOf_app (a b : list User.t) :
  tokensOf (a ++ b) = (tokensOf a ++ tokensOf b)%list.
Proof. unfold tokensOf. apply flat_map_app. Qed.

Lemma tokensOf_single (u : User.t) :
  tokensOf [u] = match User.verificationToken u with
                 | Some c => [c]
                 | None => []
                 end.
Proof. unfold tokensOf. cbn [flat_map]. apply app_nil_r. Qed.

Lemma tokensOf_In (docs : list User.t) (code : string) :
  In code (tokensOf docs) <->
  exists u, In u docs /\ User.verificationToken u = Some code.
Proof.
  unfold tokensOf. rewrite in_flat_map. split; intros (u & Hin & H); exists u;
    (split; [exact Hin|]).
  - destruct (User.verificationToken u) as [c|]; [|contradiction].
    destruct H as [->|[]]. reflexivity.
  - rewrite H. left. reflexivity.
Qed.

Lemma unusedIn_tokens (docs : list User.t) (code : string) :
  unusedIn docs code <-> ~ In code (tokensOf docs).
Proof.
  rewrite tokensOf_In. unfold unusedIn. split.
  - intros H (u & Hin & Heq). exact (H u Hin Heq).
  - intros H u Hin Heq. apply H. eauto.
Qed.

(** Replacing one document's code by none, or by a code no document
    holds, keeps the codes distinct. *)
Lemma update_wellFormed (docs : list User.t) (u u' : User.t) :
  wellFormed docs -> In u docs -> User._id u' = User._id u ->
  match User.verificationToken u' with
  | Some code => unusedIn docs code
  | None => True
  end ->
  wellFormed (User.update docs u').
Proof.
  intros [Hids Htok] Hin Hid Hnew. split; [rewrite update_ids; exact Hids|].
  destruct (update_split docs u u' Hids Hin Hid) as (pre & post & Hd & ->).
  rewrite Hd in Htok. rewrite tokensOf_app in Htok |- *.
  change (u :: post) with ([u] ++ post)%list in Htok.
  change (u' :: post) with ([u'] ++ post)%list.
  rewrite tokensOf_app in Htok |- *.
  assert (Hrest : NoDup (tokensOf pre ++ tokensOf post)).
  { apply NoDup_app_remove_l with (l := tokensOf [u]).
    eapply Permutation_NoDup; [|exact Htok].
    rewrite app_assoc. rewrite (Permutation_app_comm (tokensOf pre) (tokensOf [u])).
    rewrite <- app_assoc. apply Permutation_refl. }
  rewrite (tokensOf_single u').
  destruct (User.verificationToken u') as [code|]; [|exact Hrest].
  cbn [app]. apply (NoDup_Add (Add_app code (tokensOf pre) (tokensOf post))).
  split; [exact Hrest|].
  apply unusedIn_tokens in Hnew. rewrite Hd in Hnew. intros Hc. apply Hnew.
  rewrite tokensOf_app. apply in_or_app. apply in_app_or in Hc as [Hc|Hc];
    [left; exact Hc|right].
  change (u :: post) with ([u] ++ post)%list. rewrite tokensOf_app.
  apply in_or_app. right. exact Hc.
Qed.

Lemma find_In {A : Type} (f : A -> bool) (l : list A) (x : A) :
  find f l = Some x -> In x l.
Proof. intros H. apply find_some in H. tauto. Qed.

(** ** Issuing codes *)

Lemma issueCode_after (O : oracle) (docs : list User.t) (user : User.t)
      (messageType okMsg failMsg : string) :
  usersAfter (issueCode O docs user messageType okMsg failMsg) = docs \/
  exists code rest,
    generateUniqueVerificationCode (random O) docs = Some (code, rest) /\
    usersAfter (issueCode O docs user messageType okMsg failMsg) =
      User.update docs (User.setToken user (Some code) (Some (now O + tenMinutes))).
Proof.
  unfold issueCode.
  destruct (generateUniqueVerificationCode (random O) docs) as [[code rest]|];
    [|left; reflexivity].
  right. exists code, rest. split; [reflexivity|].
  destruct (sendEmail O _ _); reflexivity.
Qed.

(** What the three code-issuing handlers leave in the collection: the
    documents that were there, and a document with a new code. *)
Lemma issuing_after (E : env) (O : oracle) (docs : list User.t)
      (req : request) (route : accountRoute) :
  In route [Register; ResendVerification; ForgotPassword] ->
  usersAfter (accountHandler E O route docs req) = docs \/
  exists code rest u',
    generateUniqueVerificationCode (random O) docs = Some (code, rest) /\
    User.verificationToken u' = Some code /\
    ((exists saved, User.insert docs u' = Some saved /\
                    usersAfter (accountHandler E O route docs req) = saved) \/
     (exists u, In u docs /\ User._id u' = User._id u /\
                usersAfter (accountHandler E O route docs req) = User.update docs u')).
Proof.
  intros Hr. cbn [In] in Hr.
  destruct Hr as [<-|[<-|[<-|[]]]]; cbn [accountHandler].
  - unfold postRegister.
    destruct (fieldMissing req); [left; reflexivity|].
    destruct (User.findOneByUsername _ _); [left; reflexivity|].
    destruct (bcryptHash O _) as [hashed|]; [|left; reflexivity].
    destruct (generateUniqueVerificationCode (random O) docs) as [[code rest]|] eqn:Hg;
      [|left; reflexivity].
    destruct (User.insert docs (newUser O req hashed code)) as [saved|] eqn:Hi;
      [|left; reflexivity].
    destruct (sendEmail O _ _).
    + right. exists code, rest, (newUser O req hashed code).
      split; [reflexivity|]. split; [reflexivity|]. left. eauto.
    + left. cbn [respond usersAfter].
      apply (delete_undoes_insert docs (newUser O req hashed code) saved Hi).
  - unfold postResendVerification.
    destruct (negb _); [left; reflexivity|].
    destruct (User.findOneByEmail _ _) as [user|] eqn:Hf; [|left; reflexivity].
    destruct (User.isVerified user); [left; reflexivity|].
    destruct (issueCode_after O docs user "verify"
                "Correo de verificación reenviado exitosamente."
                "Error al enviar el correo de verificación.")
      as [H|(code & rest & Hg & H)]; [left; exact H|].
    right. exists code, rest, (User.setToken user (Some code) (Some (now O + tenMinutes))).
    split; [exact Hg|]. split; [reflexivity|]. right. exists user.
    split; [eapply find_In; exact Hf|]. split; [reflexivity|exact H].
  - unfold postForgotPassword.
    destruct (negb _); [left; reflexivity|].
    destruct (User.findOneByEmail _ _) as [user|] eqn:Hf; [|left; reflexivity].
    destruct (issueCode_after O docs user "recovery"
                "Código de recuperación enviado exitosamente."
                "Error al enviar el correo de recuperación.")
      as [H|(code & rest & Hg & H)]; [left; exact H|].
    right. exists code, rest, (User.setToken user (Some code) (Some (now O + tenMinutes))).
    split; [exact Hg|]. split; [reflexivity|]. right. exists user.
    split; [eapply find_In; exact Hf|]. split; [reflexivity|exact H].
Qed.

Lemma update_stores (docs : list User.t) (u u' : User.t) :
  In u docs -> User._id u' = User._id u -> In u' (User.update docs u').
Proof.
  intros Hin Hid. unfold User.update. apply in_map_iff. exists u.
  split; [|exact Hin]. rewrite Hid, String.eqb_refl. reflexivity.
Qed.

(** A route that issues a code and answers success has stored the code
    in the account of the given address. *)
Lemma issuing_stores (E : env) (O : oracle) (docs : list User.t)
      (req : request) (route : accountRoute) (r : response) :
  In route [Register; ResendVerification; ForgotPassword] ->
  reply (accountHandler E O route docs req) = Some r ->
  status r = 201 \/ status r = 200 ->
  exists code rest u,
    generateUniqueVerificationCode (random O) docs = Some (code, rest) /\
    In u (usersAfter (accountHandler E O route docs req)) /\
    User.email u = strOf (body_email req) /\
    User.verificationToken u = Some code /\
    User.verificationExpires u = Some (now O + tenMinutes).
Proof.
  intros Hroute Hr Hs.
  assert (Hno : forall st b (d : Prop),
            Some {| status := st; json := b |} = Some r ->
            st <> 201 -> st <> 200 -> d).
  { intros st b d Heq H1 H2. injection Heq as <-. cbn in Hs. lia. }
  assert (Hissue : forall user mt okm failm,
            User.findOneByEmail docs (strOf (body_email req)) = Some user ->
            reply (issueCode O docs user mt okm failm) = Some r ->
            exists code rest u,
              generateUniqueVerificationCode (random O) docs = Some (code, rest) /\
              In u (usersAfter (issueCode O docs user mt okm failm)) /\
              User.email u = strOf (body_email req) /\
              User.verificationToken u = Some code /\
              User.verificationExpires u = Some (now O + tenMinutes)).
  { intros user mt okm failm Hf. unfold issueCode.
    pose proof (find_some _ _ Hf) as [Hin He]. apply String.eqb_eq in He.
    destruct (generateUniqueVerificationCode (random O) docs) as [[code rest]|];
      [|discriminate].
    destruct (sendEmail O _ _); cbn [reply usersAfter respond]; intros Hr'.
    - exists code, rest,
        (User.setToken user (Some code) (Some (now O + tenMinutes))).
      split; [reflexivity|].
      split; [apply (update_stores docs user); auto|]. auto.
    - exact (Hno _ _ _ Hr' ltac:(lia) ltac:(lia)). }
  destruct Hroute as [<-|[<-|[<-|[]]]]; cbn [accountHandler] in *.
  - unfold postRegister in *.
    destruct (fieldMissing req);
      [exact (Hno _ _ _ Hr ltac:(lia) ltac:(lia))|].
    destruct (User.findOneByUsername _ _);
      [exact (Hno _ _ _ Hr ltac:(lia) ltac:(lia))|].
    destruct (bcryptHash O _) as [hashed|];
      [|exact (Hno _ _ _ Hr ltac:(lia) ltac:(lia))].
    destruct (generateUniqueVerificationCode (random O) docs) as [[code rest]|];
      [|discriminate Hr].
    destruct (User.insert docs (newUser O req hashed code)) as [saved|] eqn:Hins;
      [|discriminate Hr].
    destruct (sendEmail O _ _);
      [|exact (Hno _ _ _ Hr ltac:(lia) ltac:(lia))].
    cbn [usersAfter respond]. apply insert_spec in Hins as [-> _].
    exists code, rest, (newUser O req hashed code).
    split; [reflexivity|].
    split; [apply in_or_app; right; left; reflexivity|]. auto.
  - unfold postResendVerification in *.
    destruct (negb _); [exact (Hno _ _ _ Hr ltac:(lia) ltac:(lia))|].
    destruct (User.findOneByEmail _ _) as [user|] eqn:Hf;
      [|exact (Hno _ _ _ Hr ltac:(lia) ltac:(lia))].
    destruct (User.isVerified user);
      [exact (Hno _ _ _ Hr ltac:(lia) ltac:(lia))|].
    apply Hissue; [reflexivity|exact Hr].
  - unfold postForgotPassword in *.
    destruct (negb _); [exact (Hno _ _ _ Hr ltac:(lia) ltac:(lia))|].
    destruct (User.findOneByEmail _ _) as [user|] eqn:Hf;
      [|exact (Hno _ _ _ Hr ltac:(lia) ltac:(lia))].
    apply Hissue; [reflexivity|exact Hr].
Qed.

(** C3, amended: when some result of [Math.random] gives a code that no
    user holds, [generateUniqueVerificationCode] returns; what it returns
    is a string of six decimal digits, an integer from 100000 to 999999,
    that differs from the [verificationToken] of every user. A success of
    /register (201), /resend-verification or /forgot-password (200) has
    stored the returned code, with an expiry ten minutes ahead, in the
    account of the given address; and every document these routes add or
    change carries a code of this kind. While every result of
    [Math.random] gives a code that some user holds, the loop goes on and
    nothing is returned. *)
Theorem verification_codes (E : env) (O : oracle) (docs : list User.t)
        (req : request) :
  Forall validDraw (random O) ->
  (forall n, In n (random O) -> unusedIn docs (randomCode n) ->
     exists code rest,
       generateUniqueVerificationCode (random O) docs = Some (code, rest)) /\
  (forall code rest,
     generateUniqueVerificationCode (random O) docs = Some (code, rest) ->
     sixDigitCode code /\ unusedIn docs code) /\
  (forall route r,
     In route [Register; ResendVerification; ForgotPassword] ->
     reply (accountHandler E O route docs req) = Some r ->
     status r = 201 \/ status r = 200 ->
     exists code rest u,
       generateUniqueVerificationCode (random O) docs = Some (code, rest) /\
       sixDigitCode code /\ unusedIn docs code /\
       In u (usersAfter (accountHandler E O route docs req)) /\
       User.email u = strOf (body_email req) /\
       User.verificationToken u = Some code /\
       User.verificationExpires u = Some (now O + tenMinutes)) /\
  (forall route u,
     In route [Register; ResendVerification; ForgotPassword] ->
     In u (usersAfter (accountHandler E O route docs req)) ->
     In u docs \/
     exists code, User.verificationToken u = Some code /\
                  sixDigitCode code /\ unusedIn docs code) /\
  ((forall n, In n (random O) -> ~ unusedIn docs (randomCode n)) ->
   generateUniqueVerificationCode (random O) docs = None).
Proof.
  intros Hv. rewrite Forall_forall in Hv.
  assert (Hgen : forall code rest,
             generateUniqueVerificationCode (random O) docs = Some (code, rest) ->
             sixDigitCode code /\ unusedIn docs code).
  { intros code rest Hg. apply generate_some in Hg as (n & Hin & -> & Hfree).
    split; [apply randomCode_sixDigit; auto|exact Hfree]. }
  split; [|split; [exact Hgen|split; [|split; [|apply generate_loops]]]].
  - intros n Hin Hfree. eapply generate_returns; eauto.
  - intros route r Hroute Hr Hs.
    destruct (issuing_stores E O docs req route r Hroute Hr Hs)
      as (code & rest & u & Hg & Hin & He & Ht & Hx).
    destruct (Hgen code rest Hg) as [Hsix Hfree].
    exists code, rest, u. auto 10.
  - intros route u Hr Hin.
    destruct (issuing_after E O docs req route Hr)
      as [Heq|(code & rest & u' & Hg & Htok & Hcase)].
    + left. rewrite Heq in Hin. exact Hin.
    + destruct Hcase as [(saved & Hi & Heq)|(u0 & Hin0 & Hid & Heq)];
        rewrite Heq in Hin.
      * apply insert_spec in Hi as [-> _]. apply in_app_or in Hin as [Hin|[<-|[]]];
          [left; exact Hin|].
        right. exists code. split; [exact Htok|]. eapply Hgen; eauto.
      * apply update_incl in Hin as [Hin | ->]; [left; exact Hin|].
        right. exists code. split; [exact Htok|]. eapply Hgen; eauto.
Qed.

(** The account handlers keep the collection well formed. *)
Lemma handlers_keep_wellFormed (E : env) (O : oracle) (docs : list User.t)
      (req : request) (route : accountRoute) :
  wellFormed docs -> wellFormed (usersAfter (accountHandler E O route docs req)).
Proof.
  intros Hw.
  assert (Hissue : In route [Register; ResendVerification; ForgotPassword] ->
                   wellFormed (usersAfter (accountHandler E O route docs req))).
  { intros Hr.
    destruct (issuing_after E O docs req route Hr)
      as [->|(code & rest & u' & Hg & Htok & Hcase)]; [exact Hw|].
    apply generate_some in Hg as (n & _ & _ & Hfree).
    destruct Hcase as [(saved & Hi & ->)|(u0 & Hin0 & Hid & ->)].
    - apply insert_spec in Hi as [-> Hfresh]. destruct Hw as [Hids Htoks]. split.
      + rewrite map_app. cbn [map].
        apply (NoDup_Add (Add_app (User._id u') (map User._id docs) [])).
        rewrite app_nil_r. split; [exact Hids|].
        intros Hin. apply in_map_iff in Hin as (d & Heq & Hd).
        destruct (Hfresh d Hd) as (Hne & _). auto.
      + rewrite tokensOf_app, tokensOf_single, Htok.
        apply (NoDup_Add (Add_app code (tokensOf docs) [])).
        rewrite app_nil_r. split; [exact Htoks|].
        apply unusedIn_tokens. exact Hfree.
    - apply (update_wellFormed docs u0 u' Hw Hin0 Hid). rewrite Htok. exact Hfree. }
  destruct route; cbn [accountHandler]; try (apply Hissue; cbn; auto; fail).
  - unfold postVerify.
    destruct (negb _); [exact Hw|].
    destruct (User.findOneByToken _ _) as [user|] eqn:Hf; [|exact Hw].
    destruct (match User.verificationExpires user with
              | Some e => now O >? e | None => false end); [exact Hw|].
    assert (Hu : wellFormed (User.update docs
                   (User.setToken (User.setVerified user) None None))).
    { apply (update_wellFormed docs user); [exact Hw| |reflexivity|exact I].
      eapply find_In; exact Hf. }
    destruct (sendEmail O _ _); exact Hu.
  - unfold postVerifyResetCode.
    destruct (negb _); [exact Hw|].
    destruct (User.findOneByToken _ _) as [user|]; [|exact Hw].
    destruct (now O >? _); [exact Hw|].
    destruct (jwtSign E _ _ _); exact Hw.
  - unfold postResetPassword.
    destruct (negb _); [exact Hw|].
    destruct (User.findById _ _) as [user|] eqn:Hf; [|exact Hw].
    destruct (negb _); [exact Hw|].
    destruct (bcryptHash O _) as [hashed|]; [|exact Hw].
    assert (Hu : wellFormed (User.update docs
                   (User.setToken (User.setPassword user hashed) None None))).
    { apply (update_wellFormed docs user); [exact Hw| |reflexivity|exact I].
      eapply find_In; exact Hf. }
    destruct (sendEmail O _ _); exact Hu.
Qed.

Lemma serveAccount_after (E : env) (O : oracle) (route : accountRoute)
      (docs : list User.t) (req : request) :
  usersAfter (serveAccount E O route docs req) = docs \/
  exists req', usersAfter (serveAccount E O route docs req) =
               usersAfter (accountHandler E O route docs req').
Proof.
  unfold serveAccount.
  destruct (validateApiKey E req) as [res|req1]; [left; reflexivity|].
  destruct route; try (right; exists req1; reflexivity).
  destruct (authenticateResetToken E req1) as [res|req2]; [left; reflexivity|].
  right. exists req2. reflexivity.
Qed.

(** Every collection the account routes can build is well formed. *)
Lemma reachable_wellFormed (E : env) (docs : list User.t) :
  reachable E docs -> wellFormed docs.
Proof.
  induction 1 as [|docs O route req Hr IH].
  - split; constructor.
  - destruct (serveAccount_after E O route docs req) as [->|[req' ->]];
      [exact IH|].
    apply handlers_keep_wellFormed. exact IH.
Qed.

(** A first draw of 0 gives the code 100000, which nobody holds. *)
Lemma verification_codes_witness :
  let O := Sample.world [0; 2 ^ 52] true in
  Forall validDraw (random O) /\
  (exists code rest,
     generateUniqueVerificationCode (random O) Sample.users = Some (code, rest) /\
     sixDigitCode code /\ unusedIn Sample.users code).
Proof.
  intros O.
  assert (Hv : Forall validDraw (random O)).
  { repeat constructor; unfold validDraw; try lia; reflexivity. }
  split; [exact Hv|].
  destruct (verification_codes (Sample.E (fun _ => None)) O Sample.users
              Sample.registerCarol Hv)
    as (Hret & Hcode & _).
  destruct (Hret 0) as (code & rest & Hg).
  - left. reflexivity.
  - intros u [<-|[<-|[]]]; vm_compute; discriminate.
  - exists code, rest. split; [exact Hg|]. exact (Hcode code rest Hg).
Defined.

(** ** Registration *)

Lemma find_none_iff {A : Type} (f : A -> bool) (l : list A) :
  find f l = None <-> forall x, In x l -> f x = false.
Proof.
  split; [apply find_none|].
  intros H. destruct (find f l) as [x|] eqn:Hf; [|reflexivity].
  apply find_some in Hf as [Hin Hx]. rewrite (H x Hin) in Hx. discriminate Hx.
Qed.

(** C8: when the mail of POST /register fails after the new document was
    saved, the handler deletes the document by its email and answers 500
    ("Tu cuenta no ha sido creada"), and the collection is what it was
    before the request; 201 is sent only when the save and the mail both
    succeeded; whenever the answer is not 201 the collection is
    unchanged. *)
Theorem registration_atomic (O : oracle) (docs : list User.t) (req : request) :
  let out := postRegister O docs req in
  (forall hashed code rest saved,
     fieldMissing req = false ->
     User.findOneByUsername docs (strOf (body_username req)) = None ->
     bcryptHash O (strOf (body_password req)) = Some hashed ->
     generateUniqueVerificationCode (random O) docs = Some (code, rest) ->
     User.insert docs (newUser O req hashed code) = Some saved ->
     sgSend O = false ->
     reply out =
       Some {| status := 500;
               json := BError "Error al enviar el correo de verificación. Tu cuenta no ha sido creada." |} /\
     usersAfter out = User.deleteOneByEmail saved (strOf (body_email req)) /\
     usersAfter out = docs /\
     User.findOneByEmail (usersAfter out) (strOf (body_email req)) = None) /\
  (forall r, reply out = Some r -> status r = 201 ->
     sgSend O = true /\
     exists hashed code,
       User.insert docs (newUser O req hashed code) = Some (usersAfter out)) /\
  ((forall r, reply out = Some r -> status r <> 201) -> usersAfter out = docs).
Proof.
  intros out. subst out. split; [|split].
  - intros hashed code rest saved Hm Hu Hh Hg Hi Hs.
    unfold postRegister, sendEmail. rewrite Hm, Hu, Hh, Hg, Hi, Hs.
    cbn [respond reply usersAfter].
    pose proof (delete_undoes_insert docs _ saved Hi) as Hdel.
    cbn [newUser User.email] in Hdel.
    split; [reflexivity|]. split; [reflexivity|]. split; [exact Hdel|].
    rewrite Hdel. apply find_none_iff. intros d Hd.
    apply insert_spec in Hi as [_ Hfresh]. destruct (Hfresh d Hd) as (_ & _ & Hne).
    cbn [newUser User.email] in Hne. apply String.eqb_neq. exact Hne.
  - intros r. unfold postRegister, sendEmail.
    destruct (fieldMissing req); [intros H; injection H as <-; discriminate|].
    destruct (User.findOneByUsername _ _); [intros H; injection H as <-; discriminate|].
    destruct (bcryptHash O _) as [hashed|]; [|intros H; injection H as <-; discriminate].
    destruct (generateUniqueVerificationCode _ _) as [[code rest]|]; [|discriminate].
    destruct (User.insert docs _) as [saved|] eqn:Hi; [|discriminate].
    destruct (sgSend O); [|intros H; injection H as <-; discriminate].
    intros _ _. split; [reflexivity|]. exists hashed, code. exact Hi.
  - intros Hno. unfold postRegister, sendEmail in *.
    destruct (fieldMissing req); [reflexivity|].
    destruct (User.findOneByUsername _ _); [reflexivity|].
    destruct (bcryptHash O _) as [hashed|]; [|reflexivity].
    destruct (generateUniqueVerificationCode _ _) as [[code rest]|]; [|reflexivity].
    destruct (User.insert docs _) as [saved|] eqn:Hi; [|reflexivity].
    destruct (sgSend O).
    + exfalso. eapply Hno; reflexivity.
    + apply (delete_undoes_insert docs _ saved Hi).
Qed.

(** Carol registers while the mail service is down. *)
Lemma registration_atomic_witness :
  let O := Sample.world [0] false in
  let carol := newUser O Sample.registerCarol "bcrypt:secret1" "100000" in
  (fieldMissing Sample.registerCarol = false /\
   User.findOneByUsername Sample.users "carol" = None /\
   bcryptHash O "secret1" = Some "bcrypt:secret1" /\
   generateUniqueVerificationCode (random O) Sample.users = Some ("100000", []) /\
   User.insert Sample.users carol = Some (Sample.users ++ [carol])%list /\
   sgSend O = false) /\
  usersAfter (postRegister O Sample.users Sample.registerCarol) = Sample.users.
Proof.
  intros O carol.
  assert (H1 : fieldMissing Sample.registerCarol = false) by reflexivity.
  assert (H2 : User.findOneByUsername Sample.users
                 (strOf (body_username Sample.registerCarol)) = None) by reflexivity.
  assert (H3 : bcryptHash O (strOf (body_password Sample.registerCarol)) =
               Some "bcrypt:secret1") by reflexivity.
  assert (H4 : generateUniqueVerificationCode (random O) Sample.users =
               Some ("100000", [])) by (vm_compute; reflexivity).
  assert (H5 : User.insert Sample.users carol = Some (Sample.users ++ [carol])%list)
    by (vm_compute; reflexivity).
  assert (H6 : sgSend O = false) by reflexivity.
  split; [repeat split; assumption|].
  destruct (registration_atomic O Sample.users Sample.registerCarol) as (Hfail & _).
  destruct (Hfail _ _ _ _ H1 H2 H3 H4 H5 H6) as (_ & _ & Hsame & _).
  exact Hsame.
Defined.

(** ** Consuming codes *)

Lemma update_same_id (docs : list User.t) (u' d : User.t) :
  In d (User.update docs u') -> User._id d = User._id u' -> d = u'.
Proof.
  unfold User.update. intros H Hid. apply in_map_iff in H as (x & Hx & _).
  destruct (String.eqb_spec (User._id x) (User._id u')); congruence.
Qed.

Lemma findById_update (docs : list User.t) (id : string) (user u' : User.t) :
  User.findById docs id = Some user -> User._id u' = id ->
  User.findById (User.update docs u') id = Some u'.
Proof.
  unfold User.findById, User.update. intros Hf Hid. subst id.
  induction docs as [|d rest IH]; cbn [find map] in *; [discriminate|].
  destruct (String.eqb_spec (User._id d) (User._id u')) as [Heq|Hne].
  - rewrite String.eqb_refl. reflexivity.
  - apply String.eqb_neq in Hne. rewrite Hne. apply IH. exact Hf.
Qed.

Lemma held_code_unused (docs : list User.t) (code : string) (user u' : User.t) :
  wellFormed docs ->
  In user docs -> User.verificationToken user = Some code ->
  User._id u' = User._id user -> User.verificationToken u' = None ->
  unusedIn (User.update docs u') code.
Proof.
  intros [Hids Htoks] Hin Htok Hid Hnone.
  destruct (update_split docs user u' Hids Hin Hid) as (pre & post & Hd & ->).
  apply unusedIn_tokens. rewrite Hd in Htoks.
  change (user :: post) with ([user] ++ post)%list in Htoks.
  change (u' :: post) with ([u'] ++ post)%list.
  rewrite !tokensOf_app, tokensOf_single in *.
  rewrite Htok in Htoks. rewrite Hnone. cbn [app] in *.
  apply NoDup_remove_2 in Htoks. exact Htoks.
Qed.

Lemma consumed_code_unused (docs : list User.t) (code : string) (user u' : User.t) :
  wellFormed docs ->
  User.findOneByToken docs code = Some user ->
  User._id u' = User._id user -> User.verificationToken u' = None ->
  unusedIn (User.update docs u') code.
Proof.
  intros Hw Hf Hid Hnone.
  apply find_some in Hf as [Hin Htok]. apply optEqb_eq in Htok.
  eapply held_code_unused; eauto.
Qed.

Lemma postVerify_ok (O : oracle) (docs : list User.t) (req : request) (r : response) :
  reply (postVerify O docs req) = Some r -> status r = 200 ->
  truthy (body_code req) = true /\
  exists user,
    User.findOneByToken docs (strOf (body_code req)) = Some user /\
    usersAfter (postVerify O docs req) =
      User.update docs (User.setToken (User.setVerified user) None None).
Proof.
  unfold postVerify.
  destruct (truthy (body_code req)); cbn [negb];
    [|intros H; injection H as <-; discriminate].
  destruct (User.findOneByToken _ _) as [user|];
    [|intros H; injection H as <-; discriminate].
  destruct (match User.verificationExpires user with
            | Some e => now O >? e | None => false end);
    [intros H; injection H as <-; discriminate|].
  destruct (sendEmail O _ _); [|intros H; injection H as <-; discriminate].
  intros _ _. split; [reflexivity|]. exists user. split; reflexivity.
Qed.

Lemma postResetPassword_ok (O : oracle) (docs : list User.t) (req : request)
      (r : response) :
  reply (postResetPassword O docs req) = Some r -> status r = 200 ->
  truthy (body_newPassword req) = true /\
  exists user hashed,
    User.findById docs (strOf (req_userId req)) = Some user /\
    truthy (User.verificationToken user) = true /\
    bcryptHash O (strOf (body_newPassword req)) = Some hashed /\
    usersAfter (postResetPassword O docs req) =
      User.update docs (User.setToken (User.setPassword user hashed) None None).
Proof.
  unfold postResetPassword.
  destruct (truthy (body_newPassword req)); cbn [negb];
    [|intros H; injection H as <-; discriminate].
  destruct (User.findById _ _) as [user|];
    [|intros H; injection H as <-; discriminate].
  destruct (truthy (User.verificationToken user)) eqn:Ht; cbn [negb];
    [|intros H; injection H as <-; discriminate].
  destruct (bcryptHash O _) as [hashed|];
    [|intros H; injection H as <-; discriminate].
  destruct (sendEmail O _ _); [|discriminate].
  intros _ _. split; [reflexivity|]. exists user, hashed. repeat split. exact Ht.
Qed.

(** C9, as stated, fails: POST /verify-reset-code accepts a code and
    leaves it in the account. Alice's code 123456 is accepted by POST
    /verify-reset-code, accepted by it a second time, and then accepted by
    POST /verify. *)
Lemma code_reuse_counterexample :
  let E := Sample.Ejwt in
  let O := Sample.world [] true in
  let req := Sample.post None None None None None None (Some "123456") None in
  let first := serveAccount E O VerifyResetCode Sample.users req in
  let second := serveAccount E O VerifyResetCode (usersAfter first) req in
  let third := serveAccount E O Verify (usersAfter second) req in
  reply first =
    Some {| status := 200;
            json := BReset "Código de verificación válido para restablecer tu contraseña."
                           "jwt:ida:15m" |} /\
  reply second = reply first /\
  reply third =
    Some {| status := 200;
            json := BMessage "¡Cuenta verificada exitosamente! Ahora puedes iniciar sesión." |}.
Proof. vm_compute. repeat split. Qed.

(** C9, amended: a 200 from POST /verify leaves the user verified with
    [verificationToken] and [verificationExpires] null, and a 200 from POST
    /reset-password leaves both null; POST /reset-password answers 400 and
    changes nothing when the token is null. So, on a well-formed
    collection, a code that one of these two has consumed is held by no
    user: presenting it again is refused by POST /verify (400) and by POST
    /verify-reset-code (404); and presenting the same reset token again is
    answered 400 and leaves the collection, hence the password, as it is.
    POST /verify-reset-code, whatever it answers, changes nothing: the
    code it accepts stays in the account. *)
Theorem codes_single_use (E : env) (O O' : oracle) (docs : list User.t)
        (req : request) :
  (forall r, reply (postVerify O docs req) = Some r -> status r = 200 ->
     let after := usersAfter (postVerify O docs req) in
     exists user,
       User.findOneByToken docs (strOf (body_code req)) = Some user /\
       (forall d, In d after -> User._id d = User._id user ->
          User.verificationToken d = None /\ User.verificationExpires d = None /\
          User.isVerified d = true) /\
       (wellFormed docs ->
          unusedIn after (strOf (body_code req)) /\
          postVerify O' after req =
            respond 400 (BError "Código de verificación inválido.") after /\
          (body_verificationCode req = body_code req ->
           postVerifyResetCode E O' after req =
             respond 404 (BError "Código de verificación inválido.") after))) /\
  (forall r, reply (postResetPassword O docs req) = Some r -> status r = 200 ->
     let after := usersAfter (postResetPassword O docs req) in
     exists user,
       User.findById docs (strOf (req_userId req)) = Some user /\
       (forall d, In d after -> User._id d = User._id user ->
          User.verificationToken d = None /\ User.verificationExpires d = None) /\
       postResetPassword O' after req =
         respond 400 (BMessage "Tu contraseña ya ha sido cambiada anteriormente.")
                 after /\
       (wellFormed docs ->
        forall code, User.verificationToken user = Some code ->
          unusedIn after code)) /\
  (forall user,
     truthy (body_newPassword req) = true ->
     User.findById docs (strOf (req_userId req)) = Some user ->
     User.verificationToken user = None ->
     postResetPassword O docs req =
       respond 400 (BMessage "Tu contraseña ya ha sido cambiada anteriormente.")
               docs) /\
  usersAfter (postVerifyResetCode E O docs req) = docs.
Proof.
  split; [|split; [|split]].
  4:{ unfold postVerifyResetCode.
      destruct (negb _); [reflexivity|].
      destruct (User.findOneByToken _ _) as [user|]; [|reflexivity].
      destruct (now O >? _); [reflexivity|].
      destruct (jwtSign E _ _ _); reflexivity. }
  - intros r Hr Hs after. subst after.
    destruct (postVerify_ok O docs req r Hr Hs) as (Hc & user & Hf & ->).
    exists user. split; [exact Hf|]. split.
    + intros d Hd Hid. apply update_same_id in Hd; [|exact Hid].
      subst d. repeat split.
    + intros Hw.
      pose proof (consumed_code_unused docs _ user
                    (User.setToken (User.setVerified user) None None)
                    Hw Hf eq_refl eq_refl) as Hun.
      split; [exact Hun|].
      apply findOneByToken_none in Hun. split.
      * unfold postVerify. rewrite Hc. cbn [negb]. rewrite Hun. reflexivity.
      * intros Heq. unfold postVerifyResetCode. rewrite Heq, Hc. cbn [negb].
        rewrite Hun. reflexivity.
  - intros r Hr Hs after. subst after.
    destruct (postResetPassword_ok O docs req r Hr Hs)
      as (Hp & user & hashed & Hf & Ht & Hh & ->).
    exists user. split; [exact Hf|]. split; [|split].
    + intros d Hd Hid. apply update_same_id in Hd; [|exact Hid].
      subst d. split; reflexivity.
    + unfold postResetPassword. rewrite Hp. cbn [negb].
      assert (Hid : User._id (User.setToken (User.setPassword user hashed) None None)
                    = strOf (req_userId req)).
      { unfold User.findById in Hf. apply find_some in Hf as [_ Hid].
        apply String.eqb_eq in Hid. exact Hid. }
      rewrite (findById_update docs _ user _ Hf Hid). reflexivity.
    + intros Hw code Hcode.
      apply (held_code_unused docs code user); auto.
      eapply find_In; exact Hf.
  - intros user Hp Hf Hn. unfold postResetPassword.
    rewrite Hp, Hf, Hn. reflexivity.
Qed.

(** Alice verifies with her code, then presents it again. *)
Lemma codes_single_use_witness :
  let O := Sample.world [] true in
  let verify := Sample.post None None None None None None (Some "123456") None in
  let out := postVerify O Sample.users verify in
  (reply out =
     Some {| status := 200;
             json := BMessage "¡Cuenta verificada exitosamente! Ahora puedes iniciar sesión." |} /\
   wellFormed Sample.users) /\
  unusedIn (usersAfter out) "123456" /\
  postVerify O (usersAfter out) verify =
    respond 400 (BError "Código de verificación inválido.") (usersAfter out).
Proof.
  intros O verify out.
  assert (Hr : reply out =
     Some {| status := 200;
             json := BMessage "¡Cuenta verificada exitosamente! Ahora puedes iniciar sesión." |})
    by reflexivity.
  assert (Hw : wellFormed Sample.users).
  { split; cbn.
    - repeat constructor; cbn; intuition discriminate.
    - repeat constructor. intros []. }
  split; [split; assumption|].
  destruct (codes_single_use (Sample.E (fun _ => None)) O O Sample.users verify)
    as (Hverify & _).
  destruct (Hverify _ Hr eq_refl) as (user & _ & _ & Hreplay).
  destruct (Hreplay Hw) as (Hun & Hagain & _). split; assumption.
Defined.

(* ===================================================================== *)
(** * Part III: further properties of the handlers *)
(* ===================================================================== *)

(** ** Content routes, from the gate to the response *)

Lemma handler_fetch (E : env) (newId : string) (ep : endpoint)
      (docs : list Profile.t) (req : request) :
  isContent ep = true -> ep <> Search ->
  exists msg,
    fetched E docs req (upstreamAction ep) (upstreamParams ep req) msg
            (fun l => ok (contentBody E ep req l))
            (handler E newId ep docs req).
Proof.
  intros Hc Hs.
  destruct ep; try discriminate Hc; try congruence; eexists;
    exact (fetch_handler E docs req _ _ _ _).
Qed.

Lemma truthy_orElse (a b : option string) :
  truthy (orElse a b) = true <->
  exists id, orElse a b = Some id /\ id <> EmptyString.
Proof.
  destruct (orElse a b) as [id|]; cbn [truthy].
  - rewrite negb_true_iff, String.eqb_neq. split.
    + intros H. exists id. auto.
    + intros (id' & Heq & Hne). congruence.
  - split; [discriminate|]. intros (id & H & _). discriminate H.
Qed.

Lemma getProfileParams_found (req : request) (docs : list Profile.t)
      (u : payload) (id : string) (p : Profile.t) :
  user req = Some u ->
  orElse (query_profile req) (params_profileId req) = Some id ->
  Profile.findOne docs id (userId u) = Some p ->
  getProfileParams req docs = ([], inr p).
Proof.
  intros Hu Ho Hf. unfold getProfileParams. rewrite Hu, Ho, Hf. reflexivity.
Qed.

(** X1. A content route other than /search, asked with the right key, a
    token that verifies, and a profile of the caller, requests the
    route's action once with the profile's credentials and, when the
    upstream answers, sends 200 with the data (the page of it, for a
    paginated route). *)
Theorem content_request_served (E : env) (newId : string) (ep : endpoint)
        (docs : list Profile.t) (req : request) (token id : string)
        (u : payload) (p : Profile.t) (data : list item) :
  isContent ep = true -> ep <> Search ->
  optEqb (headers_x_api_key req) (API_KEY E) = true ->
  bearerToken req = Some token ->
  jwtVerify E token (SECRET_KEY E) = Some u ->
  orElse (query_profile req) (params_profileId req) = Some id ->
  id <> EmptyString ->
  Profile.findOne docs id (userId u) = Some p ->
  axiosGet E (urlFor p (upstreamAction ep) (upstreamParams ep req)) = Some data ->
  snd (serve E newId ep docs req) =
    {| sent := Some (ok (contentBody E ep req data));
       calls := [urlFor p (upstreamAction ep) (upstreamParams ep req)];
       profilesAfter := docs |}.
Proof.
  intros Hc Hs Hk Hb Hj Ho Hne Hf Ha.
  assert (Ht : truthy (orElse (query_profile req) (params_profileId req)) = true)
    by (apply truthy_orElse; eauto).
  rewrite (serve_handler E newId ep docs req token u Hk Hb Hj (fun _ => Ht)).
  cbn [snd].
  destruct (handler_fetch E newId ep docs (setUser req u) Hc Hs) as (msg & F).
  assert (Hg : getProfileParams (setUser req u) docs = ([], inr p))
    by (apply (getProfileParams_found _ docs u id); auto).
  remember (handler E newId ep docs (setUser req u)) as out eqn:Hout. clear Hout.
  change (upstreamParams ep (setUser req u)) with (upstreamParams ep req) in F.
  destruct F as [e Hg'|q Hg' Ha'|q data' Hg' Ha']; try congruence;
    assert (q = p) by congruence; subst q; try congruence.
  assert (data' = data) by congruence. subst data'. reflexivity.
Qed.

(** Users [u1] lists the VODs of a category through the profile [p1]. *)
Lemma content_request_served_witness :
  let E := Sample.E (fun _ => Some [Sample.bbc; Sample.cnn]) in
  let req := Sample.authed (Some "p1") None None in
  (isContent VodsCategory = true /\ VodsCategory <> Search /\
   optEqb (headers_x_api_key req) (API_KEY E) = true /\
   bearerToken req = Some "tok1" /\
   jwtVerify E "tok1" (SECRET_KEY E) = Some {| userId := "u1" |} /\
   orElse (query_profile req) (params_profileId req) = Some "p1" /\
   "p1" <> EmptyString /\
   Profile.findOne Sample.profiles "p1" "u1" = Some Sample.profile1) /\
  sent (snd (serve E EmptyString VodsCategory Sample.profiles req)) =
    Some (ok (BPage 1 2 1 [Sample.bbc; Sample.cnn])).
Proof.
  intros E req.
  assert (H1 : VodsCategory <> Search) by discriminate.
  assert (H2 : "p1" <> EmptyString) by discriminate.
  split; [repeat split; auto|].
  rewrite (content_request_served E EmptyString VodsCategory Sample.profiles req
             "tok1" "p1" {| userId := "u1" |} Sample.profile1
             [Sample.bbc; Sample.cnn] eq_refl H1 eq_refl eq_refl eq_refl eq_refl
             H2 eq_refl eq_refl).
  reflexivity.
Defined.

(** X2. On every content route, /search included, a profile id that is
    not a profile of the caller is answered 500 with the route's error
    message, not 404, and no upstream request is made. *)
Theorem content_foreign_profile_500 (E : env) (newId : string) (ep : endpoint)
        (docs : list Profile.t) (req : request) (token id : string) (u : payload) :
  isContent ep = true ->
  optEqb (headers_x_api_key req) (API_KEY E) = true ->
  bearerToken req = Some token ->
  jwtVerify E token (SECRET_KEY E) = Some u ->
  orElse (query_profile req) (params_profileId req) = Some id ->
  id <> EmptyString ->
  (forall p, In p docs -> Profile._id p = id -> Profile.userId p <> userId u) ->
  (exists r, sent (snd (serve E newId ep docs req)) = Some r /\
             status r = 500 /\ hasErrorField r = true) /\
  calls (snd (serve E newId ep docs req)) = [] /\
  profilesAfter (snd (serve E newId ep docs req)) = docs.
Proof.
  intros Hc Hk Hb Hj Ho Hne Hforeign.
  assert (Ht : truthy (orElse (query_profile req) (params_profileId req)) = true)
    by (apply truthy_orElse; eauto).
  rewrite (serve_handler E newId ep docs req token u Hk Hb Hj (fun _ => Ht)).
  cbn [snd].
  assert (Hg : getProfileParams (setUser req u) docs =
               ([], inl "Perfil no encontrado o no autorizado")).
  { unfold getProfileParams. cbn [user setUser query_profile params_profileId].
    rewrite Ho, (findOne_foreign _ _ _ Hforeign). reflexivity. }
  destruct (content_handler E newId ep docs (setUser req u) Hc)
    as [[_ (action & extra & msg & k & F)]|[_ S]].
  - remember (handler E newId ep docs (setUser req u)) as out eqn:Hout. clear Hout.
    destruct F as [e Hg'|q Hg' Ha'|q data' Hg' Ha']; try congruence.
    cbn. split; [eexists; repeat split|]. split; reflexivity.
  - remember (handler E newId ep docs (setUser req u)) as out eqn:Hout. clear Hout.
    destruct S as [e Hg'|q Hg' Hq|q u' Hg' Hq Hu Ha|q l m s Hg' Hq Hm Hn|q l m s Hg' Hq Hm Hn];
      try congruence.
    cbn. split; [eexists; repeat split|]. split; reflexivity.
Qed.

(** User [u1] asks for the live streams through the profile of [u2]. *)
Lemma content_foreign_profile_500_witness :
  let E := Sample.E (fun _ => Some [Sample.bbc]) in
  let req := Sample.authed (Some "p2") None None in
  (isContent Live = true /\
   optEqb (headers_x_api_key req) (API_KEY E) = true /\
   bearerToken req = Some "tok1" /\
   jwtVerify E "tok1" (SECRET_KEY E) = Some {| userId := "u1" |} /\
   orElse (query_profile req) (params_profileId req) = Some "p2") /\
  sent (snd (serve E EmptyString Live Sample.profiles req)) =
    Some {| status := 500; json := BError "Error al obtener los live streams" |} /\
  calls (snd (serve E EmptyString Live Sample.profiles req)) = [].
Proof.
  intros E req.
  assert (Hne : "p2" <> EmptyString) by discriminate.
  assert (Hf : forall p, In p Sample.profiles -> Profile._id p = "p2" ->
                         Profile.userId p <> "u1").
  { intros p [<-|[<-|[]]]; cbn; discriminate. }
  split; [repeat split|].
  destruct (content_foreign_profile_500 E EmptyString Live Sample.profiles req
              "tok1" "p2" {| userId := "u1" |} eq_refl eq_refl eq_refl eq_refl
              eq_refl Hne Hf) as (_ & Hcalls & _).
  split; [reflexivity|exact Hcalls].
Defined.

(** X3. On a content route, a request with the right key and a verified
    token but no [profile] parameter (absent or empty) is answered 400 by
    [requireProfile]: the handler does not run, nothing is requested
    upstream. *)
Theorem content_requires_profile (E : env) (newId : string) (ep : endpoint)
        (docs : list Profile.t) (req : request) (token : string) (u : payload) :
  isContent ep = true ->
  optEqb (headers_x_api_key req) (API_KEY E) = true ->
  bearerToken req = Some token ->
  jwtVerify E token (SECRET_KEY E) = Some u ->
  truthy (orElse (query_profile req) (params_profileId req)) = false ->
  serve E newId ep docs req =
    ([Mw ValidateApiKey; Mw AuthenticateToken; Mw RequireProfile],
     ended docs {| status := 400;
                   json := BError ("El parámetro " ++ dquote ++ "profile" ++ dquote
                                   ++ " es requerido.") |}).
Proof.
  intros Hc Hk Hb Hj Ht.
  unfold serve, middlewares. rewrite Hc. cbn [runChain runMiddleware].
  unfold validateApiKey. rewrite Hk.
  unfold authenticateToken. rewrite Hb, Hj.
  unfold requireProfile. cbn [query_profile params_profileId setUser].
  rewrite Ht. reflexivity.
Qed.

(** A search with an empty [profile] parameter. *)
Lemma content_requires_profile_witness :
  let E := Sample.E (fun _ => None) in
  let req := Sample.authed (Some EmptyString) None (Some "bbc") in
  (isContent Search = true /\
   optEqb (headers_x_api_key req) (API_KEY E) = true /\
   bearerToken req = Some "tok1" /\
   jwtVerify E "tok1" (SECRET_KEY E) = Some {| userId := "u1" |} /\
   truthy (orElse (query_profile req) (params_profileId req)) = false) /\
  fst (serve E EmptyString Search Sample.profiles req) =
    [Mw ValidateApiKey; Mw AuthenticateToken; Mw RequireProfile].
Proof.
  intros E req. split; [repeat split|].
  rewrite (content_requires_profile E EmptyString Search Sample.profiles req
             "tok1" {| userId := "u1" |} eq_refl eq_refl eq_refl eq_refl eq_refl).
  reflexivity.
Defined.

(** ** Pages: sizes, the far end, negative numbers *)

Lemma paginate_window_length {A : Type} (l : list A) (k : nat) :
  length (paginate l (Z.of_nat (S k))) = Nat.min 10 (length l - 10 * k).
Proof. rewrite paginate_window, length_firstn, length_skipn. reflexivity. Qed.

(** X4. The sizes of the pages: with [totalPages = ceil(length / 10)],
    every page before the last holds exactly 10 items, the last page holds
    the remaining 1 to 10, and every page after the last is empty. *)
Theorem page_sizes {A : Type} (l : list A) (page : Z) :
  1 <= page ->
  let total := Z.of_nat (length l) in
  let totalPages := mathCeilDiv total limit in
  (page < totalPages -> length (paginate l page) = 10%nat) /\
  (page = totalPages ->
     Z.of_nat (length (paginate l page)) = total - 10 * (totalPages - 1) /\
     (1 <= length (paginate l page) <= 10)%nat) /\
  (totalPages < page -> paginate l page = []).
Proof.
  intros Hp total totalPages.
  pose proof (mathCeilDiv_spec total) as Hc. fold totalPages in Hc.
  replace page with (Z.of_nat (S (Z.to_nat (page - 1)))) by lia.
  pose proof (paginate_window_length l (Z.to_nat (page - 1))) as Hl.
  split; [|split]; intros H.
  - lia.
  - lia.
  - apply length_zero_iff_nil. lia.
Qed.

(** Pages 2, 3 and 4 of a list of 25 elements. *)
Lemma page_sizes_witness :
  (1 <= 2 /\ 1 <= 3 /\ 1 <= 4) /\
  length (paginate (seq 0 25) 2) = 10%nat /\
  length (paginate (seq 0 25) 3) = 5%nat /\
  paginate (seq 0 25) 4 = [].
Proof.
  split; [lia|].
  destruct (page_sizes (seq 0 25) 2 ltac:(lia)) as (H2 & _ & _).
  destruct (page_sizes (seq 0 25) 3 ltac:(lia)) as (_ & H3 & _).
  destruct (page_sizes (seq 0 25) 4 ltac:(lia)) as (_ & _ & H4).
  split; [apply H2; vm_compute; reflexivity|].
  split; [|apply H4; vm_compute; reflexivity].
  destruct H3 as [H3 _]; [vm_compute; reflexivity|].
  apply Nat2Z.inj. etransitivity; [exact H3|]. vm_compute. reflexivity.
Defined.

(** X5. A negative page number is accepted and counts from the end of the
    list: page [-k] is the page [k + 1] of the reversed list, read
    backwards. So a negative page never serves the last ten items. *)
Theorem negative_page_from_end {A : Type} (l : list A) (k : nat) :
  (1 <= k)%nat ->
  paginate l (- Z.of_nat k) = rev (paginate (rev l) (Z.of_nat (S k))) /\
  (forall x, In x (paginate l (- Z.of_nat k)) ->
             In x (firstn (length l - 10) l)).
Proof.
  intros Hk.
  assert (Heq : paginate l (- Z.of_nat k) =
                skipn (length l - 10 * k - 10) (firstn (length l - 10 * k) l)).
  { rewrite skipn_firstn_comm.
    unfold paginate, slice, sliceStart, sliceCount, clampIndex, limit.
    replace ((- Z.of_nat k - 1) * 10 <? 0) with true
      by (symmetry; apply Z.ltb_lt; lia).
    replace (- Z.of_nat k * 10 <? 0) with true
      by (symmetry; apply Z.ltb_lt; lia).
    f_equal; [|f_equal]; lia. }
  split.
  - rewrite Heq, paginate_window, skipn_rev, firstn_rev, rev_involutive.
    rewrite length_firstn. f_equal. lia.
  - intros x Hx. rewrite Heq in Hx.
    assert (Hin : In x (firstn (length l - 10 * k) l)).
    { rewrite <- (firstn_skipn (length l - 10 * k - 10) (firstn _ l)).
      apply in_or_app. right. exact Hx. }
    rewrite <- (firstn_skipn (length l - 10 * k) (firstn (length l - 10) l)).
    apply in_or_app. left. rewrite firstn_firstn.
    replace (Nat.min (length l - 10 * k) (length l - 10)) with (length l - 10 * k)%nat
      by lia.
    exact Hin.
Qed.

(** [page=-1] on a list of 25 elements. *)
Lemma negative_page_from_end_witness :
  (1 <= 1)%nat /\ paginate (seq 0 25) (-1) = seq 5 10.
Proof.
  split; [lia|].
  destruct (negative_page_from_end (seq 0 25) 1 ltac:(lia)) as [H _].
  cbn [Z.of_nat Pos.of_succ_nat Z.opp] in H. rewrite H. vm_compute. reflexivity.
Defined.

(** ** Reading the page number *)

Lemma digitValue_digitChar (d : Z) :
  0 <= d <= 9 -> digitValue 10 (digitChar d) = Some d.
Proof.
  intros H.
  assert (d = 0 \/ d = 1 \/ d = 2 \/ d = 3 \/ d = 4 \/ d = 5 \/ d = 6 \/ d = 7
          \/ d = 8 \/ d = 9) as Hd by lia.
  repeat (destruct Hd as [->|Hd]; [reflexivity|]). subst d. reflexivity.
Qed.

Lemma readDigits_digit (d : Z) (rest : string) (a : Z) :
  0 <= d <= 9 ->
  readDigits 10 (String (digitChar d) rest) (Some a) =
    readDigits 10 rest (Some (a * 10 + d)) /\
  readDigits 10 (String (digitChar d) rest) None = readDigits 10 rest (Some d).
Proof.
  intros H. cbn [readDigits]. rewrite (digitValue_digitChar d H). auto.
Qed.

(** Reading back the digits [digitsOf] writes. *)
Lemma readDigits_digitsOf (f : nat) (n : Z) (acc : string) :
  0 <= n < 10 ^ Z.of_nat (S f) ->
  readDigits 10 (digitsOf (S f) n acc) None = readDigits 10 acc (Some n).
Proof.
  revert n acc. induction f as [|f IH]; intros n acc Hn.
  - change (10 ^ Z.of_nat 1) with 10 in Hn. cbn [digitsOf].
    rewrite (Z.div_small n 10), (Z.mod_small n 10) by lia. cbn [Z.eqb].
    apply (readDigits_digit n acc 0). lia.
  - change (digitsOf (S (S f)) n acc)
      with (if n / 10 =? 0 then String (digitChar (n mod 10)) acc
            else digitsOf (S f) (n / 10) (String (digitChar (n mod 10)) acc)).
    pose proof (Z.div_mod n 10 ltac:(lia)) as Hdm.
    pose proof (Z.mod_pos_bound n 10 ltac:(lia)) as Hm.
    destruct (Z.eqb_spec (n / 10) 0) as [Hz|Hz].
    + destruct (readDigits_digit (n mod 10) acc 0 ltac:(lia)) as [_ ->].
      f_equal. f_equal. lia.
    + rewrite IH.
      * destruct (readDigits_digit (n mod 10) acc (n / 10) ltac:(lia)) as [-> _].
        f_equal. f_equal. lia.
      * rewrite Nat2Z.inj_succ, Z.pow_succ_r in Hn by lia.
        split; [apply Z.div_pos; lia|].
        apply Z.div_lt_upper_bound; lia.
Qed.

(** The first digit written for a positive number is not 0. *)
Lemma digitsOf_head (f : nat) (n : Z) (acc : string) :
  0 < n < 10 ^ Z.of_nat (S f) ->
  exists d rest, 1 <= d <= 9 /\ digitsOf (S f) n acc = String (digitChar d) rest.
Proof.
  revert n acc. induction f as [|f IH]; intros n acc Hn.
  - change (10 ^ Z.of_nat 1) with 10 in Hn. cbn [digitsOf].
    rewrite (Z.div_small n 10), (Z.mod_small n 10) by lia. cbn [Z.eqb].
    exists n, acc. split; [lia|reflexivity].
  - change (digitsOf (S (S f)) n acc)
      with (if n / 10 =? 0 then String (digitChar (n mod 10)) acc
            else digitsOf (S f) (n / 10) (String (digitChar (n mod 10)) acc)).
    pose proof (Z.div_mod n 10 ltac:(lia)) as Hdm.
    pose proof (Z.mod_pos_bound n 10 ltac:(lia)) as Hm.
    destruct (Z.eqb_spec (n / 10) 0) as [Hz|Hz].
    + exists (n mod 10), acc. split; [lia|reflexivity].
    + apply IH. rewrite Nat2Z.inj_succ, Z.pow_succ_r in Hn by lia.
      assert (0 <= n / 10) by (apply Z.div_pos; lia).
      split; [lia|]. apply Z.div_lt_upper_bound; lia.
Qed.

Lemma below_pow10 (n : Z) : 0 < n -> n < 10 ^ Z.of_nat (S (Z.to_nat (Z.log2 n))).
Proof.
  intros Hn. pose proof (Z.log2_nonneg n) as Hl.
  destruct (Z.log2_spec n Hn) as [_ Hlt].
  rewrite Nat2Z.inj_succ, Z2Nat.id by lia.
  eapply Z.lt_le_trans; [exact Hlt|].
  apply Z.pow_le_mono_l. lia.
Qed.

(** A character of ASCII that is not white space starts no white space. *)
Lemma trimStart_ascii (c : ascii) (s : string) :
  (nat_of_ascii c < 128)%nat -> isWhite c = false ->
  trimStart (String c s) = String c s.
Proof.
  intros Hc Hw. cbn [trimStart]. rewrite Hw.
  assert (H2 : forall c2, isWhite2 c c2 = false).
  { intros c2. unfold isWhite2.
    replace (nat_of_ascii c =? 194)%nat with false
      by (symmetry; apply Nat.eqb_neq; lia).
    reflexivity. }
  assert (H3 : forall c2 c3, isWhite3 c c2 c3 = false).
  { intros c2 c3. unfold isWhite3. cbv zeta.
    replace (nat_of_ascii c =? 225)%nat with false
      by (symmetry; apply Nat.eqb_neq; lia).
    replace (nat_of_ascii c =? 226)%nat with false
      by (symmetry; apply Nat.eqb_neq; lia).
    replace (nat_of_ascii c =? 227)%nat with false
      by (symmetry; apply Nat.eqb_neq; lia).
    replace (nat_of_ascii c =? 239)%nat with false
      by (symmetry; apply Nat.eqb_neq; lia).
    reflexivity. }
  destruct s as [|c2 [|c3 s3]]; rewrite ?H2, ?H3; reflexivity.
Qed.

Lemma parseIntStr_digits (d : Z) (rest : string) :
  1 <= d <= 9 ->
  parseIntStr (String (digitChar d) rest) =
    match readDigits 10 (String (digitChar d) rest) None with
    | Some m => Some (1 * round53 m)
    | None => None
    end /\
  parseIntStr (String "-" (String (digitChar d) rest)) =
    match readDigits 10 (String (digitChar d) rest) None with
    | Some m => Some (-1 * round53 m)
    | None => None
    end.
Proof.
  intros H.
  assert (Hminus : trimStart (String "-" (String (digitChar d) rest)) =
                   String "-" (String (digitChar d) rest))
    by (apply trimStart_ascii; [apply Nat.ltb_lt; reflexivity|reflexivity]).
  unfold parseIntStr. rewrite Hminus.
  assert (d = 1 \/ d = 2 \/ d = 3 \/ d = 4 \/ d = 5 \/ d = 6 \/ d = 7
          \/ d = 8 \/ d = 9) as Hd by lia.
  repeat (destruct Hd as [->|Hd];
          [rewrite trimStart_ascii by (first [apply Nat.ltb_lt; reflexivity|reflexivity]);
           split; reflexivity|]).
  subst d. rewrite trimStart_ascii by (first [apply Nat.ltb_lt; reflexivity|reflexivity]).
  split; reflexivity.
Qed.

(** [parseInt] reads what [toString] writes of an integer as the nearest
    binary64. *)
Lemma parseIntStr_numberToString (n : Z) :
  parseIntStr (numberToString n) = Some (Z.sgn n * round53 (Z.abs n)).
Proof.
  unfold numberToString.
  destruct (Z.ltb_spec n 0) as [Hneg|Hpos].
  - pose proof (below_pow10 (- n) ltac:(lia)) as Hb.
    destruct (digitsOf_head (Z.to_nat (Z.log2 (- n))) (- n) EmptyString ltac:(lia))
      as (d & rest & Hd & Heq).
    pose proof (readDigits_digitsOf (Z.to_nat (Z.log2 (- n))) (- n) EmptyString
                  ltac:(lia)) as Hr.
    rewrite Heq in *. destruct (parseIntStr_digits d rest Hd) as [_ ->].
    rewrite Hr. cbn [readDigits].
    rewrite (Z.sgn_neg n Hneg), (Z.abs_neq n) by lia. reflexivity.
  - destruct (Z.eq_dec n 0) as [->|Hnz]; [reflexivity|].
    pose proof (below_pow10 n ltac:(lia)) as Hb.
    destruct (digitsOf_head (Z.to_nat (Z.log2 n)) n EmptyString ltac:(lia))
      as (d & rest & Hd & Heq).
    pose proof (readDigits_digitsOf (Z.to_nat (Z.log2 n)) n EmptyString
                  ltac:(lia)) as Hr.
    rewrite Heq in *. destruct (parseIntStr_digits d rest Hd) as [-> _].
    rewrite Hr. cbn [readDigits].
    rewrite (Z.sgn_pos n) by lia. rewrite (Z.abs_eq n) by lia. reflexivity.
Qed.

(** X6. The page a handler serves, [parseInt(req.query.page) || 1]. A
    page parameter that is the decimal writing of an integer [n] of at
    most 20 digits selects the page whose number is the binary64 nearest
    to [n]: [n] itself when it is not 0 and its size is at most 2^53,
    which a binary64 holds exactly, and [n] rounded to 53 significant bits
    beyond. [page=0] and a request without the parameter are served page
    1, and the page number is never 0. *)
Theorem page_number_read (req : request) :
  (forall n, Z.abs n < 10 ^ 20 ->
             query_page req = Some (numberToString n) ->
             pageOf req = (if n =? 0 then 1 else Z.sgn n * round53 (Z.abs n)) /\
             (Z.abs n <= 2 ^ 53 -> pageOf req = if n =? 0 then 1 else n)) /\
  (query_page req = None -> pageOf req = 1) /\
  pageOf req <> 0.
Proof.
  unfold pageOf. split; [|split].
  - intros n _ Hq. rewrite Hq. cbn [parseIntQuery].
    rewrite parseIntStr_numberToString. cbn [orOne].
    assert (Hz : (Z.sgn n * round53 (Z.abs n) =? 0) = (n =? 0)).
    { destruct (Z.eqb_spec n 0) as [->|Hnz]; [reflexivity|].
      apply Z.eqb_neq. intros H0. apply Z.mul_eq_0 in H0 as [H0|H0]; [lia|].
      destruct (Z.le_gt_cases (Z.abs n) (2 ^ 53)) as [Hs|Hl].
      - rewrite round53_exact in H0 by lia. lia.
      - pose proof (round53_mono (2 ^ 53) (Z.abs n) ltac:(lia)) as Hm.
        rewrite (round53_exact (2 ^ 53)) in Hm by lia. lia. }
    rewrite Hz. split; [reflexivity|].
    intros Hs. destruct (Z.eqb_spec n 0) as [|Hnz]; [reflexivity|].
    rewrite round53_exact by lia. lia.
  - intros Hq. rewrite Hq. reflexivity.
  - unfold orOne. destruct (parseIntQuery (query_page req)) as [n|]; [|discriminate].
    destruct (Z.eqb_spec n 0); [discriminate|assumption].
Qed.

(** [page=37], and a page number that no binary64 holds. *)
Lemma page_number_read_witness :
  (Z.abs 37 < 10 ^ 20 /\ Z.abs 37 <= 2 ^ 53 /\
   query_page (Sample.withPage "37") = Some (numberToString 37) /\
   Z.abs 9007199254740993 < 10 ^ 20 /\
   query_page (Sample.withPage "9007199254740993") =
     Some (numberToString 9007199254740993)) /\
  pageOf (Sample.withPage "37") = 37 /\
  pageOf (Sample.withPage "9007199254740993") = 9007199254740992.
Proof.
  assert (H1 : Z.abs 37 < 10 ^ 20) by reflexivity.
  assert (H2 : Z.abs 37 <= 2 ^ 53) by (vm_compute; discriminate).
  assert (H3 : Z.abs 9007199254740993 < 10 ^ 20) by reflexivity.
  split; [repeat split; assumption|]. split.
  - apply (proj1 (page_number_read (Sample.withPage "37")) 37 H1 eq_refl). exact H2.
  - destruct (proj1 (page_number_read (Sample.withPage "9007199254740993"))
                9007199254740993 H3 eq_refl) as [Hp _].
    rewrite Hp. vm_compute. reflexivity.
Defined.

(** ** What a page is made of *)

Lemma paginated_200 (E : env) (newId : string) (ep : endpoint)
      (docs : list Profile.t) (req : request) (r : response) :
  isPaginated ep = true ->
  sent (snd (serve E newId ep docs req)) = Some r ->
  status r = 200 ->
  exists u upstream,
    calls (snd (serve E newId ep docs req)) = [u] /\
    axiosGet E u = Some upstream /\
    json r = pageBody (pageOf req) (paginatedList E ep upstream).
Proof.
  intros Hpag Hsent Hst.
  pose proof (serve_servedBy E newId ep docs req) as Hs.
  destruct Hs as [Hk|Hk Hb|token Hk Hb Hj|token u r' Hk Hb Hj Hc Ht Hs4 He|token u Hk Hb Hj Hp];
    cbn [snd ended sent calls] in *.
  1-4: injection Hsent as <-; cbn in Hst; try discriminate; congruence.
  destruct (handler_paginated E newId ep docs (setUser req u) Hpag)
    as (action & extra & msg & F).
  remember (handler E newId ep docs (setUser req u)) as out eqn:Hout. clear Hout.
  destruct F as [e Hg|p Hg Ha|p upstream Hg Ha]; cbn [sent calls] in *;
    injection Hsent as <-; cbn in Hst; try discriminate.
  exists (urlFor p action extra), upstream. auto.
Qed.

Lemma slice_contiguous {A : Type} (l : list A) (s e : Z) :
  exists pre post, l = (pre ++ slice l s e ++ post)%list.
Proof.
  unfold slice.
  set (a := sliceStart (Z.of_nat (length l)) s).
  set (c := sliceCount (Z.of_nat (length l)) s e).
  exists (firstn a l), (skipn c (skipn a l)).
  rewrite (firstn_skipn c (skipn a l)), (firstn_skipn a l). reflexivity.
Qed.

Lemma paginatedList_incl (E : env) (ep : endpoint) (upstream : list item) (x : item) :
  In x (paginatedList E ep upstream) -> In x upstream.
Proof.
  destruct ep; cbn [paginatedList]; try (intros H; exact H).
  - unfold recentVods. intros H. apply slice_incl in H.
    apply (Permutation_in x (Permutation_sym (sort_perm byAddedInt upstream))).
    exact H.
  - unfold limitedThenSorted. intros H.
    apply (Permutation_in x (Permutation_sym (sort_perm _ _))) in H.
    apply slice_incl in H. exact H.
  - unfold limitedThenSorted. intros H.
    apply (Permutation_in x (Permutation_sym (sort_perm _ _))) in H.
    apply slice_incl in H. exact H.
Qed.

(** X7. A paginated route makes nothing up: in a 200 response every item
    of [data] is an item of the list the upstream returned for the one
    request made, and on the routes other than /recent [data] is a run of
    consecutive items of that list, in the upstream order. *)
Theorem page_items_from_upstream (E : env) (newId : string) (ep : endpoint)
        (docs : list Profile.t) (req : request) (r : response) :
  isPaginated ep = true ->
  sent (snd (serve E newId ep docs req)) = Some r ->
  status r = 200 ->
  exists u upstream total totalPages data,
    calls (snd (serve E newId ep docs req)) = [u] /\
    axiosGet E u = Some upstream /\
    json r = BPage (pageOf req) total totalPages data /\
    (forall x, In x data -> In x upstream) /\
    (isRecent ep = false ->
     exists pre post, upstream = (pre ++ data ++ post)%list).
Proof.
  intros Hpag Hsent Hst.
  destruct (paginated_200 E newId ep docs req r Hpag Hsent Hst)
    as (u & upstream & Hcalls & Ha & Hjson).
  exists u, upstream. do 3 eexists.
  split; [exact Hcalls|]. split; [exact Ha|]. split; [exact Hjson|]. split.
  - intros x Hx. unfold paginate in Hx. apply slice_incl in Hx.
    eapply paginatedList_incl. exact Hx.
  - intros Hrec. unfold paginate.
    replace (paginatedList E ep upstream) with upstream
      by (destruct ep; try discriminate Hrec; reflexivity).
    apply slice_contiguous.
Qed.

(** Page 2 of /live over 23 upstream items. *)
Lemma page_items_from_upstream_witness :
  let E := Sample.E (fun _ => Some (Sample.numbered 23)) in
  let req := Sample.authed (Some "p1") (Some "2") None in
  let r := ok (BPage 2 23 3 (map Sample.numberedItem (seq 11 10))) in
  (isPaginated Live = true /\
   sent (snd (serve E EmptyString Live Sample.profiles req)) = Some r /\
   status r = 200) /\
  Sample.numbered 23 =
    (map Sample.numberedItem (seq 1 10) ++ map Sample.numberedItem (seq 11 10)
     ++ map Sample.numberedItem (seq 21 3))%list.
Proof.
  intros E req r.
  assert (H : sent (snd (serve E EmptyString Live Sample.profiles req)) = Some r)
    by (vm_compute; reflexivity).
  split; [split; [reflexivity|split; [exact H|reflexivity]]|].
  destruct (page_items_from_upstream E EmptyString Live Sample.profiles req r
              eq_refl H eq_refl)
    as (u & upstream & total & totalPages & data & _ & _ & _ & _ & _).
  reflexivity.
Defined.

(** X8. /vods/recent serves the most recently added: when every [added]
    field of the upstream list reads as a number, a 200 response takes its
    [data] from a list of at most 50 items, sorted most recent first, such
    that no upstream item outside it was added later than an item in
    it. *)
Theorem vods_recent_serves_most_recent (E : env) (newId : string)
        (docs : list Profile.t) (req : request) (r : response) :
  sent (snd (serve E newId VodsRecent docs req)) = Some r ->
  status r = 200 ->
  exists u upstream total totalPages data,
    calls (snd (serve E newId VodsRecent docs req)) = [u] /\
    axiosGet E u = Some upstream /\
    json r = BPage (pageOf req) total totalPages data /\
    (Forall (fun it => parseInt (added it) <> None) upstream ->
     exists kept dropped,
       Permutation upstream (kept ++ dropped) /\
       (length kept <= 50)%nat /\
       StronglySorted (notAfter addedInt) kept /\
       (forall x, In x data -> In x kept) /\
       (forall x y, In x kept -> In y dropped -> addedInt y <= addedInt x)).
Proof.
  intros Hsent Hst.
  destruct (paginated_200 E newId VodsRecent docs req r eq_refl Hsent Hst)
    as (u & upstream & Hcalls & Ha & Hjson).
  exists u, upstream. do 3 eexists.
  split; [exact Hcalls|]. split; [exact Ha|]. split; [exact Hjson|].
  intros Hparse. cbn [paginatedList].
  destruct (vods_recent_most_recent upstream Hparse) as (Hsorted & Hperm & Hmost).
  exists (recentVods upstream), (skipn 50 (sort byAddedInt upstream)).
  split; [exact Hperm|]. split; [|split; [exact Hsorted|split; [|exact Hmost]]].
  - pose proof (paginatedList_length E VodsRecent upstream) as HL.
    cbn [paginatedList isRecent] in HL. lia.
  - intros x Hx. unfold paginate in Hx. apply slice_incl in Hx. exact Hx.
Qed.

(** Page 5 of /vods/recent over 51 items added at times 1 to 51. *)
Lemma vods_recent_serves_most_recent_witness :
  let E := Sample.E (fun _ => Some (Sample.numbered 51)) in
  let req := Sample.authed (Some "p1") (Some "5") None in
  let r := ok (BPage 5 50 5 (map Sample.numberedItem (rev (seq 2 10)))) in
  (sent (snd (serve E EmptyString VodsRecent Sample.profiles req)) = Some r /\
   status r = 200) /\
  exists u, calls (snd (serve E EmptyString VodsRecent Sample.profiles req)) = [u].
Proof.
  intros E req r.
  assert (H : sent (snd (serve E EmptyString VodsRecent Sample.profiles req)) = Some r)
    by (vm_compute; reflexivity).
  split; [split; [exact H|reflexivity]|].
  destruct (vods_recent_serves_most_recent E EmptyString Sample.profiles req r
              H eq_refl)
    as (u & upstream & total & totalPages & data & Hc & _).
  exists u. exact Hc.
Defined.

(** ** Logging in *)

(** X9. POST /login hands out a token only with status 200, only for an
    account that exists under the given username, whose stored hash
    bcrypt matched against the given password and that is verified; the
    token is the one [generateToken] signs for that account's [_id]. *)
Theorem login_token_only_for_verified (E : env)
        (bcryptCompare : string -> string -> option bool)
        (docs : list User.t) (req : request) (r : response) (token : string) :
  reply (postLogin E bcryptCompare docs req) = Some r ->
  json r = BToken token ->
  status r = 200 /\
  exists user,
    User.findOneByUsername docs (strOf (body_username req)) = Some user /\
    In user docs /\
    bcryptCompare (strOf (body_password req)) (User.password user) = Some true /\
    User.isVerified user = true /\
    generateToken E (User._id user) = Some token.
Proof.
  unfold postLogin.
  destruct (_ ++ _)%list; [|intros H; injection H as <-; discriminate].
  destruct (User.findOneByUsername _ _) as [user|] eqn:Hf;
    [|intros H; injection H as <-; discriminate].
  destruct (bcryptCompare _ _) as [[|]|] eqn:Hc;
    try (intros H; injection H as <-; discriminate).
  destruct (User.isVerified user) eqn:Hv; cbn [negb];
    [|intros H; injection H as <-; discriminate].
  destruct (generateToken E _) as [t|] eqn:Hg; [|discriminate].
  intros H Hj. injection H as <-. cbn in Hj. injection Hj as ->.
  split; [reflexivity|]. exists user.
  split; [reflexivity|]. split; [eapply find_In; exact Hf|]. auto.
Qed.

(** Bob, who is verified, logs in. *)
Lemma login_token_only_for_verified_witness :
  let E := Sample.E (fun _ => None) in
  let docs := [Sample.alice;
               User.setPassword Sample.bob "bcrypt:hunter2"] in
  let req := Sample.login (Some "bob") (Some "hunter2") in
  let r := {| status := 200; json := BToken "jwt:idb:1h" |} in
  (reply (postLogin E Sample.matches docs req) = Some r /\
   json r = BToken "jwt:idb:1h") /\
  exists user, In user docs /\ User.isVerified user = true /\
               generateToken E (User._id user) = Some "jwt:idb:1h".
Proof.
  intros E docs req r.
  assert (H : reply (postLogin E Sample.matches docs req) = Some r)
    by (vm_compute; reflexivity).
  split; [split; [exact H|reflexivity]|].
  destruct (login_token_only_for_verified E Sample.matches docs req r _ H eq_refl)
    as (_ & user & _ & Hin & _ & Hv & Hg).
  exists user. auto.
Defined.

(** X10. POST /login answers an unknown username and a wrong password
    alike: when both fields are given, the response is the same 400
    "Credenciales inválidas" whether no account has the username or the
    password does not match the account's hash, and the collection is
    untouched. *)
Theorem login_wrong_credentials_alike (E : env)
        (bcryptCompare : string -> string -> option bool)
        (docs : list User.t) (req : request) :
  truthy (body_username req) = true ->
  truthy (body_password req) = true ->
  (User.findOneByUsername docs (strOf (body_username req)) = None \/
   exists user,
     User.findOneByUsername docs (strOf (body_username req)) = Some user /\
     bcryptCompare (strOf (body_password req)) (User.password user) = Some false) ->
  postLogin E bcryptCompare docs req =
    respond 400 (BError "Credenciales inválidas") docs.
Proof.
  intros Hu Hp H. unfold postLogin, notEmpty. rewrite Hu, Hp. cbn [app].
  destruct H as [->|(user & -> & ->)]; reflexivity.
Qed.

(** Nobody is called carol; alice's password is not [guess]. *)
Lemma login_wrong_credentials_alike_witness :
  let E := Sample.E (fun _ => None) in
  let unknown := Sample.login (Some "carol") (Some "guess") in
  let wrong := Sample.login (Some "alice") (Some "guess") in
  (truthy (body_username unknown) = true /\ truthy (body_password unknown) = true /\
   User.findOneByUsername Sample.users "carol" = None /\
   User.findOneByUsername Sample.users "alice" = Some Sample.alice /\
   Sample.matches "guess" (User.password Sample.alice) = Some false) /\
  reply (postLogin E Sample.matches Sample.users unknown) =
    reply (postLogin E Sample.matches Sample.users wrong).
Proof.
  intros E unknown wrong. split; [repeat split|].
  rewrite (login_wrong_credentials_alike E Sample.matches Sample.users unknown
             eq_refl eq_refl (or_introl eq_refl)).
  rewrite (login_wrong_credentials_alike E Sample.matches Sample.users wrong
             eq_refl eq_refl
             (or_intror (ex_intro _ Sample.alice (conj eq_refl eq_refl)))).
  reflexivity.
Defined.

(** ** From registration to the first login *)

Lemma find_app_skip {A : Type} (f : A -> bool) (a b : list A) :
  (forall x, In x a -> f x = false) -> find f (a ++ b) = find f b.
Proof.
  induction a as [|x a IH]; intros H; [reflexivity|].
  cbn [app find]. rewrite (H x (or_introl eq_refl)).
  apply IH. intros y Hy. apply H. right. exact Hy.
Qed.

Lemma unusedIn_optEqb (docs : list User.t) (code : string) :
  unusedIn docs code ->
  forall d, In d docs -> optEqb (User.verificationToken d) (Some code) = false.
Proof.
  intros H d Hd. destruct (optEqb _ _) eqn:Hb; [|reflexivity].
  apply optEqb_eq in Hb. exfalso. exact (H d Hd Hb).
Qed.

Lemma sixDigitCode_truthy (code : string) :
  sixDigitCode code -> truthy (Some code) = true.
Proof.
  intros [H _]. destruct code; [discriminate H|reflexivity].
Qed.

Lemma postRegister_201 (O : oracle) (docs : list User.t) (req : request)
      (r : response) :
  reply (postRegister O docs req) = Some r -> status r = 201 ->
  fieldMissing req = false /\
  exists hashed code rest,
    bcryptHash O (strOf (body_password req)) = Some hashed /\
    generateUniqueVerificationCode (random O) docs = Some (code, rest) /\
    User.insert docs (newUser O req hashed code) =
      Some (docs ++ [newUser O req hashed code])%list /\
    usersAfter (postRegister O docs req) = (docs ++ [newUser O req hashed code])%list.
Proof.
  unfold postRegister, sendEmail.
  destruct (fieldMissing req); [intros H; injection H as <-; discriminate|].
  destruct (User.findOneByUsername _ _); [intros H; injection H as <-; discriminate|].
  destruct (bcryptHash O _) as [hashed|]; [|intros H; injection H as <-; discriminate].
  destruct (generateUniqueVerificationCode _ _) as [[code rest]|]; [|discriminate].
  destruct (User.insert docs _) as [saved|] eqn:Hi; [|discriminate].
  destruct (sgSend O); [|intros H; injection H as <-; discriminate].
  intros _ _. split; [reflexivity|]. exists hashed, code, rest.
  pose proof (insert_spec _ _ _ Hi) as [-> _]. auto.
Qed.

Lemma update_last (docs : list User.t) (u u' : User.t) :
  (forall d, In d docs -> User._id d <> User._id u) ->
  User._id u' = User._id u ->
  User.update (docs ++ [u]) u' = (docs ++ [u'])%list.
Proof.
  intros Hfresh Hid. unfold User.update. rewrite map_app. cbn [map].
  fold (User.update docs u'). rewrite update_other.
  - rewrite Hid, String.eqb_refl. reflexivity.
  - intros d Hd. rewrite Hid. apply Hfresh. exact Hd.
Qed.

Lemma fieldMissing_false (req : request) :
  fieldMissing req = false ->
  truthy (body_username req) = true /\ truthy (body_password req) = true /\
  truthy (body_email req) = true.
Proof.
  unfold fieldMissing. intros H.
  repeat (apply orb_false_elim in H as [H ?]).
  repeat match goal with
         | X : negb _ = false |- _ => apply negb_false_iff in X
         end.
  auto.
Qed.

(** X11. From registration to the first login. After a 201 from POST
    /register the account exists with a six-digit code but cannot log in:
    POST /login with its username and password answers 400 "Cuenta no
    verificada". Once POST /verify is given that code within ten minutes
    of the registration, the account is verified (whether or not the
    congratulation mail went out), and the same login gets the token
    [generateToken] signs for the new account. *)
Theorem register_verify_login (E : env) (O1 O2 : oracle)
        (bcryptCompare : string -> string -> option bool)
        (docs : list User.t) (reqR reqV reqL : request) (r1 : response) :
  Forall validDraw (random O1) ->
  reply (postRegister O1 docs reqR) = Some r1 -> status r1 = 201 ->
  body_username reqL = body_username reqR ->
  body_password reqL = body_password reqR ->
  (forall hashed,
     bcryptHash O1 (strOf (body_password reqR)) = Some hashed ->
     bcryptCompare (strOf (body_password reqR)) hashed = Some true) ->
  let docs1 := usersAfter (postRegister O1 docs reqR) in
  postLogin E bcryptCompare docs1 reqL =
    respond 400
      (BError "Cuenta no verificada. Por favor, verifica tu cuenta antes de iniciar sesión.")
      docs1 /\
  exists code,
    sixDigitCode code /\
    (exists user, In user docs1 /\ User.verificationToken user = Some code /\
                  User.username user = strOf (body_username reqR)) /\
    (body_code reqV = Some code -> now O2 <= now O1 + tenMinutes ->
     let docs2 := usersAfter (postVerify O2 docs1 reqV) in
     reply (postVerify O2 docs1 reqV) =
       Some (if sgSend O2
             then {| status := 200;
                     json := BMessage "¡Cuenta verificada exitosamente! Ahora puedes iniciar sesión." |}
             else {| status := 500;
                     json := BMessage "Hubo un error al verificar la cuenta. Inténtalo de nuevo." |}) /\
     postLogin E bcryptCompare docs2 reqL =
       match generateToken E (newObjectId O1) with
       | Some token => respond 200 (BToken token) docs2
       | None => {| reply := None; usersAfter := docs2 |}
       end).
Proof.
  intros Hv Hr Hs Hu Hp Hcmp docs1. subst docs1.
  destruct (postRegister_201 O1 docs reqR r1 Hr Hs)
    as (Hm & hashed & code & rest & Hh & Hg & Hi & ->).
  destruct (fieldMissing_false reqR Hm) as (Htu & Htp & _).
  apply insert_spec in Hi as [_ Hfresh].
  set (nu := newUser O1 reqR hashed code) in *.
  assert (Hname : forall d, In d docs ->
            (User.username d =? strOf (body_username reqR))%string = false).
  { intros d Hd. apply String.eqb_neq. apply (Hfresh d Hd). }
  assert (Hlogin : forall u', User.username u' = strOf (body_username reqR) ->
            User.findOneByUsername (docs ++ [u']) (strOf (body_username reqL)) = Some u').
  { intros u' Hu'. unfold User.findOneByUsername. rewrite Hu.
    rewrite find_app_skip by exact Hname.
    cbn [find]. rewrite Hu', String.eqb_refl. reflexivity. }
  pose proof (generate_some _ _ _ _ Hg) as (n & Hn & Hcode & Hfree).
  assert (Hsix : sixDigitCode code).
  { rewrite Hcode. apply randomCode_sixDigit. rewrite Forall_forall in Hv. auto. }
  split.
  - unfold postLogin, notEmpty. rewrite Hu, Hp, Htu, Htp. cbn [app].
    rewrite <- Hu, (Hlogin nu eq_refl).
    change (User.password nu) with hashed. rewrite (Hcmp hashed Hh). reflexivity.
  - exists code. split; [exact Hsix|]. split.
    { exists nu. split; [apply in_or_app; right; left; reflexivity|]. auto. }
    intros Hc Hnow docs2. subst docs2.
    assert (Hverify : postVerify O2 (docs ++ [nu]) reqV =
              let saved := (docs ++ [User.setToken (User.setVerified nu) None None])%list in
              if sgSend O2
              then respond 200
                     (BMessage "¡Cuenta verificada exitosamente! Ahora puedes iniciar sesión.")
                     saved
              else respond 500
                     (BMessage "Hubo un error al verificar la cuenta. Inténtalo de nuevo.")
                     saved).
    { unfold postVerify, sendEmail. rewrite Hc, (sixDigitCode_truthy code Hsix).
      cbn [negb strOf]. unfold User.findOneByToken.
      rewrite find_app_skip by (apply unusedIn_optEqb; exact Hfree).
      cbn [find]. change (User.verificationToken nu) with (Some code).
      cbn [optEqb]. rewrite String.eqb_refl.
      change (User.verificationExpires nu) with (Some (now O1 + tenMinutes)).
      cbv iota beta.
      replace (now O2 >? now O1 + tenMinutes) with false
        by (symmetry; rewrite Z.gtb_ltb; apply Z.ltb_ge; lia).
      rewrite update_last; [reflexivity| |reflexivity].
      intros d Hd. apply (Hfresh d Hd). }
    rewrite Hverify. cbn zeta.
    split; [destruct (sgSend O2); reflexivity|].
    assert (Hafter : usersAfter
              (if sgSend O2
               then respond 200
                      (BMessage "¡Cuenta verificada exitosamente! Ahora puedes iniciar sesión.")
                      (docs ++ [User.setToken (User.setVerified nu) None None])
               else respond 500
                      (BMessage "Hubo un error al verificar la cuenta. Inténtalo de nuevo.")
                      (docs ++ [User.setToken (User.setVerified nu) None None]))
            = (docs ++ [User.setToken (User.setVerified nu) None None])%list)
      by (destruct (sgSend O2); reflexivity).
    rewrite Hafter.
    unfold postLogin, notEmpty. rewrite Hu, Hp, Htu, Htp. cbn [app].
    rewrite <- Hu, (Hlogin (User.setToken (User.setVerified nu) None None) eq_refl).
    change (User.password (User.setToken (User.setVerified nu) None None))
      with hashed.
    rewrite (Hcmp hashed Hh). reflexivity.
Qed.

(** Carol registers, verifies with the code 100000 and logs in. *)
Lemma register_verify_login_witness :
  let E := Sample.E (fun _ => None) in
  let O := Sample.world [0] true in
  let r1 := {| status := 201;
               json := BMessage "Usuario registrado exitosamente. Por favor, verifica tu correo para activar tu cuenta." |} in
  let verify := Sample.post None None None None None None (Some "100000") None in
  let login := Sample.login (Some "carol") (Some "secret1") in
  let docs1 := usersAfter (postRegister O Sample.users Sample.registerCarol) in
  let docs2 := usersAfter (postVerify O docs1 verify) in
  (Forall validDraw (random O) /\
   reply (postRegister O Sample.users Sample.registerCarol) = Some r1 /\
   status r1 = 201) /\
  reply (postLogin E Sample.matches docs1 login) =
    Some {| status := 400;
            json := BError "Cuenta no verificada. Por favor, verifica tu cuenta antes de iniciar sesión." |} /\
  reply (postLogin E Sample.matches docs2 login) =
    Some {| status := 200; json := BToken "jwt:idc:1h" |}.
Proof.
  intros E O r1 verify login docs1 docs2.
  assert (Hv : Forall validDraw (random O)).
  { repeat constructor; unfold validDraw; try lia; reflexivity. }
  assert (Hr : reply (postRegister O Sample.users Sample.registerCarol) = Some r1)
    by (vm_compute; reflexivity).
  split; [split; [exact Hv|split; [exact Hr|reflexivity]]|].
  destruct (register_verify_login E O O Sample.matches Sample.users
              Sample.registerCarol verify login r1 Hv Hr eq_refl eq_refl eq_refl)
    as (Hbefore & code & _ & _ & _).
  { intros hashed Hh. injection Hh as <-. reflexivity. }
  split; [unfold docs1; rewrite Hbefore; reflexivity|].
  vm_compute. reflexivity.
Defined.

(** ** Recovering a password *)

Lemma append_empty_r (s : string) : s ++ EmptyString = s.
Proof. induction s as [|c s IH]; cbn [append]; congruence. Qed.

Lemma append_snoc (a : string) (c : ascii) (b : string) :
  (a ++ String c EmptyString) ++ b = a ++ String c b.
Proof. induction a as [|d a IH]; cbn [append]; congruence. Qed.

Lemma splitAux_nosep (sep : ascii) (s cur : string) :
  occurs sep s = false -> splitAux sep s cur = [cur ++ s].
Proof.
  revert cur. induction s as [|c s IH]; intros cur; cbn [occurs splitAux].
  - intros _. rewrite append_empty_r. reflexivity.
  - intros H. apply orb_false_elim in H as [Hc Hs]. rewrite Hc.
    rewrite (IH _ Hs), append_snoc. reflexivity.
Qed.

(** A header [Bearer t] carries the token [t]. *)
Lemma bearerToken_bearer (req : request) (t : string) :
  headers_authorization req = Some ("Bearer " ++ t) ->
  occurs " " t = false ->
  bearerToken req = Some t.
Proof.
  intros Hh Ht. unfold bearerToken, split. rewrite Hh.
  cbn. rewrite (splitAux_nosep " " t EmptyString Ht). reflexivity.
Qed.

Lemma findById_unique (docs : list User.t) (user : User.t) :
  NoDup (map User._id docs) -> In user docs ->
  User.findById docs (User._id user) = Some user.
Proof.
  unfold User.findById.
  induction docs as [|d rest IH]; intros Hnd Hin; [contradiction|].
  cbn [map] in Hnd. apply NoDup_cons_iff in Hnd as [Hnot Hnd].
  cbn [find]. destruct Hin as [->|Hin].
  - rewrite String.eqb_refl. reflexivity.
  - destruct (String.eqb_spec (User._id d) (User._id user)) as [Heq|Hne].
    + exfalso. apply Hnot. rewrite Heq. apply in_map. exact Hin.
    + apply IH; assumption.
Qed.

(** The document that was given a new code is the one found by it. *)
Lemma findOneByToken_update (docs : list User.t) (user u' : User.t) (code : string) :
  wellFormed docs -> In user docs -> User._id u' = User._id user ->
  User.verificationToken u' = Some code -> unusedIn docs code ->
  User.findOneByToken (User.update docs u') code = Some u'.
Proof.
  intros [Hids _] Hin Hid Htok Hfree.
  destruct (update_split docs user u' Hids Hin Hid) as (pre & post & Hd & ->).
  unfold User.findOneByToken. rewrite find_app_skip.
  - cbn [find]. rewrite Htok. cbn [optEqb]. rewrite String.eqb_refl. reflexivity.
  - intros d Hdin. apply (unusedIn_optEqb docs code Hfree).
    rewrite Hd. apply in_or_app. left. exact Hdin.
Qed.

Lemma findOneByEmail_In (docs : list User.t) (x : string) (user : User.t) :
  User.findOneByEmail docs x = Some user -> In user docs /\ User.email user = x.
Proof.
  unfold User.findOneByEmail. intros H. apply find_some in H as [Hin He].
  apply String.eqb_eq in He. auto.
Qed.

(** X12. Recovering a password, end to end. On a well-formed collection,
    POST /forgot-password stores a new code for the account of the given
    email (whether or not the mail goes out); POST /verify-reset-code with
    that code, within ten minutes, answers 200 with the reset token signed
    for the account; POST /reset-password with that token as bearer
    stores the hash of the new password in that account, clears the code
    and answers 200; no other account is changed. *)
Theorem password_recovery (E : env) (O1 O2 O3 : oracle) (docs : list User.t)
        (reqF reqV reqR : request) (user : User.t)
        (code token hashed : string) (rest : list Z) :
  wellFormed docs ->
  Forall validDraw (random O1) ->
  truthy (body_email reqF) = true ->
  User.findOneByEmail docs (strOf (body_email reqF)) = Some user ->
  generateUniqueVerificationCode (random O1) docs = Some (code, rest) ->
  body_verificationCode reqV = Some code ->
  now O2 <= now O1 + tenMinutes ->
  jwtSign E (User._id user) (SECRET_KEY E) "15m" = Some token ->
  optEqb (headers_x_api_key reqR) (API_KEY E) = true ->
  headers_authorization reqR = Some ("Bearer " ++ token) ->
  occurs " " token = false -> token <> EmptyString ->
  jwtVerify E token (SECRET_KEY E) = Some {| userId := User._id user |} ->
  truthy (body_newPassword reqR) = true ->
  bcryptHash O3 (strOf (body_newPassword reqR)) = Some hashed ->
  sgSend O3 = true ->
  let docs1 := usersAfter (postForgotPassword O1 docs reqF) in
  let out := serveAccount E O3 ResetPassword docs1 reqR in
  postVerifyResetCode E O2 docs1 reqV =
    respond 200
      (BReset "Código de verificación válido para restablecer tu contraseña." token)
      docs1 /\
  reply out =
    Some {| status := 200; json := BMessage "¡Contraseña restablecida exitosamente!" |} /\
  (exists u2,
     User.findById (usersAfter out) (User._id user) = Some u2 /\
     User.password u2 = hashed /\ User.verificationToken u2 = None /\
     User.username u2 = User.username user /\ User.email u2 = User.email user) /\
  (forall d, In d (usersAfter out) -> User._id d <> User._id user -> In d docs).
Proof.
  intros Hw Hv Hte Hfe Hg Hvc Hnow Hsign Hk Hauth Hsp Hne Hjwt Hnp Hh Hmail docs1 out.
  destruct (findOneByEmail_In _ _ _ Hfe) as [Hin _].
  pose proof (generate_some _ _ _ _ Hg) as (n & Hn & Hcode & Hfree).
  assert (Hsix : sixDigitCode code).
  { rewrite Hcode. apply randomCode_sixDigit. rewrite Forall_forall in Hv. auto. }
  set (u1 := User.setToken user (Some code) (Some (now O1 + tenMinutes))).
  assert (Hdocs1 : docs1 = User.update docs u1).
  { subst docs1. unfold postForgotPassword, issueCode. rewrite Hte, Hfe, Hg.
    cbn [negb]. destruct (sendEmail O1 _ _); reflexivity. }
  assert (Hw1 : wellFormed docs1).
  { rewrite Hdocs1. apply (update_wellFormed docs user u1 Hw Hin eq_refl). exact Hfree. }
  assert (Hfind1 : User.findOneByToken docs1 code = Some u1).
  { rewrite Hdocs1. apply (findOneByToken_update docs user); auto. }
  assert (Hbyid : User.findById docs1 (User._id user) = Some u1).
  { rewrite Hdocs1. apply (findById_update docs _ user); [|reflexivity].
    apply findById_unique; [apply Hw|exact Hin]. }
  set (u2 := User.setToken (User.setPassword u1 hashed) None None).
  assert (Hout : out = respond 200 (BMessage "¡Contraseña restablecida exitosamente!")
                         (User.update docs1 u2)).
  { subst out. unfold serveAccount, validateApiKey. rewrite Hk.
    unfold authenticateResetToken.
    rewrite (bearerToken_bearer reqR token Hauth Hsp).
    assert (Htt : truthy (Some token) = true).
    { cbn [truthy]. apply negb_true_iff, String.eqb_neq. exact Hne. }
    rewrite Htt. cbn [negb strOf]. rewrite Hjwt. cbn [accountHandler userId].
    unfold postResetPassword, sendEmail.
    cbn [body_newPassword req_userId setUserId strOf].
    rewrite Hnp, Hbyid. cbn [negb].
    change (User.verificationToken u1) with (Some code).
    rewrite (sixDigitCode_truthy code Hsix). cbn [negb].
    rewrite Hh, Hmail. reflexivity. }
  split; [|split; [|split]].
  - unfold postVerifyResetCode. rewrite Hvc, (sixDigitCode_truthy code Hsix).
    cbn [negb strOf]. rewrite Hfind1.
    change (User.verificationExpires u1) with (Some (now O1 + tenMinutes)).
    cbv iota beta.
    replace (now O2 >? now O1 + tenMinutes) with false
      by (symmetry; rewrite Z.gtb_ltb; apply Z.ltb_ge; lia).
    change (User._id u1) with (User._id user). rewrite Hsign. reflexivity.
  - rewrite Hout. reflexivity.
  - exists u2. rewrite Hout. cbn [respond usersAfter].
    split; [apply (findById_update docs1 _ u1); [exact Hbyid|reflexivity]|].
    repeat split.
  - intros d Hd Hid. rewrite Hout in Hd. cbn [respond usersAfter] in Hd.
    apply update_incl in Hd as [Hd| ->]; [|exfalso; apply Hid; reflexivity].
    rewrite Hdocs1 in Hd.
    apply update_incl in Hd as [Hd| ->]; [exact Hd|exfalso; apply Hid; reflexivity].
Qed.

(** Alice forgets her password, gets the code 100000 and sets a new
    password. *)
Lemma password_recovery_witness :
  let O := Sample.world [0] true in
  let verify := Sample.post None None None None None None (Some "100000") None in
  let docs1 := usersAfter (postForgotPassword O Sample.users Sample.forgotAlice) in
  let out := serveAccount Sample.Ejwt O ResetPassword docs1 Sample.resetAlice in
  (Forall validDraw (random O) /\
   User.findOneByEmail Sample.users "alice@example.org" = Some Sample.alice /\
   generateUniqueVerificationCode (random O) Sample.users = Some ("100000", []) /\
   jwtSign Sample.Ejwt "ida" (SECRET_KEY Sample.Ejwt) "15m" = Some "jwt:ida:15m" /\
   jwtVerify Sample.Ejwt "jwt:ida:15m" (SECRET_KEY Sample.Ejwt) =
     Some {| userId := "ida" |}) /\
  reply out =
    Some {| status := 200; json := BMessage "¡Contraseña restablecida exitosamente!" |} /\
  exists u2, User.findById (usersAfter out) "ida" = Some u2 /\
             User.password u2 = "bcrypt:newpw" /\ User.verificationToken u2 = None.
Proof.
  intros O verify docs1 out.
  assert (Hw : wellFormed Sample.users).
  { split; cbn.
    - repeat constructor; cbn; intuition discriminate.
    - repeat constructor. intros []. }
  assert (Hv : Forall validDraw (random O)).
  { repeat constructor; unfold validDraw; try lia; reflexivity. }
  assert (Hg : generateUniqueVerificationCode (random O) Sample.users =
               Some ("100000", [])) by (vm_compute; reflexivity).
  assert (Hne : "jwt:ida:15m" <> EmptyString) by discriminate.
  split; [repeat split; auto|].
  destruct (password_recovery Sample.Ejwt O O O Sample.users Sample.forgotAlice
              verify Sample.resetAlice Sample.alice "100000" "jwt:ida:15m"
              "bcrypt:newpw" [] Hw Hv eq_refl eq_refl Hg eq_refl ltac:(cbn; lia)
              eq_refl eq_refl eq_refl eq_refl Hne eq_refl eq_refl eq_refl eq_refl)
    as (_ & Hreply & (u2 & Hf & Hp & Ht & _) & _).
  split; [exact Hreply|]. exists u2. auto.
Defined.

(** ** The life of a code *)

Lemma forgot_stores_code (O : oracle) (docs : list User.t) (req : request)
      (user : User.t) (code : string) (rest : list Z) :
  wellFormed docs ->
  truthy (body_email req) = true ->
  User.findOneByEmail docs (strOf (body_email req)) = Some user ->
  generateUniqueVerificationCode (random O) docs = Some (code, rest) ->
  let u1 := User.setToken user (Some code) (Some (now O + tenMinutes)) in
  usersAfter (postForgotPassword O docs req) = User.update docs u1 /\
  User.findOneByToken (User.update docs u1) code = Some u1.
Proof.
  intros Hw Hte Hfe Hg u1.
  destruct (findOneByEmail_In _ _ _ Hfe) as [Hin _].
  pose proof (generate_some _ _ _ _ Hg) as (n & Hn & Hcode & Hfree).
  split.
  - unfold postForgotPassword, issueCode. rewrite Hte, Hfe, Hg.
    cbn [negb]. destruct (sendEmail O _ _); reflexivity.
  - apply (findOneByToken_update docs user); auto.
Qed.

(** X13. A code lives ten minutes. A code that POST /forgot-password
    stored at time [t] is refused with 400 "ha expirado" by POST /verify
    and by POST /verify-reset-code at any time after [t + 600000] ms; the
    refusal changes nothing, the expired code stays in the account. *)
Theorem issued_code_expires (E : env) (O1 O2 : oracle) (docs : list User.t)
        (reqF reqV : request) (user : User.t) (code : string) (rest : list Z) :
  wellFormed docs ->
  Forall validDraw (random O1) ->
  truthy (body_email reqF) = true ->
  User.findOneByEmail docs (strOf (body_email reqF)) = Some user ->
  generateUniqueVerificationCode (random O1) docs = Some (code, rest) ->
  body_code reqV = Some code ->
  body_verificationCode reqV = Some code ->
  now O1 + 600000 < now O2 ->
  let docs1 := usersAfter (postForgotPassword O1 docs reqF) in
  let expired :=
    respond 400
      (BError "El código de verificación ha expirado. Por favor, solicita uno nuevo.")
      docs1 in
  postVerify O2 docs1 reqV = expired /\
  postVerifyResetCode E O2 docs1 reqV = expired /\
  exists holder, User.findOneByToken docs1 code = Some holder /\
                 User._id holder = User._id user.
Proof.
  intros Hw Hv Hte Hfe Hg Hc Hvc Hlate docs1 expired. subst expired docs1.
  destruct (forgot_stores_code O1 docs reqF user code rest Hw Hte Hfe Hg)
    as [-> Hfind].
  pose proof (generate_some _ _ _ _ Hg) as (n & Hn & Hcode & _).
  assert (Hsix : sixDigitCode code).
  { rewrite Hcode. apply randomCode_sixDigit. rewrite Forall_forall in Hv. auto. }
  assert (Hgt : (now O2 >? now O1 + tenMinutes) = true).
  { rewrite Z.gtb_ltb. apply Z.ltb_lt. unfold tenMinutes. lia. }
  split; [|split].
  - unfold postVerify. rewrite Hc, (sixDigitCode_truthy code Hsix).
    cbn [negb strOf]. rewrite Hfind. cbn [User.verificationExpires User.setToken].
    rewrite Hgt. reflexivity.
  - unfold postVerifyResetCode. rewrite Hvc, (sixDigitCode_truthy code Hsix).
    cbn [negb strOf]. rewrite Hfind. cbn [User.verificationExpires User.setToken].
    rewrite Hgt. reflexivity.
  - eexists. split; [exact Hfind|reflexivity].
Qed.

(** Alice's recovery code, presented eleven minutes later. *)
Lemma issued_code_expires_witness :
  let O1 := Sample.world [0] true in
  let O2 := {| random := []; bcryptHash := fun _ => None; sgSend := true;
               now := 661000; newObjectId := "idx" |} in
  let verify := Sample.post None None None None None None (Some "100000") None in
  let docs1 := usersAfter (postForgotPassword O1 Sample.users Sample.forgotAlice) in
  (Forall validDraw (random O1) /\
   generateUniqueVerificationCode (random O1) Sample.users = Some ("100000", []) /\
   now O1 + 600000 < now O2) /\
  reply (postVerify O2 docs1 verify) =
    Some {| status := 400;
            json := BError "El código de verificación ha expirado. Por favor, solicita uno nuevo." |}.
Proof.
  intros O1 O2 verify docs1.
  assert (Hw : wellFormed Sample.users).
  { split; cbn.
    - repeat constructor; cbn; intuition discriminate.
    - repeat constructor. intros []. }
  assert (Hv : Forall validDraw (random O1)).
  { repeat constructor; unfold validDraw; try lia; reflexivity. }
  assert (Hg : generateUniqueVerificationCode (random O1) Sample.users =
               Some ("100000", [])) by (vm_compute; reflexivity).
  assert (Hl : now O1 + 600000 < now O2) by (cbn; lia).
  split; [auto|].
  destruct (issued_code_expires Sample.Ejwt O1 O2 Sample.users Sample.forgotAlice
              verify Sample.alice "100000" [] Hw Hv eq_refl eq_refl Hg eq_refl
              eq_refl Hl) as (Hverify & _).
  unfold docs1. rewrite Hverify. reflexivity.
Defined.

Lemma replaced_code_unused (docs : list User.t) (user u' : User.t)
      (old code : string) :
  wellFormed docs -> In user docs ->
  User.verificationToken user = Some old ->
  User._id u' = User._id user ->
  User.verificationToken u' = Some code -> unusedIn docs code ->
  code <> old /\ unusedIn (User.update docs u') old.
Proof.
  intros [Hids Htoks] Hin Hold Hid Hnew Hfree.
  assert (Hne : code <> old) by (intros ->; exact (Hfree user Hin Hold)).
  split; [exact Hne|].
  destruct (update_split docs user u' Hids Hin Hid) as (pre & post & Hd & ->).
  apply unusedIn_tokens. rewrite Hd in Htoks.
  change (user :: post) with ([user] ++ post)%list in Htoks.
  change (u' :: post) with ([u'] ++ post)%list.
  rewrite !tokensOf_app, tokensOf_single in *.
  rewrite Hold in Htoks. rewrite Hnew. cbn [app] in *.
  apply NoDup_remove_2 in Htoks. intros Hc.
  apply in_app_or in Hc as [Hc|[Hc|Hc]].
  - apply Htoks. apply in_or_app. left. exact Hc.
  - exact (Hne Hc).
  - apply Htoks. apply in_or_app. right. exact Hc.
Qed.

(** X14. A new code replaces the old one. When POST /resend-verification
    issues a code to an unverified account that still held one, the new
    code differs from the old, and the old code is from then on answered
    400 "inválido" by POST /verify, which changes nothing. *)
Theorem resend_replaces_code (O1 O2 : oracle) (docs : list User.t)
        (reqS reqV : request) (user : User.t) (old code : string) (rest : list Z) :
  wellFormed docs ->
  truthy (body_email reqS) = true ->
  User.findOneByEmail docs (strOf (body_email reqS)) = Some user ->
  User.isVerified user = false ->
  User.verificationToken user = Some old ->
  generateUniqueVerificationCode (random O1) docs = Some (code, rest) ->
  body_code reqV = Some old ->
  let docs1 := usersAfter (postResendVerification O1 docs reqS) in
  code <> old /\
  (exists holder, User.findOneByToken docs1 code = Some holder /\
                  User._id holder = User._id user) /\
  (truthy (Some old) = true ->
   postVerify O2 docs1 reqV =
     respond 400 (BError "Código de verificación inválido.") docs1).
Proof.
  intros Hw Hte Hfe Hnv Hold Hg Hc docs1.
  destruct (findOneByEmail_In _ _ _ Hfe) as [Hin _].
  pose proof (generate_some _ _ _ _ Hg) as (n & Hn & Hcode & Hfree).
  set (u1 := User.setToken user (Some code) (Some (now O1 + tenMinutes))).
  assert (Hdocs1 : docs1 = User.update docs u1).
  { subst docs1. unfold postResendVerification, issueCode.
    rewrite Hte, Hfe, Hnv, Hg. cbn [negb].
    destruct (sendEmail O1 _ _); reflexivity. }
  destruct (replaced_code_unused docs user u1 old code Hw Hin Hold eq_refl
              eq_refl Hfree) as [Hne Hun].
  split; [exact Hne|]. split.
  - exists u1. split; [|reflexivity]. rewrite Hdocs1.
    apply (findOneByToken_update docs user); auto.
  - intros Ht. rewrite Hdocs1. unfold postVerify. rewrite Hc, Ht. cbn [negb strOf].
    apply findOneByToken_none in Hun. rewrite Hun. reflexivity.
Qed.

(** Alice asks for her verification code again; 123456 stops working. *)
Lemma resend_replaces_code_witness :
  let O := Sample.world [0] true in
  let verify := Sample.post None None None None None None (Some "123456") None in
  let docs1 := usersAfter (postResendVerification O Sample.users Sample.forgotAlice) in
  (User.findOneByEmail Sample.users "alice@example.org" = Some Sample.alice /\
   User.verificationToken Sample.alice = Some "123456" /\
   generateUniqueVerificationCode (random O) Sample.users = Some ("100000", [])) /\
  postVerify O docs1 verify =
    respond 400 (BError "Código de verificación inválido.") docs1.
Proof.
  intros O verify docs1.
  assert (Hw : wellFormed Sample.users).
  { split; cbn.
    - repeat constructor; cbn; intuition discriminate.
    - repeat constructor. intros []. }
  assert (Hg : generateUniqueVerificationCode (random O) Sample.users =
               Some ("100000", [])) by (vm_compute; reflexivity).
  split; [auto|].
  destruct (resend_replaces_code O O Sample.users Sample.forgotAlice verify
              Sample.alice "123456" "100000" [] Hw eq_refl eq_refl eq_refl eq_refl
              Hg eq_refl) as (_ & _ & Hold).
  apply Hold. reflexivity.
Defined.

(** ** When the mail cannot be sent *)

(** X15. Only POST /register undoes its change when the mail fails. After
    POST /verify has saved the verified account and the congratulation
    mail fails, the answer is 500 "error al verificar la cuenta", yet the
    account is verified and the code is spent: the same code is afterwards
    answered 400 "inválido". After POST /reset-password has saved the new
    password and the mail fails, no response is sent at all, and the
    password is the new one. *)
Theorem mail_failure_after_save (O O' : oracle) (docs : list User.t)
        (req : request) (user : User.t) :
  wellFormed docs ->
  sgSend O = false ->
  (forall code,
     body_code req = Some code -> truthy (Some code) = true ->
     User.findOneByToken docs code = Some user ->
     match User.verificationExpires user with
     | Some e => now O <= e
     | None => True
     end ->
     let after := usersAfter (postVerify O docs req) in
     reply (postVerify O docs req) =
       Some {| status := 500;
               json := BMessage "Hubo un error al verificar la cuenta. Inténtalo de nuevo." |} /\
     (exists u', User.findById after (User._id user) = Some u' /\
                 User.isVerified u' = true /\
                 User.verificationToken u' = None) /\
     postVerify O' after req =
       respond 400 (BError "Código de verificación inválido.") after) /\
  (forall hashed,
     truthy (body_newPassword req) = true ->
     User.findById docs (strOf (req_userId req)) = Some user ->
     truthy (User.verificationToken user) = true ->
     bcryptHash O (strOf (body_newPassword req)) = Some hashed ->
     let after := usersAfter (postResetPassword O docs req) in
     reply (postResetPassword O docs req) = None /\
     exists u', User.findById after (User._id user) = Some u' /\
                User.password u' = hashed /\
                User.verificationToken u' = None).
Proof.
  intros Hw Hmail. split.
  - intros code Hc Ht Hfind Hexp after.
    set (u' := User.setToken (User.setVerified user) None None).
    assert (Hin : In user docs) by (apply find_In in Hfind; exact Hfind).
    assert (Hnot : (match User.verificationExpires user with
                    | Some e => now O >? e
                    | None => false
                    end) = false).
    { destruct (User.verificationExpires user); [|reflexivity].
      rewrite Z.gtb_ltb. apply Z.ltb_ge. exact Hexp. }
    assert (Hpv : postVerify O docs req =
                  respond 500
                    (BMessage "Hubo un error al verificar la cuenta. Inténtalo de nuevo.")
                    (User.update docs u')).
    { unfold postVerify. rewrite Hc, Ht. cbn [negb strOf]. rewrite Hfind, Hnot.
      unfold sendEmail. rewrite Hmail. reflexivity. }
    subst after. rewrite Hpv. cbn [usersAfter reply respond].
    split; [reflexivity|]. split.
    + exists u'. split; [|split; reflexivity].
      apply (findById_update docs (User._id user) user u'); [|reflexivity].
      apply findById_unique; [apply Hw|exact Hin].
    + unfold postVerify. rewrite Hc, Ht. cbn [negb strOf].
      assert (Hun : unusedIn (User.update docs u') code)
        by (apply (consumed_code_unused docs code user u'); auto).
      apply findOneByToken_none in Hun. rewrite Hun. reflexivity.
  - intros hashed Ht Hfind Htok Hhash after.
    set (u' := User.setToken (User.setPassword user hashed) None None).
    assert (Hrp : postResetPassword O docs req =
                  {| reply := None; usersAfter := User.update docs u' |}).
    { unfold postResetPassword. rewrite Ht. cbn [negb]. rewrite Hfind, Htok.
      cbn [negb]. rewrite Hhash. unfold sendEmail. rewrite Hmail. reflexivity. }
    subst after. rewrite Hrp. cbn [usersAfter reply].
    split; [reflexivity|].
    exists u'. split; [|split; reflexivity].
    assert (Hid : User._id user = strOf (req_userId req)).
    { pose proof (find_some _ _ Hfind) as [_ He].
      apply String.eqb_eq in He. exact He. }
    rewrite Hid.
    apply (findById_update docs _ user u'); [exact Hfind|exact Hid].
Qed.

(** Alice verifies in time while the mail service is down. *)
Lemma mail_failure_after_save_witness :
  let O := Sample.world [] false in
  let verify := Sample.post None None None None None None (Some "123456") None in
  sgSend O = false /\
  User.findOneByToken Sample.users "123456" = Some Sample.alice /\
  reply (postVerify O Sample.users verify) =
    Some {| status := 500;
            json := BMessage "Hubo un error al verificar la cuenta. Inténtalo de nuevo." |} /\
  postVerify O (usersAfter (postVerify O Sample.users verify)) verify =
    respond 400 (BError "Código de verificación inválido.")
            (usersAfter (postVerify O Sample.users verify)).
Proof.
  intros O verify.
  assert (Hw : wellFormed Sample.users).
  { split; cbn.
    - repeat constructor; cbn; intuition discriminate.
    - repeat constructor. intros []. }
  assert (Hexp : match User.verificationExpires Sample.alice with
                 | Some e => now O <= e
                 | None => True
                 end) by (cbn; lia).
  destruct (mail_failure_after_save O O Sample.users verify Sample.alice Hw eq_refl)
    as [Hverify _].
  destruct (Hverify "123456" eq_refl eq_refl eq_refl Hexp) as (H500 & _ & Hagain).
  split; [reflexivity|]. split; [reflexivity|]. split; [exact H500|exact Hagain].
Defined.

(** ** Names and addresses *)

Lemma insert_taken (docs : list User.t) (u d : User.t) :
  In d docs ->
  User.username d = User.username u \/ User.email d = User.email u ->
  User.insert docs u = None.
Proof.
  intros Hin Hsame. unfold User.insert.
  replace (existsb _ docs) with true; [reflexivity|].
  symmetry. apply existsb_exists. exists d. split; [exact Hin|].
  destruct Hsame as [H|H]; rewrite H, String.eqb_refl;
    rewrite ?orb_true_r; reflexivity.
Qed.

(** X16. POST /register against a taken name or address. A user name
    that an account already has is answered 400 "El usuario ya existe".
    A fresh user name with an address that an account already has is not
    answered at all: the unique index rejects the save inside the bcrypt
    callback, which the route's try block does not cover. Neither changes
    the collection. *)
Theorem register_conflicts (O : oracle) (docs : list User.t) (req : request)
        (d : User.t) :
  fieldMissing req = false ->
  In d docs ->
  (User.username d = strOf (body_username req) ->
   postRegister O docs req = respond 400 (BError "El usuario ya existe") docs) /\
  (forall hashed code rest,
     User.findOneByUsername docs (strOf (body_username req)) = None ->
     User.email d = strOf (body_email req) ->
     bcryptHash O (strOf (body_password req)) = Some hashed ->
     generateUniqueVerificationCode (random O) docs = Some (code, rest) ->
     postRegister O docs req = {| reply := None; usersAfter := docs |}).
Proof.
  intros Hf Hin. split.
  - intros Hname. unfold postRegister. rewrite Hf.
    destruct (User.findOneByUsername docs (strOf (body_username req))) eqn:Hfind;
      [reflexivity|].
    exfalso. unfold User.findOneByUsername in Hfind.
    pose proof (proj1 (find_none_iff _ _) Hfind d Hin) as Hd. cbn in Hd.
    rewrite Hname, String.eqb_refl in Hd. discriminate.
  - intros hashed code rest Hnone Hmail Hhash Hg.
    unfold postRegister. rewrite Hf, Hnone, Hhash, Hg.
    rewrite (insert_taken docs (newUser O req hashed code) d Hin);
      [reflexivity|].
    right. exact Hmail.
Qed.

(** Carol registers with bob's address. *)
Lemma register_conflicts_witness :
  let O := Sample.world [0] true in
  let req := Sample.post None (Some "carol") (Some "secret1")
                         (Some "bob@example.org") (Some "Carol") (Some "C")
                         None None in
  fieldMissing req = false /\ In Sample.bob Sample.users /\
  postRegister O Sample.users req = {| reply := None; usersAfter := Sample.users |}.
Proof.
  intros O req.
  assert (Hin : In Sample.bob Sample.users) by (right; left; reflexivity).
  split; [reflexivity|]. split; [exact Hin|].
  destruct (register_conflicts O Sample.users req Sample.bob eq_refl Hin)
    as [_ Hmail].
  apply (Hmail "bcrypt:secret1" "100000" []); reflexivity.
Defined.

Lemma update_keeps {B : Type} (f : User.t -> B) (docs : list User.t)
      (u u' : User.t) :
  NoDup (map User._id docs) -> In u docs -> User._id u' = User._id u ->
  f u' = f u -> map f (User.update docs u') = map f docs.
Proof.
  intros Hids Hin Hid Hf.
  destruct (update_split docs u u' Hids Hin Hid) as (pre & post & Hd & ->).
  rewrite Hd, !map_app. cbn [map]. rewrite Hf. reflexivity.
Qed.

Lemma NoDup_snoc {A : Type} (l : list A) (a : A) :
  NoDup l -> ~ In a l -> NoDup (l ++ [a]).
Proof.
  intros Hl Ha. induction l as [|x l IH]; cbn.
  - constructor; [intros []|constructor].
  - inversion Hl; subst. constructor.
    + intros Hin. apply in_app_or in Hin as [Hin|[Hin|[]]]; [auto|].
      subst. apply Ha. left. reflexivity.
    + apply IH; [assumption|]. intros Hin. apply Ha. right. exact Hin.
Qed.

(** What a handler leaves: the same names and addresses in the same
    order, or one appended account that passed the unique indexes. *)
Lemma handler_names (E : env) (O : oracle) (route : accountRoute)
      (docs : list User.t) (req : request) :
  NoDup (map User._id docs) ->
  let after := usersAfter (accountHandler E O route docs req) in
  (map User.username after = map User.username docs /\
   map User.email after = map User.email docs) \/
  exists u', User.insert docs u' = Some after.
Proof.
  intros Hids after. subst after.
  assert (Hupd : forall u u', In u docs -> User._id u' = User._id u ->
            User.username u' = User.username u -> User.email u' = User.email u ->
            map User.username (User.update docs u') = map User.username docs /\
            map User.email (User.update docs u') = map User.email docs).
  { intros u u' Hin Hid Hn He.
    split; apply (update_keeps _ docs u u'); assumption. }
  assert (Hissue : forall user mt okm failm, In user docs ->
            map User.username (usersAfter (issueCode O docs user mt okm failm)) =
              map User.username docs /\
            map User.email (usersAfter (issueCode O docs user mt okm failm)) =
              map User.email docs).
  { intros user mt okm failm Hin.
    destruct (issueCode_after O docs user mt okm failm) as [->|(code & rest & _ & ->)];
      [split; reflexivity|].
    apply (Hupd user); auto. }
  destruct route; cbn [accountHandler].
  - unfold postRegister.
    destruct (fieldMissing req); [left; split; reflexivity|].
    destruct (User.findOneByUsername _ _); [left; split; reflexivity|].
    destruct (bcryptHash O _) as [hashed|]; [|left; split; reflexivity].
    destruct (generateUniqueVerificationCode _ _) as [[code rest]|];
      [|left; split; reflexivity].
    destruct (User.insert docs (newUser O req hashed code)) as [saved|] eqn:Hins;
      [|left; split; reflexivity].
    destruct (sendEmail O _ _).
    + right. eexists. exact Hins.
    + left. cbn [usersAfter respond].
      change (strOf (body_email req)) with (User.email (newUser O req hashed code)).
      rewrite (delete_undoes_insert _ _ _ Hins). split; reflexivity.
  - left. unfold postVerify.
    destruct (negb _); [split; reflexivity|].
    destruct (User.findOneByToken _ _) as [user|] eqn:Hfind; [|split; reflexivity].
    apply find_In in Hfind.
    destruct (match User.verificationExpires user with
              | Some e => now O >? e | None => false end); [split; reflexivity|].
    destruct (sendEmail O _ _); cbn [usersAfter respond]; apply (Hupd user); auto.
  - left. unfold postResendVerification.
    destruct (negb _); [split; reflexivity|].
    destruct (User.findOneByEmail _ _) as [user|] eqn:Hfind; [|split; reflexivity].
    apply find_In in Hfind.
    destruct (User.isVerified user); [split; reflexivity|].
    apply Hissue. exact Hfind.
  - left. unfold postForgotPassword.
    destruct (negb _); [split; reflexivity|].
    destruct (User.findOneByEmail _ _) as [user|] eqn:Hfind; [|split; reflexivity].
    apply find_In in Hfind. apply Hissue. exact Hfind.
  - left. unfold postVerifyResetCode.
    destruct (negb _); [split; reflexivity|].
    destruct (User.findOneByToken _ _) as [user|]; [|split; reflexivity].
    destruct (now O >? _); [split; reflexivity|].
    destruct (jwtSign E _ _ _); split; reflexivity.
  - left. unfold postResetPassword.
    destruct (negb _); [split; reflexivity|].
    destruct (User.findById _ _) as [user|] eqn:Hfind; [|split; reflexivity].
    apply find_In in Hfind.
    destruct (negb _); [split; reflexivity|].
    destruct (bcryptHash O _) as [hashed|]; [|split; reflexivity].
    destruct (sendEmail O _ _); cbn [usersAfter respond]; apply (Hupd user); auto.
Qed.

(** X17. No two accounts share a user name or an address. In every
    collection that the account routes can produce from the empty one,
    whatever the requests, the mail failures and the clock, user names are
    pairwise different and so are addresses; so the lookups by user name
    of POST /login and by address of the recovery routes have at most one
    candidate. *)
Theorem reachable_unique_names (E : env) (docs : list User.t) :
  reachable E docs ->
  NoDup (map User.username docs) /\ NoDup (map User.email docs).
Proof.
  induction 1 as [|docs O route req Hreach [IHn IHe]].
  - split; constructor.
  - destruct (serveAccount_after E O route docs req) as [->|[req' ->]];
      [split; assumption|].
    pose proof (reachable_wellFormed E docs Hreach) as [Hids _].
    destruct (handler_names E O route docs req' Hids) as [[-> ->]|[u' Hins]];
      [split; assumption|].
    destruct (insert_spec _ _ _ Hins) as [-> Hfresh].
    rewrite !map_app. cbn [map].
    split; apply NoDup_snoc; try assumption; intros Hin;
      apply in_map_iff in Hin as (d & Hd & Hdin);
      destruct (Hfresh d Hdin) as (_ & Hn & He); congruence.
Qed.

(** Carol registers twice. *)
Lemma reachable_unique_names_witness :
  let E := Sample.E (fun _ => None) in
  let O := Sample.world [0; 1] true in
  let docs1 := usersAfter (serveAccount E O Register [] Sample.registerCarol) in
  let docs2 := usersAfter (serveAccount E O Register docs1 Sample.registerCarol) in
  reachable E docs2 /\ map User.username docs2 = ["carol"] /\
  NoDup (map User.username docs2) /\ NoDup (map User.email docs2).
Proof.
  intros E O docs1 docs2.
  assert (Hr : reachable E docs2).
  { apply reach_request. apply reach_request. apply reach_empty. }
  split; [exact Hr|]. split; [vm_compute; reflexivity|].
  exact (reachable_unique_names E docs2 Hr).
Defined.

(** ** The two token checks *)

(** X18. [authenticateToken] and [authenticateResetToken] accept the same
    tokens. Both verify the bearer token with the one [SECRET_KEY] and
    read only its [userId]: a non-empty token passes one exactly when it
    passes the other, for the same user, and is refused with 403 by both
    otherwise. They differ on the empty token alone, which the reset check
    answers 401 without asking the JWT library. *)
Theorem token_checks_agree (E : env) (req : request) (token : string) :
  bearerToken req = Some token ->
  (token <> EmptyString ->
   match jwtVerify E token (SECRET_KEY E) with
   | Some u =>
       authenticateToken E req = Next (setUser req u) /\
       authenticateResetToken E req = Next (setUserId req (userId u))
   | None =>
       authenticateToken E req = Respond {| status := 403; json := BStatusText |} /\
       authenticateResetToken E req =
         Respond {| status := 403; json := BError "Token inválido o expirado." |}
   end) /\
  (token = EmptyString ->
   authenticateResetToken E req =
     Respond {| status := 401;
                json := BError "Token requerido para restablecer la contraseña." |} /\
   forall u, jwtVerify E EmptyString (SECRET_KEY E) = Some u ->
             authenticateToken E req = Next (setUser req u)).
Proof.
  intros Hb. split.
  - intros Hne.
    assert (Ht : truthy (Some token) = true).
    { cbn. destruct (String.eqb_spec token EmptyString); [contradiction|reflexivity]. }
    unfold authenticateToken, authenticateResetToken. rewrite Hb, Ht.
    cbn [negb strOf].
    destruct (jwtVerify E token (SECRET_KEY E)); split; reflexivity.
  - intros ->. unfold authenticateToken, authenticateResetToken. rewrite Hb.
    cbn [truthy String.eqb negb]. split; [reflexivity|].
    intros u ->. reflexivity.
Qed.

(** The session token of user [u1] passes the reset check. *)
Lemma token_checks_agree_witness :
  let E := Sample.E (fun _ => None) in
  let req := Sample.authed None None None in
  bearerToken req = Some "tok1" /\
  authenticateToken E req = Next (setUser req {| userId := "u1" |}) /\
  authenticateResetToken E req = Next (setUserId req "u1").
Proof.
  intros E req.
  assert (Hb : bearerToken req = Some "tok1") by reflexivity.
  split; [exact Hb|].
  destruct (token_checks_agree E req "tok1" Hb) as [Hagree _].
  apply Hagree. discriminate.
Defined.

(** ** Which routes tell whether an address has an account *)

(** X19. The three routes that take an address answer 404 exactly when no
    account has it: POST /resend-verification, POST /forgot-password and
    POST /recover-username tell any caller whether an address is
    registered (POST /login, by contrast, answers an unknown name like a
    wrong password). *)
Theorem address_routes_reveal_accounts (O : oracle) (docs : list User.t)
        (req : request) :
  truthy (body_email req) = true ->
  let unknown := forall d, In d docs -> User.email d <> strOf (body_email req) in
  let is404 (a : accounted) := exists r, reply a = Some r /\ status r = 404 in
  (is404 (postResendVerification O docs req) <-> unknown) /\
  (is404 (postForgotPassword O docs req) <-> unknown) /\
  (is404 (postRecoverUsername O docs req) <-> unknown).
Proof.
  intros Ht unknown is404. subst unknown is404. cbv beta.
  assert (Hfind : forall user,
            User.findOneByEmail docs (strOf (body_email req)) = Some user ->
            ~ (forall d, In d docs -> User.email d <> strOf (body_email req))).
  { intros user Hf Hno. apply findOneByEmail_In in Hf as [Hin He].
    exact (Hno user Hin He). }
  assert (Hnone : User.findOneByEmail docs (strOf (body_email req)) = None ->
            forall d, In d docs -> User.email d <> strOf (body_email req)).
  { intros Hf d Hin He. unfold User.findOneByEmail in Hf.
    pose proof (proj1 (find_none_iff _ _) Hf d Hin) as Hd. cbn in Hd.
    rewrite He, String.eqb_refl in Hd. discriminate. }
  assert (Hissue : forall user mt okm failm r,
            reply (issueCode O docs user mt okm failm) = Some r -> status r <> 404).
  { intros user mt okm failm r. unfold issueCode.
    destruct (generateUniqueVerificationCode _ _) as [[code rest]|];
      [|discriminate].
    destruct (sendEmail O _ _); cbn; intros [= <-]; cbn; lia. }
  split; [|split].
  - unfold postResendVerification. rewrite Ht. cbn [negb].
    destruct (User.findOneByEmail docs _) as [user|] eqn:Hf.
    + split; [|intros Hno; destruct (Hfind user eq_refl Hno)].
      intros (r & Hr & Hs). exfalso.
      destruct (User.isVerified user).
      * cbn in Hr. injection Hr as <-. cbn in Hs. lia.
      * exact (Hissue _ _ _ _ _ Hr Hs).
    + split; [intros _; auto|]. intros _. eexists. split; reflexivity.
  - unfold postForgotPassword. rewrite Ht. cbn [negb].
    destruct (User.findOneByEmail docs _) as [user|] eqn:Hf.
    + split; [|intros Hno; destruct (Hfind user eq_refl Hno)].
      intros (r & Hr & Hs). exfalso. exact (Hissue _ _ _ _ _ Hr Hs).
    + split; [intros _; auto|]. intros _. eexists. split; reflexivity.
  - unfold postRecoverUsername. rewrite Ht. cbn [negb].
    destruct (User.findOneByEmail docs _) as [user|] eqn:Hf.
    + split; [|intros Hno; destruct (Hfind user eq_refl Hno)].
      intros (r & Hr & Hs). exfalso.
      destruct (sendEmail O _ _); cbn in Hr; injection Hr as <-; cbn in Hs; lia.
    + split; [intros _; auto|]. intros _. eexists. split; reflexivity.
Qed.

(** Nobody has registered carol's address. *)
Lemma address_routes_reveal_accounts_witness :
  let O := Sample.world [0] true in
  let req := Sample.post None None None (Some "carol@example.org") None None
                         None None in
  truthy (body_email req) = true /\
  exists r, reply (postRecoverUsername O Sample.users req) = Some r /\
            status r = 404.
Proof.
  intros O req. split; [reflexivity|].
  destruct (address_routes_reveal_accounts O Sample.users req eq_refl)
    as (_ & _ & Hrecover).
  apply Hrecover. intros d [<-|[<-|[]]]; discriminate.
Defined.

(** ** Profiles *)

Lemma find_snoc {A : Type} (f : A -> bool) (l : list A) (a : A) :
  find f (l ++ [a]) =
  match find f l with
  | Some x => Some x
  | None => if f a then Some a else None
  end.
Proof.
  induction l as [|x l IH]; cbn; [reflexivity|].
  destruct (f x); [reflexivity|exact IH].
Qed.

(** X20. A created profile can be read back, by its owner only. When POST
    /profiles answers 201 (all four fields given, no profile of that name
    for the user, a fresh [_id]), then for a later request with a verified
    token: if it is the creator's, GET /profiles/:id answers 200 with the
    profile as created and GET /profiles lists it after the user's earlier
    profiles; if it is another user's, GET /profiles/:id answers 404 and
    GET /profiles lists what it listed before. *)
Theorem profile_create_then_read (E : env) (newId newId' : string)
        (docs : list Profile.t) (reqC reqG : request) (tokenC tokenG : string)
        (u v : payload) :
  optEqb (headers_x_api_key reqC) (API_KEY E) = true ->
  bearerToken reqC = Some tokenC ->
  jwtVerify E tokenC (SECRET_KEY E) = Some u ->
  optEqb (headers_x_api_key reqG) (API_KEY E) = true ->
  bearerToken reqG = Some tokenG ->
  jwtVerify E tokenG (SECRET_KEY E) = Some v ->
  truthy (body_name reqC) = true -> truthy (body_url reqC) = true ->
  truthy (body_username reqC) = true -> truthy (body_password reqC) = true ->
  Profile.findOneByName docs (userId u) (strOf (body_name reqC)) = None ->
  (forall p, In p docs -> Profile._id p <> newId) ->
  params_profileId reqG = Some newId ->
  let created :=
    {| Profile._id := newId;
       Profile.userId := userId u;
       Profile.url := strOf (body_url reqC);
       Profile.username := strOf (body_username reqC);
       Profile.password := strOf (body_password reqC);
       Profile.name := strOf (body_name reqC) |} in
  let out := snd (serve E newId PostProfiles docs reqC) in
  let after := profilesAfter out in
  let one := sent (snd (serve E newId' GetProfile after reqG)) in
  let all := sent (snd (serve E newId' GetProfiles after reqG)) in
  sent out = Some {| status := 201; json := BProfile created |} /\
  after = (docs ++ [created])%list /\
  (userId v = userId u ->
   one = Some (ok (BProfile created)) /\
   all = Some (ok (BProfiles (Profile.find docs (userId u) ++ [created])%list))) /\
  (userId v <> userId u ->
   one = Some {| status := 404; json := BError "Perfil no encontrado" |} /\
   all = Some (ok (BProfiles (Profile.find docs (userId v))))).
Proof.
  intros HkC HbC HjC HkG HbG HjG Hn Hu Hun Hp Hname Hfresh Hid
         created out after one all.
  assert (Hnc : forall ep, isContent ep = false ->
            isContent ep = true ->
            truthy (orElse (query_profile reqC) (params_profileId reqC)) = true)
    by (intros ep H1 H2; congruence).
  assert (Hout : out = {| sent := Some {| status := 201; json := BProfile created |};
                          calls := []; profilesAfter := (docs ++ [created])%list |}).
  { subst out.
    rewrite (serve_handler E newId PostProfiles docs reqC tokenC u HkC HbC HjC);
      [|intros H; discriminate H].
    cbn [snd handler]. unfold postProfiles.
    cbn [setUser body_name body_url body_username body_password user].
    unfold notEmpty. rewrite Hn, Hu, Hun, Hp. cbn [app]. rewrite Hname.
    reflexivity. }
  assert (Hafter : after = (docs ++ [created])%list)
    by (subst after; rewrite Hout; reflexivity).
  split; [rewrite Hout; reflexivity|]. split; [exact Hafter|].
  assert (Hnew : forall uid,
            Profile.findOne (docs ++ [created]) newId uid =
            if (userId u =? uid)%string then Some created else None).
  { intros uid. unfold Profile.findOne. rewrite find_snoc.
    replace (find _ docs) with (@None Profile.t).
    - cbn [Profile._id Profile.userId created]. rewrite String.eqb_refl.
      reflexivity.
    - symmetry. apply find_none_iff. intros p Hin.
      destruct (String.eqb_spec (Profile._id p) newId) as [He|]; [|reflexivity].
      destruct (Hfresh p Hin He). }
  assert (Hall : forall uid,
            Profile.find (docs ++ [created]) uid =
            (Profile.find docs uid ++
             if (userId u =? uid)%string then [created] else [])%list).
  { intros uid. unfold Profile.find. rewrite filter_app. reflexivity. }
  subst one all.
  rewrite (serve_handler E newId' GetProfile after reqG tokenG v HkG HbG HjG);
    [|intros H; discriminate H].
  rewrite (serve_handler E newId' GetProfiles after reqG tokenG v HkG HbG HjG);
    [|intros H; discriminate H].
  cbn [snd handler]. unfold getProfile, getProfiles.
  cbn [setUser user params_profileId]. rewrite Hid, Hafter. cbn [strOf].
  rewrite Hnew, Hall.
  split.
  - intros Hsame. rewrite Hsame, String.eqb_refl. split; reflexivity.
  - intros Hother.
    destruct (String.eqb_spec (userId u) (userId v)) as [He|_];
      [destruct (Hother (eq_sym He))|].
    rewrite app_nil_r. split; reflexivity.
Qed.

(** User [u1] creates the profile "den"; user [u2] asks for it. *)
Lemma profile_create_then_read_witness :
  let E := Sample.E (fun _ => None) in
  let reqC :=
    {| headers_x_api_key := Some "key";
       headers_authorization := Some "Bearer tok1";
       query_profile := None; query_page := None; query_q := None;
       params_profileId := None; params_id := EmptyString;
       body_name := Some "den"; body_url := Some "http://tv";
       body_username := Some "alice"; body_password := Some "pw3";
       body_email := None; body_firstName := None; body_lastName := None;
       body_code := None; body_verificationCode := None;
       body_newPassword := None; user := None; req_userId := None |} in
  let reqG :=
    {| headers_x_api_key := Some "key";
       headers_authorization := Some "Bearer tok2";
       query_profile := None; query_page := None; query_q := None;
       params_profileId := Some "p3"; params_id := EmptyString;
       body_name := None; body_url := None;
       body_username := None; body_password := None;
       body_email := None; body_firstName := None; body_lastName := None;
       body_code := None; body_verificationCode := None;
       body_newPassword := None; user := None; req_userId := None |} in
  let after := profilesAfter (snd (serve E "p3" PostProfiles Sample.profiles reqC)) in
  (Profile.findOneByName Sample.profiles "u1" "den" = None /\
   forall p, In p Sample.profiles -> Profile._id p <> "p3") /\
  length after = 3%nat /\
  sent (snd (serve E "p4" GetProfile after reqG)) =
    Some {| status := 404; json := BError "Perfil no encontrado" |}.
Proof.
  intros E reqC reqG after.
  assert (Hfresh : forall p, In p Sample.profiles -> Profile._id p <> "p3")
    by (intros p [<-|[<-|[]]]; discriminate).
  split; [split; [reflexivity|exact Hfresh]|].
  destruct (profile_create_then_read E "p3" "p4" Sample.profiles reqC reqG
              "tok1" "tok2" {| userId := "u1" |} {| userId := "u2" |}
              eq_refl eq_refl eq_refl eq_refl eq_refl eq_refl eq_refl eq_refl
              eq_refl eq_refl eq_refl Hfresh eq_refl)
    as (_ & Hafter & _ & Hother).
  split.
  - unfold after. rewrite Hafter. reflexivity.
  - apply Hother. discriminate.
Defined.

Lemma content_keeps_profiles (E : env) (newId : string) (ep : endpoint)
      (docs : list Profile.t) (req : request) :
  isContent ep = true -> profilesAfter (handler E newId ep docs req) = docs.
Proof.
  intros Hc.
  destruct (content_handler E newId ep docs req Hc)
    as [[_ (action & extra & msg & k & F)]|[_ S]].
  - destruct F; reflexivity.
  - destruct S; reflexivity.
Qed.

(** X21. A user never has two profiles of one name. If no two profiles
    share both [userId] and [name], then after any request to any profile
    or content route this still holds; and the only change a request can
    make to the collection is the one profile that POST /profiles appends,
    which belongs to the caller. *)
Theorem profile_names_stay_unique (E : env) (newId : string) (ep : endpoint)
        (docs : list Profile.t) (req : request) :
  let key (p : Profile.t) := (Profile.userId p, Profile.name p) in
  NoDup (map key docs) ->
  let after := profilesAfter (snd (serve E newId ep docs req)) in
  NoDup (map key after) /\
  (after = docs \/
   exists token u p,
     ep = PostProfiles /\ bearerToken req = Some token /\
     jwtVerify E token (SECRET_KEY E) = Some u /\
     Profile._id p = newId /\ Profile.userId p = userId u /\
     after = (docs ++ [p])%list).
Proof.
  intros key Hnd after. subst after.
  pose proof (serve_servedBy E newId ep docs req) as S.
  remember (serve E newId ep docs req) as out eqn:Hout. clear Hout.
  destruct S as [Hk|Hk Hb|token Hk Hb Hj|token u r Hk Hb Hj Hc Ht Hs He
                 |token u Hk Hb Hj Hprof];
    try (cbn [snd ended profilesAfter]; split; [exact Hnd|left; reflexivity]).
  cbn [snd].
  destruct (isContent ep) eqn:Hc.
  { rewrite (content_keeps_profiles E newId ep docs _ Hc).
    split; [exact Hnd|left; reflexivity]. }
  destruct ep; try discriminate Hc; cbn [handler].
  - unfold postProfiles.
    destruct (_ ++ _)%list; [|split; [exact Hnd|left; reflexivity]].
    cbn [setUser user].
    destruct (Profile.findOneByName docs (userId u) _) eqn:Hfind;
      [split; [exact Hnd|left; reflexivity]|].
    cbn [profilesAfter]. unfold Profile.save. split.
    + rewrite map_app. cbn [map]. apply NoDup_snoc; [exact Hnd|].
      intros Hin. apply in_map_iff in Hin as (d & Hd & Hdin).
      unfold Profile.findOneByName in Hfind.
      pose proof (proj1 (find_none_iff _ _) Hfind d Hdin) as Hf. cbn in Hf.
      subst key. cbn in Hd. injection Hd as Hu Hn.
      rewrite Hu, Hn, !String.eqb_refl in Hf. discriminate.
    + right. eexists token, u, _. repeat split; try eassumption; reflexivity.
  - unfold getProfiles. cbn [setUser user profilesAfter].
    split; [exact Hnd|left; reflexivity].
  - unfold getProfile. cbn [setUser user].
    destruct (Profile.findOne _ _ _); split; try exact Hnd; left; reflexivity.
Qed.

(** User [u1] asks for a second profile named "home". *)
Lemma profile_names_stay_unique_witness :
  let E := Sample.E (fun _ => None) in
  let req :=
    {| headers_x_api_key := Some "key";
       headers_authorization := Some "Bearer tok1";
       query_profile := None; query_page := None; query_q := None;
       params_profileId := None; params_id := EmptyString;
       body_name := Some "home"; body_url := Some "http://tv";
       body_username := Some "alice"; body_password := Some "pw3";
       body_email := None; body_firstName := None; body_lastName := None;
       body_code := None; body_verificationCode := None;
       body_newPassword := None; user := None; req_userId := None |} in
  let after := profilesAfter (snd (serve E "p3" PostProfiles Sample.profiles req)) in
  after = Sample.profiles /\
  NoDup (map (fun p => (Profile.userId p, Profile.name p)) after).
Proof.
  intros E req after. split; [reflexivity|].
  apply (profile_names_stay_unique E "p3" PostProfiles Sample.profiles req).
  repeat constructor; cbn; intuition discriminate.
Defined.
